(** * The V3 project migrator of fx-core

    A shallow embedding of
    [packages/fx-core/src/core/middleware/projectMigratorV3.ts] and of
    [packages/fx-core/src/core/middleware/utils/appYmlGenerator.ts]:
    the migration middleware, the coordinator [wrapRunMigration] with
    its rollback, the three migration steps and the generator of
    [app.yml].

    Asynchronous functions are modelled as state-passing computations
    that either return a value or throw; every [await] is a bind, so
    the program order of the source is the evaluation order here.
    Calls that leave the two source files (methods of the
    [MigrationContext] object, the settings loader, [fs], the wrapped
    operation [next]) are recorded in a trace, which the collaborators
    themselves cannot touch. *)

From stdpp Require Import gmap strings list.
From Stdlib Require Import Ascii String.

Local Open Scope string_scope.
Local Open Scope list_scope.

(** ** Strings as the source uses them *)

Module Str.

(** Characters the source text needs and that cannot be typed in a
    literal. *)
Definition dquote : ascii := ascii_of_nat 34.
Definition newline : ascii := ascii_of_nat 10.
Definition of_char (c : ascii) : string := String c EmptyString.

Definition is_upper (c : ascii) : bool :=
  let n := nat_of_ascii c in (65 <=? n)%nat && (n <=? 90)%nat.

Definition lower_char (c : ascii) : ascii :=
  if is_upper c then ascii_of_nat (nat_of_ascii c + 32) else c.

(** [String.prototype.toLowerCase] on the ASCII letters.  Strings are
    byte sequences (UTF-8); bytes above 127 are left as they are.  The
    only non-ASCII character that JavaScript lowers to an ASCII letter
    is the Kelvin sign (to k), and none of the constants the source
    compares with contains a k, so every comparison made below has the
    outcome it has in JavaScript. *)
Fixpoint toLowerCase (s : string) : string :=
  match s with
  | EmptyString => EmptyString
  | String c r => String (lower_char c) (toLowerCase r)
  end.

Fixpoint startsWith (p s : string) : bool :=
  match p, s with
  | EmptyString, _ => true
  | String a p', String b s' => if decide (a = b) then startsWith p' s' else false
  | String _ _, EmptyString => false
  end.

(** [String.prototype.includes]. *)
Fixpoint includes (s sub : string) : bool :=
  startsWith sub s ||
  match s with
  | EmptyString => false
  | String _ r => includes r sub
  end.

Fixpoint join (sep : string) (l : list string) : string :=
  match l with
  | [] => ""
  | [x] => x
  | x :: r => x +:+ sep +:+ join sep r
  end.

(** [s.split("/")]. *)
Fixpoint split_slash_aux (acc : string) (s : string) : list string :=
  match s with
  | EmptyString => [String.rev acc]
  | String c r =>
      if decide (c = "/"%char) then String.rev acc :: split_slash_aux "" r
      else split_slash_aux (String c acc) r
  end.

Definition split_slash (s : string) : list string := split_slash_aux "" s.

Definition endsWithSlash (s : string) : bool :=
  match String.rev s with
  | String c _ => if decide (c = "/"%char) then true else false
  | EmptyString => false
  end.

End Str.

(** ** [path.join] (POSIX flavour of Node's [path] module) *)

Module Path.

(** [normalizeString]: resolves "." and ".." segments; [done] is the
    stack of segments kept so far, last one first. *)
Fixpoint resolve (allowAboveRoot : bool) (done : list string) (segs : list string)
  : list string :=
  match segs with
  | [] => rev done
  | seg :: rest =>
      if decide (seg = "") then resolve allowAboveRoot done rest
      else if decide (seg = ".") then resolve allowAboveRoot done rest
      else if decide (seg = "..") then
        match done with
        | top :: below =>
            if decide (top = "..") then resolve allowAboveRoot (".." :: done) rest
            else resolve allowAboveRoot below rest
        | [] =>
            if allowAboveRoot then resolve allowAboveRoot [".."] rest
            else resolve allowAboveRoot [] rest
        end
      else resolve allowAboveRoot (seg :: done) rest
  end.

Definition normalize (p : string) : string :=
  if decide (p = "") then "."
  else
    let isAbsolute := Str.startsWith "/" p in
    let trailing := Str.endsWithSlash p in
    let body := Str.join "/" (resolve (negb isAbsolute) [] (Str.split_slash p)) in
    if decide (body = "") then
      (if isAbsolute then "/" else if trailing then "./" else ".")
    else
      let body' := if trailing then body +:+ "/" else body in
      if isAbsolute then "/" +:+ body' else body'.

Definition join (parts : list string) : string :=
  match filter (λ s, s ≠ "") parts with
  | [] => "."
  | nonempty => normalize (Str.join "/" nonempty)
  end.

End Path.

(** ** JavaScript values, results and exceptions *)

(** Values as [JSON.parse] produces them, with [undefined] for the
    properties an object literal may leave unset.  A number keeps its
    lexeme. *)
#[warnings="-register-all"]
Inductive JsValue : Type :=
  | JsUndefined
  | JsNull
  | JsBool (b : bool)
  | JsNumber (lexeme : string)
  | JsString (s : string)
  | JsArray (items : list JsValue)
  | JsObject (props : list (string * JsValue)).

(** [FxError] of teamsfx-api, as far as the source looks at it. *)
Record FxError := { errName : string; errMessage : string }.

(** [Result<T, E>] of neverthrow. *)
Inductive Result (T E : Type) : Type :=
  | ok (value : T)
  | err (error : E).
Arguments ok {T E} value.
Arguments err {T E} error.

(** What a [throw] carries. *)
Inductive Exn : Type :=
  | JsError (message : string)
  | TypeError (message : string)
  | SyntaxError (message : string)
  | SystemError (code : string) (path : string)
  | FxErrorThrown (e : FxError)
  | Foreign (tag : string).

(** How a call completes. *)
Inductive Completion (A : Type) : Type :=
  | Normal (a : A)
  | Abrupt (e : Exn).
Arguments Normal {A} a.
Arguments Abrupt {A} e.

(** ** Calls that leave the source files *)

Inductive Event : Type :=
  | CallCreate
  | CallBackup (dir : string)
  | CallFsEnsureDir (dir : string)
  | CallFsWriteFile (file content : string)
  | CallCleanModifiedPaths
  | CallRestoreBackup
  | CallCleanTeamsfx
  | CallLoadProjectSettings (projectPath : string)
  | CallPathExists (file : string)
  | CallReadFile (file : string)
  | CallNext.

#[global] Instance Event_eq_dec : EqDecision Event.
Proof. solve_decision. Defined.

(** ** The world the program runs in *)

Section Model.

(** [Mem] is whatever the collaborators keep to themselves: the ledger
    and backup folder of a [MigrationContext], telemetry, a source of
    fresh identifiers. *)
Context {Mem : Type}.

(** What collaborators can read and change. *)
Record Store : Type := {
  files : gmap string string;
  dirs : gset string;
  mem : Mem;
}.

(** The body of a call that leaves the source: it completes normally or
    abruptly and leaves a store behind in both cases. *)
Definition Effect (A : Type) : Type := Store → Completion A * Store.

Record World : Type := {
  store : Store;
  trace : list Event;
}.

(** [Promise<A>], awaited. *)
Definition Async (A : Type) : Type := World → Completion A * World.

Definition ret {A} (a : A) : Async A := λ w, (Normal a, w).

Definition throw {A} (e : Exn) : Async A := λ w, (Abrupt e, w).

Definition bind {A B} (c : Async A) (k : A → Async B) : Async B :=
  λ w, match c w with
       | (Normal a, w') => k a w'
       | (Abrupt e, w') => (Abrupt e, w')
       end.

(** [try { c } catch (error) { h error }]. *)
Definition try_catch {A} (c : Async A) (h : Exn → Async A) : Async A :=
  λ w, match c w with
       | (Normal a, w') => (Normal a, w')
       | (Abrupt e, w') => h e w'
       end.

Definition lift {A} (r : Completion A) : Async A := λ w, (r, w).

(** A call that leaves the source: the call is recorded, then its body
    runs on the store. *)
Definition call {A} (ev : Event) (body : Effect A) : Async A :=
  λ w, let '(r, s) := body (store w) in
       (r, {| store := s; trace := trace w ++ [ev] |}).

End Model.

Arguments Store : clear implicits.
Arguments World : clear implicits.
Arguments Effect : clear implicits.
Arguments Async : clear implicits.

Declare Scope async_scope.
Delimit Scope async_scope with async.
Notation "x <- c ;; k" := (bind c (λ x, k))
  (at level 20, c at level 99, k at level 200, only parsing) : async_scope.
Notation "c ;; k" := (bind c (λ _, k))
  (at level 100, k at level 200, only parsing, right associativity) : async_scope.
Local Open Scope async_scope.

(** ** [fs-extra] *)

Section Fs.
Context {Mem : Type}.

(** The tree of the store is all there is to the file system: reading
    succeeds on the regular files of [files], and fails with EISDIR on a
    directory and with ENOENT on a path that is neither. *)
Definition readFile_body (file : string) : Effect Mem string :=
  λ s, match files s !! file with
       | Some content => (Normal content, s)
       | None =>
           (Abrupt (SystemError (if decide (file ∈ dirs s) then "EISDIR" else "ENOENT") file), s)
       end.

(** [fs.readFile(file, "utf8")]. *)
Definition fs_readFile (file : string) : Async Mem string :=
  call (CallReadFile file) (readFile_body file).

Definition pathExists_body (file : string) : Effect Mem bool :=
  λ s, (Normal (bool_decide (is_Some (files s !! file)) || bool_decide (file ∈ dirs s)), s).

(** [fs.pathExists(file)]. *)
Definition fs_pathExists (file : string) : Async Mem bool :=
  call (CallPathExists file) (pathExists_body file).

End Fs.

(** ** [JSON.stringify] *)

Module Json.

Definition hex_digit (n : nat) : ascii :=
  match String.get n "0123456789abcdef" with
  | Some c => c
  | None => "0"%char
  end.

(** One code unit of [QuoteJSONString]. *)
Definition escape_char (c : ascii) : string :=
  let n := nat_of_ascii c in
  if decide (n = 34) then String "\" (Str.of_char Str.dquote)
  else if decide (n = 92) then "\\"
  else if decide (n = 8) then "\b"
  else if decide (n = 12) then "\f"
  else if decide (n = 10) then "\n"
  else if decide (n = 13) then "\r"
  else if decide (n = 9) then "\t"
  else if decide (n < 32)%nat then
    "\u00" +:+ String (hex_digit (n / 16)) (Str.of_char (hex_digit (n mod 16)))
  else Str.of_char c.

Fixpoint escape (s : string) : string :=
  match s with
  | EmptyString => EmptyString
  | String c r => escape_char c +:+ escape r
  end.

Definition quote (s : string) : string :=
  String Str.dquote (escape s) +:+ Str.of_char Str.dquote.

Definition spaces (n : nat) : string := Str.join "" (replicate n " ").

(** The text between the brackets of an array or an object. *)
Definition wrap (opening closing gap indent : string) (parts : list string) : string :=
  match parts with
  | [] => opening +:+ closing
  | _ =>
      if decide (gap = "") then opening +:+ Str.join "," parts +:+ closing
      else
        let inner := indent +:+ gap in
        let nl := Str.of_char Str.newline in
        opening +:+ nl +:+ inner +:+ Str.join ("," +:+ nl +:+ inner) parts
          +:+ nl +:+ indent +:+ closing
  end.

(** [SerializeJSONProperty] for a value that is not [undefined]; an
    [undefined] item of an array is written null, an [undefined]
    property of an object is left out. *)
Fixpoint serialize (gap indent : string) (v : JsValue) {struct v} : string :=
  match v with
  | JsUndefined => "null"
  | JsNull => "null"
  | JsBool b => if b then "true" else "false"
  | JsNumber lexeme => lexeme
  | JsString s => quote s
  | JsArray items =>
      wrap "[" "]" gap indent
        ((fix each (l : list JsValue) : list string :=
            match l with
            | [] => []
            | x :: r => serialize gap (indent +:+ gap) x :: each r
            end) items)
  | JsObject props =>
      wrap "{" "}" gap indent
        ((fix members (l : list (string * JsValue)) : list string :=
            match l with
            | [] => []
            | (_, JsUndefined) :: r => members r
            | (k, x) :: r =>
                (quote k +:+ (if decide (gap = "") then ":" else ": ")
                   +:+ serialize gap (indent +:+ gap) x) :: members r
            end) props)
  end.

(** [JSON.stringify(v, null, space)] for [v] other than [undefined]
    and [space] at most 10. *)
Definition stringify (v : JsValue) (space : nat) : string :=
  serialize (spaces space) "" v.

(** [v.key] for a key no prototype defines: reading a property of
    [undefined] or [null] throws, a missing property is [undefined], and
    of two members of one name in a parsed text the last one counts. *)
Definition get (v : JsValue) (key : string) : Completion JsValue :=
  match v with
  | JsUndefined | JsNull =>
      Abrupt (TypeError ("Cannot read properties of undefined or null, reading " +:+ key))
  | JsObject props =>
      match list_find (λ kv, kv.1 = key) (reverse props) with
      | Some (_, (_, x)) => Normal x
      | None => Normal JsUndefined
      end
  | _ => Normal JsUndefined
  end.

Definition of_optional_string (o : option string) : JsValue :=
  match o with
  | Some s => JsString s
  | None => JsUndefined
  end.

End Json.

(** ** Data model *)

(** [AzureSolutionSettings], the fields the generator reads. *)
Record AzureSolutionSettings : Type := {
  hostType : string;
  activeResourcePlugins : list string;
}.

(** [ProjectSettings] of the old project; an optional field that is
    not set is [None]. *)
Record ProjectSettings : Type := {
  appName : string;
  projectId : option string;
  programmingLanguage : option string;
  defaultFunctionName : option string;
  solutionSettings : option AzureSolutionSettings;
}.

Record Inputs : Type := {
  inputsProjectPath : option string;
}.

(** [CoreHookContext]: the hook context of the wrapped operation. *)
Record CoreHookContext : Type := {
  arguments : list Inputs;
  method : option string;
  result : option (Result JsValue FxError);
}.

(** [ctx.result = r]. *)
Definition set_result (ctx : CoreHookContext) (r : Result JsValue FxError) : CoreHookContext :=
  {| arguments := arguments ctx; method := method ctx; result := Some r |}.

(** The object handed to the handlebars template of [app.yml]. *)
Record HandlebarsContext : Type := {
  activePlugins : gmap string bool;
  placeholderMappings : gmap string string;
  aadAppName : JsValue;
  teamsAppName : JsValue;
  hc_appName : option string;
  isFunctionBot : bool;
  isWebAppBot : bool;
  useBotWebAppResourceId : bool;
  isTypescript : bool;
  hc_defaultFunctionName : option string;
  environmentFolder : option string;
  hc_projectId : option string;
  dotnetPath : option string;
}.

Section Context_object.
Context {Mem : Type}.

(** A [MigrationContext] object (utils/migrationContext.ts): its
    project path and the bodies of the methods the migrator calls. *)
Record MigrationContext : Type := {
  projectPath : string;
  backup_body : string → Effect Mem bool;
  fsEnsureDir_body : string → Effect Mem unit;
  fsWriteFile_body : string → string → Effect Mem unit;
  cleanModifiedPaths_body : Effect Mem unit;
  restoreBackup_body : Effect Mem unit;
  cleanTeamsfx_body : Effect Mem unit;
}.

(** [context.backup(dir)] and the other method calls. *)
Definition backup (context : MigrationContext) (dir : string) : Async Mem bool :=
  call (CallBackup dir) (backup_body context dir).

Definition fsEnsureDir (context : MigrationContext) (dir : string) : Async Mem unit :=
  call (CallFsEnsureDir dir) (fsEnsureDir_body context dir).

Definition fsWriteFile (context : MigrationContext) (file content : string) : Async Mem unit :=
  call (CallFsWriteFile file content) (fsWriteFile_body context file content).

Definition cleanModifiedPaths (context : MigrationContext) : Async Mem unit :=
  call CallCleanModifiedPaths (cleanModifiedPaths_body context).

Definition restoreBackup (context : MigrationContext) : Async Mem unit :=
  call CallRestoreBackup (restoreBackup_body context).

Definition cleanTeamsfx (context : MigrationContext) : Async Mem unit :=
  call CallCleanTeamsfx (cleanTeamsfx_body context).

End Context_object.

Arguments MigrationContext : clear implicits.

(** What the two source files import from the rest of the repository
    and from libraries, taken as it is declared there. *)
Class Collaborators (Mem : Type) : Type := {
  (* @microsoft/teamsfx-api *)
  SettingsFolderName : string;
  SettingsFileName : string;
  AppPackageFolderName : string;
  (* ./utils/migrationContext *)
  V2TeamsfxFolder : string;
  MigrationContext_create_body : CoreHookContext → Effect Mem (MigrationContext Mem);
  (* ./projectMigrator *)
  checkMethod : CoreHookContext → bool;
  checkUserTasks : CoreHookContext → bool;
  (* ./projectSettingsLoader *)
  loadProjectSettingsByProjectPathV2_body :
    string → bool → Effect Mem (Result ProjectSettings FxError);
  (* ../../../common/versionMetadata *)
  aadManifestFileName : string;
  teamsManifestFileName : string;
  defaultEnvironmentFolder : string;
  (* ../../../folder *)
  getTemplatesFolder : string;
  (* ../../../component/migrate, ../../../common/projectSettingsHelperV3 *)
  ProjectSettingsV3 : Type;
  convertProjectSettingsV2ToV3 : ProjectSettings → string → ProjectSettingsV3;
  hasFunctionBot : ProjectSettingsV3 → bool;
  hasWebAppBot : ProjectSettingsV3 → bool;
  (* ./MigrationUtils *)
  FileType : Type;
  STATE : FileType;
  namingConverterV3 : string → FileType → string → Result string FxError;
  (* JSON.parse; None is a SyntaxError *)
  JSON_parse : string → option JsValue;
  (* handlebars.compile(templateString)(context) *)
  handlebars_render : string → HandlebarsContext → Completion string;
}.

(** ** utils/appYmlGenerator.ts *)

Module AppYmlGenerator.
Section Generator.
Context {Mem : Type} {collab : Collaborators Mem}.

(** The fields of an [AppYmlGenerator] object. *)
Record t : Type := {
  oldProjectSettings : ProjectSettings;
  bicepContent : string;
  projectPath : string;
  handlebarsContext : HandlebarsContext;
}.

Definition with_context (g : t) (h : HandlebarsContext) : t :=
  {| oldProjectSettings := oldProjectSettings g; bicepContent := bicepContent g;
     projectPath := projectPath g; handlebarsContext := h |}.

(** [new AppYmlGenerator(oldProjectSettings, bicepContent, projectPath)]. *)
Definition new (oldProjectSettings : ProjectSettings) (bicepContent projectPath : string) : t :=
  {| oldProjectSettings := oldProjectSettings;
     bicepContent := bicepContent;
     projectPath := projectPath;
     handlebarsContext :=
       {| activePlugins := ∅;
          placeholderMappings := ∅;
          aadAppName := JsUndefined;
          teamsAppName := JsUndefined;
          hc_appName := None;
          isFunctionBot := false;
          isWebAppBot := false;
          useBotWebAppResourceId := false;
          isTypescript := false;
          hc_defaultFunctionName := None;
          environmentFolder := None;
          hc_projectId := None;
          dotnetPath := Some "DOTNET_PATH" |} |}.

Definition unsupportedMessage : string :=
  "The current tooling cannot upgrade your project temporary. Please raise an issue in GitHub for your project.".

(** [fs.readJson(file)]. *)
Definition fs_readJson (file : string) : Async Mem JsValue :=
  content <- fs_readFile file ;;
  match JSON_parse content with
  | Some v => ret v
  | None => throw (SyntaxError file)
  end.

(** [BaseAppYmlGenerator.buildHandlebarsTemplate]. *)
Definition buildHandlebarsTemplate (g : t) (templateName : string) : Async Mem string :=
  let templatePath := Path.join [getTemplatesFolder; "core/v3Migration"; templateName] in
  templateString <- fs_readFile templatePath ;;
  lift (handlebars_render templateString (handlebarsContext g)).

(** [this.handlebarsContext.placeholderMappings[placeholder] = value]. *)
Definition set_mapping (h : HandlebarsContext) (placeholder value : string) : HandlebarsContext :=
  {| activePlugins := activePlugins h;
     placeholderMappings := <[placeholder := value]> (placeholderMappings h);
     aadAppName := aadAppName h; teamsAppName := teamsAppName h;
     hc_appName := hc_appName h; isFunctionBot := isFunctionBot h;
     isWebAppBot := isWebAppBot h; useBotWebAppResourceId := useBotWebAppResourceId h;
     isTypescript := isTypescript h; hc_defaultFunctionName := hc_defaultFunctionName h;
     environmentFolder := environmentFolder h; hc_projectId := hc_projectId h;
     dotnetPath := dotnetPath h |}.

Definition setPlaceholderMapping (g : t) (placeholder : string) : t :=
  match namingConverterV3 placeholder STATE (bicepContent g) with
  | ok value => with_context g (set_mapping (handlebarsContext g) placeholder value)
  | err _ => g (* ignore non-exist placeholder *)
  end.

(** The nine placeholders of [generateAzureHandlebarsContext], in the
    order the source sets them. *)
Definition azurePlaceholders : list string :=
  [ "state.fx-resource-frontend-hosting.storageResourceId";
    "state.fx-resource-frontend-hosting.endpoint";
    "state.fx-resource-frontend-hosting.resourceId";
    "state.fx-resource-frontend-hosting.indexPath";
    "state.fx-resource-bot.resourceId";
    "state.fx-resource-bot.functionAppResourceId";
    "state.fx-resource-bot.botWebAppResourceId";
    "state.fx-resource-function.functionAppResourceId";
    "state.fx-resource-function.functionEndpoint" ].

Definition set_bot_flags (h : HandlebarsContext) (functionBot webAppBot useResourceId : bool)
  : HandlebarsContext :=
  {| activePlugins := activePlugins h; placeholderMappings := placeholderMappings h;
     aadAppName := aadAppName h; teamsAppName := teamsAppName h;
     hc_appName := hc_appName h; isFunctionBot := functionBot;
     isWebAppBot := webAppBot; useBotWebAppResourceId := useResourceId;
     isTypescript := isTypescript h; hc_defaultFunctionName := hc_defaultFunctionName h;
     environmentFolder := environmentFolder h; hc_projectId := hc_projectId h;
     dotnetPath := dotnetPath h |}.

Definition generateAzureHandlebarsContext (g : t) : t :=
  let projectSettings := convertProjectSettingsV2ToV3 (oldProjectSettings g) (projectPath g) in
  let webAppBot := hasWebAppBot projectSettings in
  let g1 :=
    with_context g
      (set_bot_flags (handlebarsContext g) (hasFunctionBot projectSettings) webAppBot
         (webAppBot && Str.includes (bicepContent g) "botWebAppResourceId")) in
  foldl setPlaceholderMapping g1 azurePlaceholders.

(** [this.handlebarsContext.activePlugins[activePlugin] = true] on the
    plain object the constructor made.  The name __proto__ is not a
    property of its own but the accessor of the prototype, whose setter
    ignores a value that is neither an object nor null: for that name
    the assignment adds nothing. *)
Definition set_activePlugin (plugins : gmap string bool) (activePlugin : string)
  : gmap string bool :=
  if decide (activePlugin = "__proto__") then plugins
  else <[activePlugin := true]> plugins.

(** The assignments of [generateCommonHandlerbarsContext] once both
    manifests have been looked at. *)
Definition common_context (g : t) (plugins : list string) (aad teams : JsValue)
  : HandlebarsContext :=
  let h := handlebarsContext g in
  let old := oldProjectSettings g in
  {| activePlugins := foldl set_activePlugin (activePlugins h) plugins;
     placeholderMappings := placeholderMappings h;
     aadAppName := aad;
     teamsAppName := teams;
     hc_appName := Some (appName old);
     isFunctionBot := isFunctionBot h;
     isWebAppBot := isWebAppBot h;
     useBotWebAppResourceId := useBotWebAppResourceId h;
     isTypescript :=
       bool_decide (Str.toLowerCase <$> programmingLanguage old = Some "typescript");
     hc_defaultFunctionName := defaultFunctionName old;
     environmentFolder := Some defaultEnvironmentFolder;
     hc_projectId := projectId old;
     dotnetPath := dotnetPath h |}.

(** The name of a manifest, when the manifest file exists:
    [if (await fs.pathExists(p)) { m = await fs.readJson(p); x = pick(m) }]. *)
Definition manifest_name (file : string) (current : JsValue)
    (pick : JsValue → Completion JsValue) : Async Mem JsValue :=
  found <- fs_pathExists file ;;
  if found then
    manifest <- fs_readJson file ;;
    lift (pick manifest)
  else ret current.

Definition generateCommonHandlerbarsContext (g : t) : Async Mem t :=
  match solutionSettings (oldProjectSettings g) with
  | None => throw (TypeError "Cannot read properties of undefined, reading activeResourcePlugins")
  | Some azureSolutionSettings =>
      aad <- manifest_name (Path.join [projectPath g; aadManifestFileName])
               (aadAppName (handlebarsContext g))
               (λ aadManifest, Json.get aadManifest "name") ;;
      teams <- manifest_name
               (Path.join [projectPath g; AppPackageFolderName; teamsManifestFileName])
               (teamsAppName (handlebarsContext g))
               (λ teamsAppManifest,
                  match Json.get teamsAppManifest "name" with
                  | Normal name => Json.get name "short"
                  | Abrupt e => Abrupt e
                  end) ;;
      ret (with_context g
             (common_context g (activeResourcePlugins azureSolutionSettings) aad teams))
  end.

(** The [switch] on [programmingLanguage?.toLowerCase()] of the Azure
    branch: the template of a language, if it has one. *)
Definition azureTemplate (language : option string) : option string :=
  match Str.toLowerCase <$> language with
  | Some l =>
      if decide (l = "javascript") then Some "js.ts.app.yml"
      else if decide (l = "typescript") then Some "js.ts.app.yml"
      else if decide (l = "csharp") then Some "csharp.app.yml"
      else None
  | None => None
  end.

Definition generateAppYml (g : t) : Async Mem string :=
  g1 <- generateCommonHandlerbarsContext g ;;
  match solutionSettings (oldProjectSettings g1) with
  | None => throw (TypeError "Cannot read properties of undefined, reading hostType")
  | Some solutionSettings =>
      if decide (Str.toLowerCase (hostType solutionSettings) = "azure") then
        let g2 := generateAzureHandlebarsContext g1 in
        match azureTemplate (programmingLanguage (oldProjectSettings g2)) with
        | Some templateName => buildHandlebarsTemplate g2 templateName
        | None => throw (JsError unsupportedMessage)
        end
      else if decide (Str.toLowerCase (hostType solutionSettings) = "spfx") then
        buildHandlebarsTemplate g1 "spfx.app.yml"
      else throw (JsError unsupportedMessage)
  end.

(** [new AppYmlGenerator(oldProjectSettings, bicepContent)] followed by
    [generateAppYml()].  A call of the constructor with two arguments
    leaves its third parameter, and with it [this.projectPath],
    [undefined].  [generateAppYml] begins with
    [generateCommonHandlerbarsContext], which assigns the app name, goes
    through the active plugins and then evaluates
    [path.join(this.projectPath, MetadataV3.aadManifestFileName)];
    [path.join] throws a TypeError (ERR_INVALID_ARG_TYPE) on an argument
    that is not a string.  Nothing has been looked up in the file
    system by then, and nothing of the method is run after it. *)
Definition generateAppYml_without_projectPath
    (oldProjectSettings : ProjectSettings) (bicepContent : string) : Async Mem string :=
  match solutionSettings oldProjectSettings with
  | None =>
      (* for (const activePlugin of azureSolutionSettings.activeResourcePlugins) *)
      throw (TypeError "Cannot read properties of undefined, reading activeResourcePlugins")
  | Some azureSolutionSettings =>
      (* path.join(this.projectPath, MetadataV3.aadManifestFileName) *)
      throw (TypeError "The path argument must be of type string. Received undefined")
  end.

End Generator.
End AppYmlGenerator.

(** ** projectMigratorV3.ts *)

Section Migrator.
Context {Mem : Type} {collab : Collaborators Mem}.

Definition MigrationVersion : string := "2.1.0".

Definition provisionBicepPath : string := "./templates/azure/provision.bicep".
Definition appYmlName : string := "app.yml".

Definition Migration : Type := MigrationContext Mem → Async Mem unit.

Definition loadProjectSettings (projectPath : string) : Async Mem ProjectSettings :=
  oldProjectSettings <-
    call (CallLoadProjectSettings projectPath)
         (loadProjectSettingsByProjectPathV2_body projectPath true) ;;
  match oldProjectSettings with
  | ok value => ret value
  | err error => throw (FxErrorThrown error)
  end.

Definition preMigration : Migration := λ context,
  _ <- backup context V2TeamsfxFolder ;;
  ret tt.

(** The object literal [content] of [generateSettingsJson]. *)
Definition settingsContent (oldProjectSettings : ProjectSettings) : JsValue :=
  JsObject [ ("version", JsString "3.0.0");
             ("trackingId", Json.of_optional_string (projectId oldProjectSettings)) ].

Definition generateSettingsJson : Migration := λ context,
  oldProjectSettings <- loadProjectSettings (projectPath context) ;;
  let content := settingsContent oldProjectSettings in
  fsEnsureDir context SettingsFolderName ;;
  fsWriteFile context (Path.join [SettingsFolderName; SettingsFileName])
    (Json.stringify content 4).

(** The step builds the generator with two arguments,
    [new AppYmlGenerator(oldProjectSettings, bicepContent)], while the
    constructor of utils/appYmlGenerator.ts has a third parameter, the
    project path: the object it calls [generateAppYml()] on has no
    project path. *)
Definition generateAppYml : Migration := λ context,
  bicepContent <- fs_readFile (Path.join [projectPath context; provisionBicepPath]) ;;
  oldProjectSettings <- loadProjectSettings (projectPath context) ;;
  appYmlString <-
    AppYmlGenerator.generateAppYml_without_projectPath oldProjectSettings bicepContent ;;
  fsWriteFile context (Path.join [SettingsFolderName; appYmlName]) appYmlString.

Definition subMigrations : list Migration :=
  [preMigration; generateSettingsJson; generateAppYml].

(** [for (const x of l) { await body(x); }]. *)
Fixpoint for_of {A} (l : list A) (body : A → Async Mem unit) : Async Mem unit :=
  match l with
  | [] => ret tt
  | x :: rest => body x ;; for_of rest body
  end.

Definition migrate : Migration := λ context,
  for_of subMigrations (λ subMigration, subMigration context).

Definition showSummaryReport (context : MigrationContext Mem) : Async Mem unit := ret tt.

Definition rollbackMigration (context : MigrationContext Mem) : Async Mem unit :=
  cleanModifiedPaths context ;;
  restoreBackup context ;;
  cleanTeamsfx context.

Definition wrapRunMigration (context : MigrationContext Mem) (exec : Migration)
  : Async Mem unit :=
  try_catch
    (exec context ;;
     showSummaryReport context)
    (λ error,
       rollbackMigration context ;;
       throw error).

(** TODO in the source: read the real version from project setting. *)
Definition getProjectVersion (ctx : CoreHookContext) : Async Mem string :=
  ret "2.1.0".

Definition checkVersionForMigration (ctx : CoreHookContext) : Async Mem bool :=
  version <- getProjectVersion ctx ;;
  ret (bool_decide (version = MigrationVersion)).

(** [MigrationContext.create(ctx)]. *)
Definition MigrationContext_create (ctx : CoreHookContext) : Async Mem (MigrationContext Mem) :=
  call CallCreate (MigrationContext_create_body ctx).

(** The middleware.  [next] runs the rest of the chain on the same hook
    context object, so the context comes back from it. *)
Definition ProjectMigratorMWV3 (ctx : CoreHookContext)
    (next : CoreHookContext → Effect Mem CoreHookContext) : Async Mem CoreHookContext :=
  versionOk <- checkVersionForMigration ctx ;;
  if versionOk && checkMethod ctx then
    if negb (checkUserTasks ctx) then
      ret (set_result ctx (ok JsUndefined))
    else
      migrationContext <- MigrationContext_create ctx ;;
      wrapRunMigration migrationContext migrate ;;
      ret (set_result ctx (ok JsUndefined))
  else
    (* continue next step only when no upgrade is needed *)
    call CallNext (next ctx).

End Migrator.

(** ** Statements of the specification, in its own words *)

Module Spec.

(** The template the specification assigns to a target: Azure hosting
    with javascript or typescript, Azure hosting with csharp, SPFx
    hosting; no other target has one.  Names are compared without
    regard to case. *)
Definition templateFor (hostType : string) (language : option string) : option string :=
  let host := Str.toLowerCase hostType in
  let lang := Str.toLowerCase <$> language in
  if decide (host = "azure") then
    if decide (lang = Some "javascript" ∨ lang = Some "typescript") then Some "js.ts.app.yml"
    else if decide (lang = Some "csharp") then Some "csharp.app.yml"
    else None
  else if decide (host = "spfx") then Some "spfx.app.yml"
  else None.

(** A target without a template: the host type is neither Azure nor
    SPFx, or it is Azure and the language is none of javascript,
    typescript and csharp. *)
Definition unsupported (hostType : string) (language : option string) : Prop :=
  let host := Str.toLowerCase hostType in
  let lang := Str.toLowerCase <$> language in
  (host ≠ "azure" ∧ host ≠ "spfx") ∨
  (host = "azure" ∧ lang ≠ Some "javascript" ∧ lang ≠ Some "typescript" ∧ lang ≠ Some "csharp").

(** The text of the generated settings file: the JSON object with
    member version and, when there is an identifier, member trackingId,
    indented by four spaces. *)
Definition settingsText (trackingId : option string) : string :=
  let nl := Str.of_char Str.newline in
  "{" +:+ nl +:+ "    " +:+ Json.quote "version" +:+ ": " +:+ Json.quote "3.0.0"
  +:+ match trackingId with
      | Some t => "," +:+ nl +:+ "    " +:+ Json.quote "trackingId" +:+ ": " +:+ Json.quote t
      | None => ""
      end
  +:+ nl +:+ "}".

(** A path at which the project tree has neither a file nor a
    directory. *)
Definition absent {Mem} (file : string) (w : World Mem) : Prop :=
  files (store w) !! file = None ∧ file ∉ dirs (store w).

(** Modelled from the spec: the generator of random unique
    identifiers, which is not among the sources.  All a run sees of it
    is how many identifiers it has handed out. *)
Record IdSource : Type := { drawn : nat }.

(** Modelled from the spec: the store once the generator of
    identifiers has handed out one more. *)
Definition draw (s : Store IdSource) : Store IdSource :=
  {| files := files s; dirs := dirs s; mem := {| drawn := S (drawn (mem s)) |} |}.

(** Modelled from the spec: the collaborator that loads the old
    settings from the project path, [loadProjectSettingsByProjectPathV2]
    of ./projectSettingsLoader, which is not among the sources.  It
    answers with the old settings or with a failure.  The tracking id of
    the generated settings is preserved from the identifier of the old
    project if present and otherwise freshly generated, a random unique
    identifier; the settings step of the source copies the identifier
    of the settings it is handed and generates none, so it is from this
    collaborator that settings without an identifier come back with a
    fresh one.  [stored] is what the old settings file
    of a project holds, and [uuid n] the identifier the generator hands
    out at its [n]-th draw. *)
Definition loadOldSettings
    (stored : string → Store IdSource → Result ProjectSettings FxError)
    (uuid : nat → string) (projectPath : string) (isMultiEnvEnabled : bool)
  : Effect IdSource (Result ProjectSettings FxError) :=
  λ s,
    match stored projectPath s with
    | err failure => (Normal (err failure), s)
    | ok old =>
        match projectId old with
        | Some _ => (Normal (ok old), s)
        | None =>
            (Normal (ok {| appName := appName old;
                           projectId := Some (uuid (drawn (mem s)));
                           programmingLanguage := programmingLanguage old;
                           defaultFunctionName := defaultFunctionName old;
                           solutionSettings := solutionSettings old |}),
             draw s)
        end
    end.

End Spec.

(** ** Test doubles *)

Module Doubles.

Definition resolves {A} (a : A) : Effect unit A := λ s, (Normal a, s).
Definition rejects {A} (e : Exn) : Effect unit A := λ s, (Abrupt e, s).

(** A context over an in-memory tree: writes land in the store under
    the project path, the other methods do nothing. *)
Definition writeFile_in_memory (root file content : string) : Effect unit unit :=
  λ s, (Normal tt,
        {| files := <[Path.join [root; file] := content]> (files s);
           dirs := dirs s; mem := mem s |}).

Definition ensureDir_in_memory (root dir : string) : Effect unit unit :=
  λ s, (Normal tt,
        {| files := files s; dirs := {[Path.join [root; dir]]} ∪ dirs s; mem := mem s |}).

Definition workingContext : MigrationContext unit :=
  {| projectPath := "/proj";
     backup_body := λ _, resolves true;
     fsEnsureDir_body := ensureDir_in_memory "/proj";
     fsWriteFile_body := writeFile_in_memory "/proj";
     cleanModifiedPaths_body := resolves tt;
     restoreBackup_body := resolves tt;
     cleanTeamsfx_body := resolves tt |}.

Definition backupError : Exn := SystemError "EACCES" "/proj/.fx".
Definition cleanError : Exn := SystemError "EBUSY" "/proj/teamsfx".

(** The backup fails, the rollback works. *)
Definition noBackupContext : MigrationContext unit :=
  {| projectPath := "/proj";
     backup_body := λ _, rejects backupError;
     fsEnsureDir_body := ensureDir_in_memory "/proj";
     fsWriteFile_body := writeFile_in_memory "/proj";
     cleanModifiedPaths_body := resolves tt;
     restoreBackup_body := resolves tt;
     cleanTeamsfx_body := resolves tt |}.

(** The backup fails, and so does the first operation of the rollback. *)
Definition brokenContext : MigrationContext unit :=
  {| projectPath := "/proj";
     backup_body := λ _, rejects backupError;
     fsEnsureDir_body := ensureDir_in_memory "/proj";
     fsWriteFile_body := writeFile_in_memory "/proj";
     cleanModifiedPaths_body := rejects cleanError;
     restoreBackup_body := resolves tt;
     cleanTeamsfx_body := resolves tt |}.

Definition resolved (placeholder : string) : string := "resolved:" +:+ placeholder.

(** Collaborators of a test: [create] hands out [context], the loader
    returns [loaded], a placeholder resolves when the bicep text
    mentions it, and a template renders to its own text. *)
Definition collaborators (context : MigrationContext unit)
    (loaded : Result ProjectSettings FxError) (methodOk tasksOk : bool) : Collaborators unit :=
  {| SettingsFolderName := "teamsfx";
     SettingsFileName := "settings.json";
     AppPackageFolderName := "appPackage";
     V2TeamsfxFolder := ".fx";
     MigrationContext_create_body := λ _, resolves context;
     checkMethod := λ _, methodOk;
     checkUserTasks := λ _, tasksOk;
     loadProjectSettingsByProjectPathV2_body := λ _ _, resolves loaded;
     aadManifestFileName := "aad.manifest.json";
     teamsManifestFileName := "manifest.json";
     defaultEnvironmentFolder := "env";
     getTemplatesFolder := "/templates";
     ProjectSettingsV3 := ProjectSettings;
     convertProjectSettingsV2ToV3 := λ settings _, settings;
     hasFunctionBot := λ _, false;
     hasWebAppBot := λ settings,
       bool_decide ("fx-resource-bot" ∈
                      from_option activeResourcePlugins [] (solutionSettings settings));
     FileType := unit;
     STATE := tt;
     namingConverterV3 := λ placeholder _ bicep,
       if Str.includes bicep placeholder then ok (resolved placeholder)
       else err {| errName := "FailedToConvertV2ConfigNameToV3"; errMessage := placeholder |};
     JSON_parse := λ _, None;
     handlebars_render := λ templateString _, Normal templateString |}.

Definition azureSettings (id language : option string) : ProjectSettings :=
  {| appName := "my app";
     projectId := id;
     programmingLanguage := language;
     defaultFunctionName := None;
     solutionSettings :=
       Some {| hostType := "Azure";
               activeResourcePlugins := ["fx-resource-frontend-hosting"; "fx-resource-bot"] |} |}.

Definition spfxSettings : ProjectSettings :=
  {| appName := "my app";
     projectId := Some "abc-123";
     programmingLanguage := Some "typescript";
     defaultFunctionName := None;
     solutionSettings :=
       Some {| hostType := "SPFx"; activeResourcePlugins := ["fx-resource-spfx"] |} |}.

Definition hookContext : CoreHookContext :=
  {| arguments := [ {| inputsProjectPath := Some "/proj" |} ];
     method := Some "provisionResources";
     result := None |}.

(** The wrapped operation: it answers with a result of its own. *)
Definition operation (ctx : CoreHookContext) : Effect unit CoreHookContext :=
  resolves (set_result ctx (ok (JsString "done"))).

Definition world (tree : gmap string string) : World unit :=
  {| store := {| files := tree; dirs := {["/proj"]}; mem := tt |}; trace := [] |}.

(** A project directory with nothing in it. *)
Definition emptyProject : World unit := world ∅.

(** An Azure project: the bicep file of the old project and the
    templates of the toolkit. *)
Definition azureTree : gmap string string :=
  <["/proj/templates/azure/provision.bicep" :=
      "output x string = state.fx-resource-bot.resourceId"]>
  (<["/templates/core/v3Migration/js.ts.app.yml" := "version: 1.0.0"]> ∅).

(** A project whose settings file declares version 3.0.0, which is not
    the version the migrator upgrades. *)
Definition currentTree : gmap string string :=
  <["/proj/.fx/configs/projectSettings.json" :=
      Json.stringify (JsObject [("appName", JsString "my app");
                                ("version", JsString "3.0.0")]) 4]> azureTree.

End Doubles.

(** ** Test doubles with a generator of identifiers *)

Module IdentityDoubles.

Fixpoint tally (n : nat) : string :=
  match n with
  | O => ""
  | S k => String "i" (tally k)
  end.

(** The identifiers of the test generator: id-, id-i, id-ii, ... *)
Definition uuid (n : nat) : string := "id-" +:+ tally n.

Definition resolves {A} (a : A) : Effect Spec.IdSource A := λ s, (Normal a, s).

(** A context over an in-memory tree, as [Doubles.workingContext]. *)
Definition workingContext : MigrationContext Spec.IdSource :=
  {| projectPath := "/proj";
     backup_body := λ _, resolves true;
     fsEnsureDir_body := λ dir s,
       (Normal tt,
        {| files := files s; dirs := {[Path.join ["/proj"; dir]]} ∪ dirs s; mem := mem s |});
     fsWriteFile_body := λ file content s,
       (Normal tt,
        {| files := <[Path.join ["/proj"; file] := content]> (files s);
           dirs := dirs s; mem := mem s |});
     cleanModifiedPaths_body := resolves tt;
     restoreBackup_body := resolves tt;
     cleanTeamsfx_body := resolves tt |}.

(** The old settings file of every project holds [old]. *)
Definition stored (old : ProjectSettings)
  : string → Store Spec.IdSource → Result ProjectSettings FxError :=
  λ _ _, ok old.

(** Collaborators whose loader is the one the specification describes,
    over a settings file that holds [old]. *)
Definition collaborators (old : ProjectSettings) : Collaborators Spec.IdSource :=
  {| SettingsFolderName := "teamsfx";
     SettingsFileName := "settings.json";
     AppPackageFolderName := "appPackage";
     V2TeamsfxFolder := ".fx";
     MigrationContext_create_body := λ _, resolves workingContext;
     checkMethod := λ _, true;
     checkUserTasks := λ _, true;
     loadProjectSettingsByProjectPathV2_body := Spec.loadOldSettings (stored old) uuid;
     aadManifestFileName := "aad.manifest.json";
     teamsManifestFileName := "manifest.json";
     defaultEnvironmentFolder := "env";
     getTemplatesFolder := "/templates";
     ProjectSettingsV3 := ProjectSettings;
     convertProjectSettingsV2ToV3 := λ settings _, settings;
     hasFunctionBot := λ _, false;
     hasWebAppBot := λ _, false;
     FileType := unit;
     STATE := tt;
     namingConverterV3 := λ placeholder _ _,
       err {| errName := "FailedToConvertV2ConfigNameToV3"; errMessage := placeholder |};
     JSON_parse := λ _, None;
     handlebars_render := λ templateString _, Normal templateString |}.

(** An empty project directory, the generator having handed out [n]
    identifiers. *)
Definition world (n : nat) : World Spec.IdSource :=
  {| store := {| files := ∅; dirs := {["/proj"]}; mem := {| Spec.drawn := n |} |};
     trace := [] |}.

End IdentityDoubles.

(** ** Kinds of calls *)

(** The calls the three steps of the migration make. *)
Definition step_event (ev : Event) : Prop :=
  match ev with
  | CallBackup _ | CallFsEnsureDir _ | CallFsWriteFile _ _
  | CallLoadProjectSettings _ | CallPathExists _ | CallReadFile _ => True
  | _ => False
  end.

(** The calls of [fs] that only look at the tree. *)
Definition fs_read_event (ev : Event) : Prop :=
  match ev with
  | CallPathExists _ | CallReadFile _ => True
  | _ => False
  end.

(** The calls that bring something in: the settings loader and the
    reading functions of [fs]. *)
Definition input_event (ev : Event) : Prop :=
  match ev with
  | CallLoadProjectSettings _ | CallPathExists _ | CallReadFile _ => True
  | _ => False
  end.

(** The calls of a method of the [MigrationContext]. *)
Definition context_call (ev : Event) : Prop :=
  match ev with
  | CallBackup _ | CallFsEnsureDir _ | CallFsWriteFile _ _
  | CallCleanModifiedPaths | CallRestoreBackup | CallCleanTeamsfx => True
  | _ => False
  end.

(** [c] leaves the store as it is and calls nothing but the reading
    functions of [fs]. *)
Definition reads_only {Mem A} (c : Async Mem A) : Prop :=
  ∀ w, store (c w).2 = store w ∧
       ∃ evs, trace (c w).2 = trace w ++ evs ∧ Forall fs_read_event evs.

(** ** [AppYmlGenerator.generateAppLocalYml] *)

Section Local_yml.
Context {Mem : Type} {collab : Collaborators Mem}.

(** [this.handlebarsContext.placeholderMappings = placeholderMappings]. *)
Definition with_mappings (h : HandlebarsContext) (mappings : gmap string string)
  : HandlebarsContext :=
  {| activePlugins := activePlugins h;
     placeholderMappings := mappings;
     aadAppName := aadAppName h; teamsAppName := teamsAppName h;
     hc_appName := hc_appName h; isFunctionBot := isFunctionBot h;
     isWebAppBot := isWebAppBot h; useBotWebAppResourceId := useBotWebAppResourceId h;
     isTypescript := isTypescript h; hc_defaultFunctionName := hc_defaultFunctionName h;
     environmentFolder := environmentFolder h; hc_projectId := hc_projectId h;
     dotnetPath := dotnetPath h |}.

(** The [switch] of [generateAppLocalYml]: csharp only. *)
Definition localTemplate (language : option string) : option string :=
  match Str.toLowerCase <$> language with
  | Some l => if decide (l = "csharp") then Some "csharp.app.local.yml" else None
  | None => None
  end.

(** The debug placeholder mappings are an object of string properties. *)
Definition generateAppLocalYml (g : AppYmlGenerator.t) (placeholderMappings : gmap string string)
  : Async Mem string :=
  let g0 :=
    AppYmlGenerator.with_context g
      (with_mappings (AppYmlGenerator.handlebarsContext g) placeholderMappings) in
  let g1 := AppYmlGenerator.generateAzureHandlebarsContext g0 in
  match solutionSettings (AppYmlGenerator.oldProjectSettings g1) with
  | None => throw (TypeError "Cannot read properties of undefined, reading hostType")
  | Some solutionSettings =>
      if decide (hostType solutionSettings = "Azure") then
        match localTemplate (programmingLanguage (AppYmlGenerator.oldProjectSettings g1)) with
        | Some templateName => AppYmlGenerator.buildHandlebarsTemplate g1 templateName
        | None => throw (JsError AppYmlGenerator.unsupportedMessage)
        end
      else throw (JsError AppYmlGenerator.unsupportedMessage)
  end.

End Local_yml.

(** ** The text of the [app.yml] step *)

Section App_yml_text.
Context {Mem : Type} {collab : Collaborators Mem}.

(** What [generateAppYml] of projectMigratorV3.ts does before it
    writes: the statements up to [appYmlString]. *)
Definition appYml_text (context : MigrationContext Mem) : Async Mem string :=
  bicepContent <- fs_readFile (Path.join [projectPath context; provisionBicepPath]) ;;
  oldProjectSettings <- loadProjectSettings (projectPath context) ;;
  AppYmlGenerator.generateAppYml_without_projectPath oldProjectSettings bicepContent.

End App_yml_text.

(** ** More test doubles *)

Module Samples.

(** A context for a project without the old configuration folder:
    [backup] has nothing to copy and answers [false]. *)
Definition nothingToBackUp : MigrationContext unit :=
  {| projectPath := "/proj";
     backup_body := λ _, Doubles.resolves false;
     fsEnsureDir_body := Doubles.ensureDir_in_memory "/proj";
     fsWriteFile_body := Doubles.writeFile_in_memory "/proj";
     cleanModifiedPaths_body := Doubles.resolves tt;
     restoreBackup_body := Doubles.resolves tt;
     cleanTeamsfx_body := Doubles.resolves tt |}.

Definition typescriptSettings : ProjectSettings :=
  Doubles.azureSettings (Some "abc-123") (Some "typescript").

(** Collaborators whose loader returns the settings of an Azure project
    in typescript. *)
Definition azure (context : MigrationContext unit) : Collaborators unit :=
  Doubles.collaborators context (ok typescriptSettings) true true.

Definition azureProject : World unit := Doubles.world Doubles.azureTree.

(** [base] with another [JSON.parse]. *)
Definition parsing (base : Collaborators unit) (parse : string → option JsValue)
  : Collaborators unit :=
  {| SettingsFolderName := @SettingsFolderName _ base;
     SettingsFileName := @SettingsFileName _ base;
     AppPackageFolderName := @AppPackageFolderName _ base;
     V2TeamsfxFolder := @V2TeamsfxFolder _ base;
     MigrationContext_create_body := @MigrationContext_create_body _ base;
     checkMethod := @checkMethod _ base;
     checkUserTasks := @checkUserTasks _ base;
     loadProjectSettingsByProjectPathV2_body := @loadProjectSettingsByProjectPathV2_body _ base;
     aadManifestFileName := @aadManifestFileName _ base;
     teamsManifestFileName := @teamsManifestFileName _ base;
     defaultEnvironmentFolder := @defaultEnvironmentFolder _ base;
     getTemplatesFolder := @getTemplatesFolder _ base;
     ProjectSettingsV3 := @ProjectSettingsV3 _ base;
     convertProjectSettingsV2ToV3 := @convertProjectSettingsV2ToV3 _ base;
     hasFunctionBot := @hasFunctionBot _ base;
     hasWebAppBot := @hasWebAppBot _ base;
     FileType := @FileType _ base;
     STATE := @STATE _ base;
     namingConverterV3 := @namingConverterV3 _ base;
     JSON_parse := parse;
     handlebars_render := @handlebars_render _ base |}.

(** A project whose Teams manifest is the empty object. *)
Definition bareManifestProject : World unit :=
  Doubles.world (<["/proj/appPackage/manifest.json" := "{}"]> Doubles.azureTree).

(** A csharp project with the given spelling of the host type. *)
Definition csharpSettings (host : string) : ProjectSettings :=
  {| appName := "my app";
     projectId := Some "abc-123";
     programmingLanguage := Some "CSharp";
     defaultFunctionName := None;
     solutionSettings :=
       Some {| hostType := host; activeResourcePlugins := ["fx-resource-bot"] |} |}.

Definition csharpProject : World unit :=
  Doubles.world
    (<["/templates/core/v3Migration/csharp.app.yml" := "version: 1.0.0"]>
       (<["/templates/core/v3Migration/csharp.app.local.yml" := "version: 1.0.0"]> ∅)).

End Samples.

(** ** [FxCoreV3Implement.createEnvCopyV3] (FxCoreImplementV3.ts) *)

Module EnvCopy.

Definition CR : ascii := ascii_of_nat 13.

(** [text.split(/\r?\n/)]: the text is cut at every line feed, and a
    carriage return right before the line feed goes with it. *)
Fixpoint split_lines (s : string) : list string :=
  match s with
  | EmptyString => [""]
  | String c r =>
      let keep :=
        match split_lines r with
        | line :: lines => String c line :: lines
        | [] => [Str.of_char c]
        end in
      if decide (c = Str.newline) then "" :: split_lines r
      else if decide (c = CR) then
        match r with
        | String c' r' => if decide (c' = Str.newline) then "" :: split_lines r' else keep
        | EmptyString => keep
        end
      else keep
  end.

(** How many line feeds a text has. *)
Fixpoint count_lf (s : string) : nat :=
  match s with
  | EmptyString => 0
  | String c r => (if decide (c = Str.newline) then 1 else 0) + count_lf r
  end.

Definition in_range (lo hi : nat) (c : ascii) : bool :=
  let n := nat_of_ascii c in (lo <=? n)%nat && (n <=? hi)%nat.

(** [[a-zA-Z_]] *)
Definition is_start (c : ascii) : bool :=
  in_range 97 122 c || in_range 65 90 c || bool_decide (c = "_"%char).

(** [[a-zA-Z0-9_]] *)
Definition is_word (c : ascii) : bool :=
  in_range 97 122 c || in_range 65 90 c || in_range 48 57 c || bool_decide (c = "_"%char).

(** [[a-zA-Z0-9_]*=] at the start of [s]: what it matches. *)
Fixpoint word_run (s : string) : option string :=
  match s with
  | EmptyString => None
  | String c r =>
      if is_word c then String c <$> word_run r
      else if decide (c = "="%char) then Some "="
      else None
  end.

(** [/^([a-zA-Z_][a-zA-Z0-9_]*=)/.exec(line)]: the group [match[1]]
    when the line matches. *)
Definition key_match (line : string) : option string :=
  match line with
  | EmptyString => None
  | String c r => if is_start c then String c <$> word_run r else None
  end.

Section Copy.
(** [String.prototype.trim] and [os.EOL]. *)
Context (trim : string → string) (EOL : string).

(** What the body of the [forEach] writes to the stream for one
    line. *)
Definition copy_line (targetEnvName line : string) : string :=
  match key_match line with
  | Some key =>
      if Str.startsWith "TEAMSFX_ENV=" key then "TEAMSFX_ENV=" +:+ targetEnvName +:+ EOL
      else key +:+ EOL
  | None => trim line +:+ EOL
  end.

(** The chunks written to the stream, in order. *)
Definition copy_chunks (targetEnvName source : string) : list string :=
  copy_line targetEnvName <$> split_lines source.

Context {Mem : Type}.
(** [pathUtils.getEnvFilePath], the constructor of
    [InvalidEnvFolderPath], and the stream: [fs.createWriteStream] of a
    file followed by the writes of the chunks and [end]. *)
Context (getEnvFilePath_body : string → string → Effect Mem (Result (option string) FxError))
        (InvalidEnvFolderPath : string → FxError)
        (writeStream_body : string → list string → Effect Mem unit).

(** A path that is not [undefined] and not the empty string. *)
Definition truthy (file : option string) : option string :=
  match file with
  | Some f => if decide (f = "") then None else Some f
  | None => None
  end.

Definition createEnvCopyV3 (targetEnvName sourceEnvName projectPath : string)
  : Effect Mem (Result unit FxError) :=
  λ s,
    match getEnvFilePath_body projectPath sourceEnvName s with
    | (Abrupt e, s1) => (Abrupt e, s1)
    | (Normal (err error), s1) => (Normal (err error), s1)
    | (Normal (ok sourceDotEnvFile), s1) =>
        match getEnvFilePath_body projectPath targetEnvName s1 with
        | (Abrupt e, s2) => (Abrupt e, s2)
        | (Normal (err error), s2) => (Normal (err error), s2)
        | (Normal (ok targetDotEnvFile), s2) =>
            match truthy sourceDotEnvFile, truthy targetDotEnvFile with
            | Some sourceFile, Some targetFile =>
                match readFile_body sourceFile s2 with
                | (Abrupt e, s3) => (Abrupt e, s3)
                | (Normal source, s3) =>
                    match writeStream_body targetFile (copy_chunks targetEnvName source) s3 with
                    | (Abrupt e, s4) => (Abrupt e, s4)
                    | (Normal _, s4) => (Normal (ok tt), s4)
                    end
                end
            | _, _ =>
                (Normal (err (InvalidEnvFolderPath
                   "missing 'environmentFolderPath' field or environment folder not exist")),
                 s2)
            end
        end
    end.

End Copy.

(** The characters [trim] takes off in an ASCII text. *)
Definition is_space (c : ascii) : bool :=
  let n := nat_of_ascii c in
  bool_decide (n = 32) || ((9 <=? n)%nat && (n <=? 13)%nat).

Fixpoint trim_start (s : string) : string :=
  match s with
  | String c r => if is_space c then trim_start r else s
  | EmptyString => EmptyString
  end.

(** [trim] on ASCII white space, for the examples. *)
Definition ascii_trim (s : string) : string :=
  String.rev (trim_start (String.rev (trim_start s))).

Fixpoint all_word (s : string) : bool :=
  match s with
  | EmptyString => true
  | String c r => is_word c && all_word r
  end.

(** An identifier: a letter or underscore followed by letters, digits
    and underscores. *)
Definition identifier (key : string) : bool :=
  match key with
  | EmptyString => false
  | String c r => is_start c && all_word r
  end.

End EnvCopy.

(** ** Test doubles for the copy of an environment file *)

Module EnvSamples.

Definition LF : string := Str.of_char Str.newline.

(** Every environment has its file under /proj/env. *)
Definition envFile (projectPath env : string) : Effect unit (Result (option string) FxError) :=
  Doubles.resolves (ok (Some (Path.join [projectPath; "env"; ".env." +:+ env]))).

(** The settings name no environment folder: the path is empty. *)
Definition noEnvFolder (projectPath env : string)
  : Effect unit (Result (option string) FxError) :=
  Doubles.resolves (ok (Some "")).

Definition invalidEnvFolderPath (message : string) : FxError :=
  {| errName := "InvalidEnvFolderPath"; errMessage := message |}.

(** A stream that lands in the tree at once. *)
Definition writeStream (file : string) (chunks : list string) : Effect unit unit :=
  λ s, (Normal tt,
        {| files := <[file := Str.join "" chunks]> (files s); dirs := dirs s; mem := mem s |}).

Definition emptyStore : Store unit := store Doubles.emptyProject.

End EnvSamples.

(** ** debug/appLocalYmlGenerator.ts *)

Module AppLocalYmlGenerator.
Section Local_generator.
(** [InstallToolArgs] and [BuildArgs] of the drivers, which the
    generator only carries along. *)
Context {InstallToolArgs BuildArgs : Type}.

Record RegisterApp : Type := {
  ra_aad : option bool;
  ra_teamsApp : option bool;
}.

Record ProvisionBot : Type := {
  messagingEndpoint : string;
  bot_isM365 : option bool;
}.

Record Provision : Type := {
  bot : option ProvisionBot;
}.

Record ConfigureTab : Type := {
  domain : option string;
  endpoint : option string;
}.

Record ConfigureTeamsApp : Type := {
  appPackagePath : option string;
}.

Record ConfigureApp : Type := {
  ca_tab : option ConfigureTab;
  ca_aad : option bool;
  ca_teamsApp : option ConfigureTeamsApp;
}.

Record SsoTab : Type := {
  ssoTab_functionName : option string;
}.

Record FrontendStart : Type := {
  fs_sso : option bool;
  fs_functionName : option string;
}.

Record AuthStart : Type := {
  appsettingsPath : string;
}.

Record BotStart : Type := {
  bs_tab : option bool;
  bs_function : option bool;
  bs_sso : option bool;
}.

Record Deploy : Type := {
  tools : option InstallToolArgs;
  npmCommands : option (list BuildArgs);
  dotnetCommand : option BuildArgs;
  deploy_tab_port : option (option Z);
  deploy_bot : option bool;
  sso : option bool;
  ssoTab : option SsoTab;
  ssoBot : option bool;
  ssoFunction : option bool;
  frontendStart : option FrontendStart;
  authStart : option AuthStart;
  botStart : option BotStart;
  backendStart : option bool;
}.

(** [AppLocalYmlConfig]. *)
Record AppLocalYmlConfig : Type := {
  registerApp : option RegisterApp;
  provision : option Provision;
  configureApp : option ConfigureApp;
  deploy : option Deploy;
}.

(** The context of the template: the config and the debug placeholder
    mappings, an object of string properties. *)
Record LocalContext : Type := {
  config : AppLocalYmlConfig;
  lc_placeholderMappings : gmap string string;
}.

(** The fields of an [AppLocalYmlGenerator] object. *)
Record t : Type := {
  oldProjectSettings : ProjectSettings;
  handlebarsContext : LocalContext;
}.

Definition new (oldProjectSettings : ProjectSettings) (config : AppLocalYmlConfig)
    (placeholderMappings : gmap string string) : t :=
  {| oldProjectSettings := oldProjectSettings;
     handlebarsContext :=
       {| config := config; lc_placeholderMappings := placeholderMappings |} |}.

Context {Mem : Type} {collab : Collaborators Mem}.
(** [OldProjectSettingsHelper] of debugV3MigrationUtils, the [isM365]
    field of the old settings, and handlebars on this context. *)
Context (includeFunction includeTab includeBot : ProjectSettings → bool)
        (getFunctionName : ProjectSettings → option string)
        (isM365 : ProjectSettings → option bool)
        (render_local : string → LocalContext → Completion string).

(** [a || b] on an optional string: the empty string is falsy. *)
Definition or_default (a : option string) (b : string) : string :=
  match a with
  | Some s => if decide (s = "") then b else s
  | None => b
  end.

(** [if (x)] on an optional string. *)
Definition truthy_string (a : option string) : bool :=
  match a with
  | Some s => negb (bool_decide (s = ""))
  | None => false
  end.

(** [config.provision.bot.isM365 = v] when [config.provision?.bot] is
    there. *)
Definition set_isM365 (p : option Provision) (v : option bool) : option Provision :=
  match p with
  | Some {| bot := Some b |} =>
      Some {| bot := Some {| messagingEndpoint := messagingEndpoint b; bot_isM365 := v |} |}
  | _ => p
  end.

Definition with_sso (d : Deploy) (tab : option SsoTab) (bot function : option bool) : Deploy :=
  {| tools := tools d; npmCommands := npmCommands d; dotnetCommand := dotnetCommand d;
     deploy_tab_port := deploy_tab_port d; deploy_bot := deploy_bot d; sso := sso d;
     ssoTab := tab; ssoBot := bot; ssoFunction := function;
     frontendStart := frontendStart d; authStart := authStart d; botStart := botStart d;
     backendStart := backendStart d |}.

(** The block under [if (config.deploy?.sso)]. *)
Definition set_sso (old : ProjectSettings) (functionName : option string) (d : Deploy)
  : Deploy :=
  with_sso d
    (if includeTab old then Some {| ssoTab_functionName := functionName |} else ssoTab d)
    (if includeBot old then Some true else ssoBot d)
    (if truthy_string functionName then Some true else ssoFunction d).

Definition generateHandlerbarsContext (g : t) : t :=
  let old := oldProjectSettings g in
  let functionName :=
    if includeFunction old then Some (or_default (getFunctionName old) "getUserProfile")
    else None in
  let c := config (handlebarsContext g) in
  {| oldProjectSettings := old;
     handlebarsContext :=
       {| config :=
            {| registerApp := registerApp c;
               provision := set_isM365 (provision c) (isM365 old);
               configureApp := configureApp c;
               deploy :=
                 match deploy c with
                 | Some d => if bool_decide (sso d = Some true)
                             then Some (set_sso old functionName d) else Some d
                 | None => None
                 end |};
          lc_placeholderMappings := lc_placeholderMappings (handlebarsContext g) |} |}.

(** [BaseAppYmlGenerator.buildHandlebarsTemplate] on this context. *)
Definition buildHandlebarsTemplate (g : t) (templateName : string) : Async Mem string :=
  let templatePath := Path.join [getTemplatesFolder; "core/v3Migration"; templateName] in
  templateString <- fs_readFile templatePath ;;
  lift (render_local templateString (handlebarsContext g)).

(** [generateHandlerbarsContext] is called without [await]; its body
    has no [await], so it has run when the call returns.  The [switch]
    on the language follows, with its three labels. *)
Definition generateAppYml (g : t) : Async Mem string :=
  let g1 := generateHandlerbarsContext g in
  match Str.toLowerCase <$> programmingLanguage (oldProjectSettings g1) with
  | Some l =>
      if decide (l = "javascript") then buildHandlebarsTemplate g1 "js.ts.app.local.yml"
      else if decide (l = "typescript") then buildHandlebarsTemplate g1 "js.ts.app.local.yml"
      else (* only support js/ts at first *) buildHandlebarsTemplate g1 "js.ts.app.local.yml"
  | None => buildHandlebarsTemplate g1 "js.ts.app.local.yml"
  end.

End Local_generator.
End AppLocalYmlGenerator.

(** ** Test doubles for the local generator *)

Module LocalSamples.

Definition yes (old : ProjectSettings) : bool := true.
Definition unnamed (old : ProjectSettings) : option string := None.
Definition notM365 (old : ProjectSettings) : option bool := Some false.

(** A deploy section with the given [sso] and nothing else. *)
Definition localDeploy (sso : option bool)
  : AppLocalYmlGenerator.Deploy (InstallToolArgs:=unit) (BuildArgs:=unit) :=
  {| AppLocalYmlGenerator.tools := None;
     AppLocalYmlGenerator.npmCommands := None;
     AppLocalYmlGenerator.dotnetCommand := None;
     AppLocalYmlGenerator.deploy_tab_port := None;
     AppLocalYmlGenerator.deploy_bot := None;
     AppLocalYmlGenerator.sso := sso;
     AppLocalYmlGenerator.ssoTab := None;
     AppLocalYmlGenerator.ssoBot := None;
     AppLocalYmlGenerator.ssoFunction := None;
     AppLocalYmlGenerator.frontendStart := None;
     AppLocalYmlGenerator.authStart := None;
     AppLocalYmlGenerator.botStart := None;
     AppLocalYmlGenerator.backendStart := None |}.

Definition localConfig (sso : option bool)
  : AppLocalYmlGenerator.AppLocalYmlConfig (InstallToolArgs:=unit) (BuildArgs:=unit) :=
  {| AppLocalYmlGenerator.registerApp := None;
     AppLocalYmlGenerator.provision := None;
     AppLocalYmlGenerator.configureApp := None;
     AppLocalYmlGenerator.deploy := Some (localDeploy sso) |}.

End LocalSamples.

(** ** component/utils/settingsUtil.ts *)

Module SettingsUtils.

(** What the module keeps outside the file system: how many
    identifiers [uuid.v4] has handed out, the project ids sent with the
    FillProjectId telemetry event, and [globalVars.trackingId]. *)
Record Globals (Value : Type) : Type := {
  drawn : nat;
  fillProjectId_sent : list string;
  trackingId : option Value;
}.
Arguments drawn {Value} _.
Arguments fillProjectId_sent {Value} _.
Arguments trackingId {Value} _.

(** [Settings] of teamsfx-api. *)
Record Settings (Value : Type) : Type := {
  settings_trackingId : Value;
  settings_version : Value;
}.
Arguments settings_trackingId {Value} _.
Arguments settings_version {Value} _.

Section Settings_utils.
(** The documents of the yaml library and the values they hold:
    [parseDocument], [has], [get], [createPair] with [add], [set] and
    [toString]; the last three can throw. *)
Context {Doc Value : Type}.
Context (parseDocument : string → Doc)
        (doc_has : Doc → string → bool)
        (doc_get : Doc → string → Value)
        (doc_add_pair : Doc → string → string → Completion Doc)
        (doc_set : Doc → string → Value → Completion Doc)
        (doc_toString : Doc → Completion string).
(** [getProjectSettingPathV3], the constructor of [PathNotExistError],
    and the identifiers [uuid.v4] hands out, in the order of the
    calls. *)
Context (getProjectSettingPathV3 : string → string)
        (PathNotExistError : string → FxError)
        (uuid_v4 : nat → string).

Definition State : Type := Store (Globals Value).

Definition with_globals (s : State) (g : Globals Value) : State :=
  {| files := files s; dirs := dirs s; mem := g |}.

(** [fs.writeFile(file, content)] on a file that has just been read. *)
Definition writeFile (file content : string) (s : State) : State :=
  {| files := <[file := content]> (files s); dirs := dirs s; mem := mem s |}.

(** [uuid.v4()]. *)
Definition draw (s : State) : string * State :=
  (uuid_v4 (drawn (mem s)),
   with_globals s {| drawn := S (drawn (mem s));
                     fillProjectId_sent := fillProjectId_sent (mem s);
                     trackingId := trackingId (mem s) |}).

(** [sendTelemetryEvent(Component.core, TelemetryEvent.FillProjectId,
    { [TelemetryProperty.ProjectId]: projectId })]. *)
Definition sendFillProjectId (projectId : string) (s : State) : State :=
  with_globals s {| drawn := drawn (mem s);
                    fillProjectId_sent := fillProjectId_sent (mem s) ++ [projectId];
                    trackingId := trackingId (mem s) |}.

(** [globalVars.trackingId = v]. *)
Definition set_global_trackingId (v : Value) (s : State) : State :=
  with_globals s {| drawn := drawn (mem s);
                    fillProjectId_sent := fillProjectId_sent (mem s);
                    trackingId := Some v |}.

(** The tail of [readSettings]: the result is read off the document
    and the tracking id is published. *)
Definition settings_of (appYaml : Doc) (s : State)
  : Completion (Result (Settings Value) FxError) * State :=
  let projectSettings :=
    {| settings_trackingId := doc_get appYaml "projectId";
       settings_version := doc_get appYaml "version" |} in
  (Normal (ok projectSettings),
   set_global_trackingId (settings_trackingId projectSettings) s).

Definition readSettings (projectPath : string) (ensureTrackingId : bool)
  : Effect (Globals Value) (Result (Settings Value) FxError) :=
  λ s,
    let projectYamlPath := getProjectSettingPathV3 projectPath in
    match pathExists_body projectYamlPath s with
    | (Abrupt e, s0) => (Abrupt e, s0)
    | (Normal false, s0) => (Normal (err (PathNotExistError projectYamlPath)), s0)
    | (Normal true, s0) =>
        match readFile_body projectYamlPath s0 with
        | (Abrupt e, s1) => (Abrupt e, s1)
        | (Normal yamlFileContent, s1) =>
            let appYaml := parseDocument yamlFileContent in
            if negb (doc_has appYaml "projectId") && ensureTrackingId then
              let '(projectId, s2) := draw s1 in
              let '(fieldId, s3) := draw s2 in
              match doc_add_pair appYaml "projectId" fieldId with
              | Abrupt e => (Abrupt e, s3)
              | Normal appYaml' =>
                  match doc_toString appYaml' with
                  | Abrupt e => (Abrupt e, s3)
                  | Normal text =>
                      settings_of appYaml'
                        (sendFillProjectId projectId (writeFile projectYamlPath text s3))
                  end
              end
            else settings_of appYaml s1
        end
    end.

Definition writeSettings (projectPath : string) (settings : Settings Value)
  : Effect (Globals Value) (Result string FxError) :=
  λ s,
    let projectYamlPath := getProjectSettingPathV3 projectPath in
    match pathExists_body projectYamlPath s with
    | (Abrupt e, s0) => (Abrupt e, s0)
    | (Normal false, s0) => (Normal (err (PathNotExistError projectYamlPath)), s0)
    | (Normal true, s0) =>
        match readFile_body projectYamlPath s0 with
        | (Abrupt e, s1) => (Abrupt e, s1)
        | (Normal yamlFileContent, s1) =>
            match doc_set (parseDocument yamlFileContent) "projectId"
                    (settings_trackingId settings) with
            | Abrupt e => (Abrupt e, s1)
            | Normal appYaml =>
                match doc_toString appYaml with
                | Abrupt e => (Abrupt e, s1)
                | Normal text => (Normal (ok projectYamlPath), writeFile projectYamlPath text s1)
                end
            end
        end
    end.

End Settings_utils.
End SettingsUtils.

(** ** Test doubles for the settings file *)

Module YamlSamples.

(** A document as the list of its top-level pairs; the text of a
    document is its pairs, one on a line. *)
Definition Doc : Type := list (string * string).

Definition print (d : Doc) : string :=
  Str.join EnvSamples.LF ((λ kv, kv.1 +:+ ": " +:+ kv.2) <$> d).

(** Two texts are all the examples read. *)
Definition parse (text : string) : Doc :=
  if decide (text = "version: 1.0.0") then [("version", "1.0.0")]
  else if decide (text = print [("version", "1.0.0"); ("projectId", "abc-123")])
  then [("version", "1.0.0"); ("projectId", "abc-123")]
  else [].

Definition has (d : Doc) (key : string) : bool := bool_decide (key ∈ d.*1).

Definition get (d : Doc) (key : string) : option string :=
  snd <$> head (filter (λ kv, kv.1 = key) d).

Definition add_pair (d : Doc) (key value : string) : Completion Doc :=
  Normal (d ++ [(key, value)]).

Definition set (d : Doc) (key : string) (value : option string) : Completion Doc :=
  Normal (filter (λ kv, kv.1 ≠ key) d ++ from_option (λ v, [(key, v)]) [] value).

Definition toString (d : Doc) : Completion string := Normal (print d).

Definition settingsPath (projectPath : string) : string :=
  Path.join [projectPath; "teamsapp.yml"].

Definition pathNotExist (file : string) : FxError :=
  {| errName := "PathNotExistError"; errMessage := file |}.

(** The identifiers handed out: id-0, id-1, ... (ten are enough). *)
Definition uuid (n : nat) : string := "id-" +:+ Str.of_char (ascii_of_nat (48 + n)).

Definition state (tree : gmap string string) : Store (SettingsUtils.Globals (option string)) :=
  {| files := tree; dirs := {["/proj"]};
     mem := {| SettingsUtils.drawn := 0; SettingsUtils.fillProjectId_sent := [];
               SettingsUtils.trackingId := None |} |}.

End YamlSamples.

(** ** What a computation adds to the trace *)

(** Every event [c] adds to the trace satisfies [P], from whatever
    world it runs and however it completes. *)
Definition emits {Mem A} (P : Event → Prop) (c : Async Mem A) : Prop :=
  ∀ w, ∃ evs, trace (c w).2 = trace w ++ evs ∧ Forall P evs.

(** The events other than the call of [next]. *)
Definition not_next (ev : Event) : Prop := ev ≠ CallNext.

(** * Properties *)

Section Monad_laws.
Context {Mem : Type}.
Implicit Types w : World Mem.

Lemma bind_normal {A B} (c : Async Mem A) (k : A → Async Mem B) w a w' :
  c w = (Normal a, w') → bind c k w = k a w'.
Proof. intros Hc. unfold bind. by rewrite Hc. Qed.

Lemma bind_abrupt {A B} (c : Async Mem A) (k : A → Async Mem B) w e w' :
  c w = (Abrupt e, w') → bind c k w = (Abrupt e, w').
Proof. intros Hc. unfold bind. by rewrite Hc. Qed.

Lemma try_catch_normal {A} (c : Async Mem A) h w a w' :
  c w = (Normal a, w') → try_catch c h w = (Normal a, w').
Proof. intros Hc. unfold try_catch. by rewrite Hc. Qed.

Lemma try_catch_abrupt {A} (c : Async Mem A) h w e w' :
  c w = (Abrupt e, w') → try_catch c h w = h e w'.
Proof. intros Hc. unfold try_catch. by rewrite Hc. Qed.

Lemma call_unfold {A} ev (body : Effect Mem A) w :
  call ev body w =
  ((body (store w)).1, {| store := (body (store w)).2; trace := trace w ++ [ev] |}).
Proof. unfold call. by destruct (body (store w)). Qed.

Lemma emits_ret {A} P (a : A) : emits (Mem:=Mem) P (ret a).
Proof. intros w. exists []. by rewrite app_nil_r. Qed.

Lemma emits_throw {A} P e : emits (Mem:=Mem) (A:=A) P (throw e).
Proof. intros w. exists []. by rewrite app_nil_r. Qed.

Lemma emits_lift {A} P (r : Completion A) : emits (Mem:=Mem) P (lift r).
Proof. intros w. exists []. by rewrite app_nil_r. Qed.

Lemma emits_call {A} (P : Event → Prop) ev (body : Effect Mem A) :
  P ev → emits P (call ev body).
Proof.
  intros HP w. exists [ev]. rewrite call_unfold. simpl. split; [done|].
  by apply Forall_singleton.
Qed.

Lemma emits_bind {A B} P (c : Async Mem A) (k : A → Async Mem B) :
  emits P c → (∀ a, emits P (k a)) → emits P (bind c k).
Proof.
  intros Hc Hk w. unfold bind.
  destruct (Hc w) as (evs1 & E1 & F1).
  destruct (c w) as [[a|e] w1]; simpl in E1.
  - destruct (Hk a w1) as (evs2 & E2 & F2).
    exists (evs1 ++ evs2). rewrite E2, E1, app_assoc. split; [done|].
    by apply Forall_app.
  - by exists evs1.
Qed.

Lemma emits_try_catch {A} P (c : Async Mem A) (h : Exn → Async Mem A) :
  emits P c → (∀ e, emits P (h e)) → emits P (try_catch c h).
Proof.
  intros Hc Hh w. unfold try_catch.
  destruct (Hc w) as (evs1 & E1 & F1).
  destruct (c w) as [[a|e] w1]; simpl in E1.
  - by exists evs1.
  - destruct (Hh e w1) as (evs2 & E2 & F2).
    exists (evs1 ++ evs2). rewrite E2, E1, app_assoc. split; [done|].
    by apply Forall_app.
Qed.

(** The events a run adds are determined by the two traces. *)
Lemma emits_elim {A} P (c : Async Mem A) w evs :
  emits P c → trace (c w).2 = trace w ++ evs → Forall P evs.
Proof.
  intros Hc E. destruct (Hc w) as (evs' & E' & F).
  rewrite E in E'. by apply app_inv_head in E' as ->.
Qed.

End Monad_laws.

(** Splits a goal [emits P c] along the structure of [c]. *)
Ltac emits_step :=
  match goal with
  | |- emits _ (bind _ _) => apply emits_bind; [|intros ?]
  | |- emits _ (try_catch _ _) => apply emits_try_catch; [|intros ?]
  | |- emits _ (ret _) => apply emits_ret
  | |- emits _ (throw _) => apply emits_throw
  | |- emits _ (lift _) => apply emits_lift
  | |- emits _ (call _ _) => apply emits_call; done
  | |- emits _ (match ?x with _ => _ end) => destruct x
  | |- emits _ (if ?b then _ else _) => destruct b
  end.

Ltac solve_emits := repeat emits_step.

(** ** The coordinator: [migrate], [rollbackMigration], [wrapRunMigration] *)

Section Coordinator.
Context {Mem : Type} {collab : Collaborators Mem}.
Implicit Types (context : MigrationContext Mem) (w : World Mem).

(** A loop over [pre ++ step :: post] whose prefix runs through and
    whose [step] throws ends with that throw, in the world the step
    left: nothing of [post] runs. *)
Lemma for_of_fail_fast {A} (pre post : list A) (step : A) (body : A → Async Mem unit)
    w w1 e w2 :
  for_of pre body w = (Normal tt, w1) →
  body step w1 = (Abrupt e, w2) →
  for_of (pre ++ step :: post) body w = (Abrupt e, w2).
Proof.
  revert w. induction pre as [|x pre IH]; intros w Hpre Hstep; simpl in *.
  - injection Hpre as <-. by apply bind_abrupt.
  - unfold bind in *. destruct (body x w) as [[[]|e'] w']; [by apply IH|done].
Qed.

Lemma for_of_app {A} (pre post : list A) (body : A → Async Mem unit) w w1 :
  for_of pre body w = (Normal tt, w1) →
  for_of (pre ++ post) body w = for_of post body w1.
Proof.
  revert w. induction pre as [|x pre IH]; intros w Hpre; simpl in *.
  - by injection Hpre as <-.
  - unfold bind in *. destruct (body x w) as [[[]|e'] w']; [by apply IH|done].
Qed.

(** [migrate], step by step. *)
Lemma migrate_steps context w :
  subMigrations = [preMigration; generateSettingsJson; generateAppYml] ∧
  migrate context w =
    match preMigration context w with
    | (Abrupt e, w1) => (Abrupt e, w1)
    | (Normal _, w1) =>
        match generateSettingsJson context w1 with
        | (Abrupt e, w2) => (Abrupt e, w2)
        | (Normal _, w2) => generateAppYml context w2
        end
    end.
Proof.
  split; [reflexivity|].
  unfold migrate, subMigrations; simpl. unfold bind.
  destruct (preMigration context w) as [[[]|e1] w1]; [|done].
  destruct (generateSettingsJson context w1) as [[[]|e2] w2]; [|done].
  by destruct (generateAppYml context w2) as [[[]|e3] w3].
Qed.

(** C3.  [migrate] runs the three steps of [subMigrations] — the backup
    of the old configuration folder, the settings file, [app.yml] — one
    after the other, each from the world the one before left, and the
    first step that throws ends the run with its error in the world it
    left: no later step runs. *)
Theorem migrate_sequential_fail_fast context w :
  subMigrations = [preMigration; generateSettingsJson; generateAppYml] ∧
  trace (preMigration context w).2 = trace w ++ [CallBackup V2TeamsfxFolder] ∧
  migrate context w =
    match preMigration context w with
    | (Abrupt e, w1) => (Abrupt e, w1)
    | (Normal _, w1) =>
        match generateSettingsJson context w1 with
        | (Abrupt e, w2) => (Abrupt e, w2)
        | (Normal _, w2) => generateAppYml context w2
        end
    end.
Proof.
  split; [reflexivity|]. split; [|apply migrate_steps].
  unfold preMigration, backup, bind. rewrite call_unfold.
  by destruct (backup_body context V2TeamsfxFolder (store w)) as [[b|e] s].
Qed.

Lemma rollbackMigration_unfold context w :
  rollbackMigration context w =
    match cleanModifiedPaths_body context (store w) with
    | (Abrupt e, s1) =>
        (Abrupt e, {| store := s1; trace := trace w ++ [CallCleanModifiedPaths] |})
    | (Normal _, s1) =>
        match restoreBackup_body context s1 with
        | (Abrupt e, s2) =>
            (Abrupt e,
             {| store := s2; trace := trace w ++ [CallCleanModifiedPaths; CallRestoreBackup] |})
        | (Normal _, s2) =>
            ((cleanTeamsfx_body context s2).1,
             {| store := (cleanTeamsfx_body context s2).2;
                trace := trace w ++ [CallCleanModifiedPaths; CallRestoreBackup; CallCleanTeamsfx] |})
        end
    end.
Proof.
  unfold rollbackMigration, cleanModifiedPaths, restoreBackup, cleanTeamsfx, bind, call.
  destruct (cleanModifiedPaths_body context (store w)) as [[[]|e1] s1]; simpl; [|done].
  destruct (restoreBackup_body context s1) as [[[]|e2] s2]; simpl.
  - destruct (cleanTeamsfx_body context s2) as [r3 s3]; simpl. by rewrite <- !app_assoc.
  - by rewrite <- !app_assoc.
Qed.

(** C2, as the code has it.  The rollback calls [cleanModifiedPaths],
    then [restoreBackup], then [cleanTeamsfx], each on the store the one
    before left; it is not best-effort: the first of them that throws
    ends the rollback with its error, and the ones after it are not
    called. *)
Theorem rollbackMigration_in_order_until_failure context w :
  rollbackMigration context w =
    match cleanModifiedPaths_body context (store w) with
    | (Abrupt e, s1) =>
        (Abrupt e, {| store := s1; trace := trace w ++ [CallCleanModifiedPaths] |})
    | (Normal _, s1) =>
        match restoreBackup_body context s1 with
        | (Abrupt e, s2) =>
            (Abrupt e,
             {| store := s2; trace := trace w ++ [CallCleanModifiedPaths; CallRestoreBackup] |})
        | (Normal _, s2) =>
            ((cleanTeamsfx_body context s2).1,
             {| store := (cleanTeamsfx_body context s2).2;
                trace := trace w ++ [CallCleanModifiedPaths; CallRestoreBackup; CallCleanTeamsfx] |})
        end
    end.
Proof. apply rollbackMigration_unfold. Qed.

Lemma wrapRunMigration_abrupt context (exec : Migration) w e w1 :
  exec context w = (Abrupt e, w1) →
  wrapRunMigration context exec w =
    match rollbackMigration context w1 with
    | (Normal _, w2) => (Abrupt e, w2)
    | (Abrupt e', w2) => (Abrupt e', w2)
    end.
Proof.
  intros Hexec. unfold wrapRunMigration.
  rewrite (try_catch_abrupt _ _ w e w1) by by apply bind_abrupt.
  unfold bind, throw. by destruct (rollbackMigration context w1) as [[[]|e'] w2].
Qed.

Lemma wrapRunMigration_normal context (exec : Migration) w w1 :
  exec context w = (Normal tt, w1) →
  wrapRunMigration context exec w = (Normal tt, w1).
Proof.
  intros Hexec. unfold wrapRunMigration.
  apply try_catch_normal. by rewrite (bind_normal _ _ w tt w1).
Qed.

(** C1, as the code has it.  When a step of [migrate] throws, the
    coordinator runs the rollback in the world the step left; if the
    rollback completes, the error of the step is thrown to the caller
    as it is, and if an operation of the rollback throws, the caller
    gets the error of the rollback in place of the error of the step. *)
Theorem wrapRunMigration_step_failure context w e w1 :
  migrate context w = (Abrupt e, w1) →
  wrapRunMigration context migrate w =
    match rollbackMigration context w1 with
    | (Normal _, w2) => (Abrupt e, w2)
    | (Abrupt e', w2) => (Abrupt e', w2)
    end.
Proof. apply wrapRunMigration_abrupt. Qed.

End Coordinator.

(** The run of C1 on a context whose backup fails and whose rollback
    works: the caller sees the error of the backup. *)
Lemma wrapRunMigration_step_failure_witness :
  let collab := Doubles.collaborators Doubles.noBackupContext
                  (ok (Doubles.azureSettings None None)) true true in
  wrapRunMigration Doubles.noBackupContext (migrate (collab:=collab)) Doubles.emptyProject =
    (Abrupt Doubles.backupError,
     {| store := store Doubles.emptyProject;
        trace := [CallBackup ".fx"; CallCleanModifiedPaths; CallRestoreBackup;
                  CallCleanTeamsfx] |}).
Proof.
  intros collab.
  rewrite (wrapRunMigration_step_failure (collab:=collab) Doubles.noBackupContext
             Doubles.emptyProject Doubles.backupError
             {| store := store Doubles.emptyProject; trace := [CallBackup ".fx"] |});
    reflexivity.
Defined.

(** C1 fails as stated: the backup throws EACCES, the first operation
    of the rollback throws EBUSY, and the caller gets EBUSY. *)
Lemma rollback_error_replaces_step_error :
  let collab := Doubles.collaborators Doubles.brokenContext
                  (ok (Doubles.azureSettings None None)) true true in
  (migrate (collab:=collab) Doubles.brokenContext Doubles.emptyProject).1
    = Abrupt (SystemError "EACCES" "/proj/.fx") ∧
  (wrapRunMigration Doubles.brokenContext (migrate (collab:=collab)) Doubles.emptyProject).1
    = Abrupt (SystemError "EBUSY" "/proj/teamsfx").
Proof. split; reflexivity. Qed.

(** C2 fails as stated: when [cleanModifiedPaths] throws, the rollback
    ends there; [restoreBackup] and [cleanTeamsfx] are never called. *)
Lemma rollback_stops_at_first_failure :
  (rollbackMigration Doubles.brokenContext Doubles.emptyProject).1
    = Abrupt Doubles.cleanError ∧
  trace (rollbackMigration Doubles.brokenContext Doubles.emptyProject).2
    = [CallCleanModifiedPaths].
Proof. split; reflexivity. Qed.

(** ** The settings step: [generateSettingsJson] *)

Section Settings.
Context {Mem : Type} {collab : Collaborators Mem}.
Implicit Types (context : MigrationContext Mem) (w : World Mem).

(** The text [JSON.stringify(content, null, 4)] of the source is the
    text the specification describes: member trackingId is there when the
    loaded settings carry a projectId and left out when they do not. *)
Lemma stringify_settingsContent (settings : ProjectSettings) :
  Json.stringify (settingsContent settings) 4 = Spec.settingsText (projectId settings).
Proof. unfold settingsContent. by destruct (projectId settings). Qed.

Lemma loadProjectSettings_ok projectPath w settings s1 :
  loadProjectSettingsByProjectPathV2_body projectPath true (store w)
    = (Normal (ok settings), s1) →
  loadProjectSettings projectPath w =
    (Normal settings,
     {| store := s1; trace := trace w ++ [CallLoadProjectSettings projectPath] |}).
Proof. intros Hload. unfold loadProjectSettings, bind, call. by rewrite Hload. Qed.

(** What the step writes, given what the loader returns: it ensures
    the settings folder and then writes, to the settings file, the JSON
    text of [{ version: "3.0.0", trackingId: t }] where [t] is the
    projectId of the settings object it was handed. *)
Lemma generateSettingsJson_writes context w settings s1 s2 :
  loadProjectSettingsByProjectPathV2_body (projectPath context) true (store w)
    = (Normal (ok settings), s1) →
  fsEnsureDir_body context SettingsFolderName s1 = (Normal tt, s2) →
  let file := Path.join [SettingsFolderName; SettingsFileName] in
  let text := Spec.settingsText (projectId settings) in
  generateSettingsJson context w =
    ((fsWriteFile_body context file text s2).1,
     {| store := (fsWriteFile_body context file text s2).2;
        trace := trace w ++ [CallLoadProjectSettings (projectPath context);
                             CallFsEnsureDir SettingsFolderName;
                             CallFsWriteFile file text] |}).
Proof.
  intros Hload Hdir file text. unfold generateSettingsJson.
  rewrite (bind_normal _ _ _ _ _ (loadProjectSettings_ok _ _ _ _ Hload)).
  rewrite stringify_settingsContent. fold file text.
  unfold bind, fsEnsureDir, fsWriteFile. rewrite call_unfold; simpl.
  rewrite Hdir; simpl. rewrite call_unfold; simpl.
  by rewrite <- !app_assoc.
Qed.

End Settings.

Section Identity.
Context {collab : Collaborators Spec.IdSource}.
Context (stored : string → Store Spec.IdSource → Result ProjectSettings FxError)
        (uuid : nat → string).
Implicit Types (context : MigrationContext Spec.IdSource) (w : World Spec.IdSource).

(** C4.  With the loader of the specification, whose identifiers are
    non-empty and differ from draw to draw, [generateSettingsJson]
    writes to the settings file the JSON text of
    [{ version: "3.0.0", trackingId: t }], with both members: [t] is
    the projectId of the old settings when they have one, and nothing
    is drawn then; when they have none, [t] is the identifier drawn in
    this run, which is not empty and differs from every identifier
    drawn before. *)
Theorem generateSettingsJson_preserves_identity context w old s2 :
  (∀ projectPath isMultiEnvEnabled,
     loadProjectSettingsByProjectPathV2_body projectPath isMultiEnvEnabled
     = Spec.loadOldSettings stored uuid projectPath isMultiEnvEnabled) →
  (∀ n, uuid n ≠ "") →
  (∀ n m, uuid n = uuid m → n = m) →
  stored (projectPath context) (store w) = ok old →
  let n := Spec.drawn (mem (store w)) in
  let t := match projectId old with Some id => id | None => uuid n end in
  let s1 := match projectId old with Some _ => store w | None => Spec.draw (store w) end in
  let file := Path.join [SettingsFolderName; SettingsFileName] in
  let text :=
    Json.stringify (JsObject [("version", JsString "3.0.0"); ("trackingId", JsString t)]) 4 in
  fsEnsureDir_body context SettingsFolderName s1 = (Normal tt, s2) →
  generateSettingsJson context w =
    ((fsWriteFile_body context file text s2).1,
     {| store := (fsWriteFile_body context file text s2).2;
        trace := trace w ++ [CallLoadProjectSettings (projectPath context);
                             CallFsEnsureDir SettingsFolderName;
                             CallFsWriteFile file text] |}) ∧
  (∀ id, projectId old = Some id → t = id ∧ s1 = store w) ∧
  (projectId old = None →
   t = uuid n ∧ t ≠ "" ∧ (∀ m, (m < n)%nat → uuid m ≠ t) ∧
   Spec.drawn (mem s1) = S n).
Proof.
  intros Hloader Hnonempty Hinj Hstored n t s1 file text Hdir.
  split; [|split].
  - assert (∃ settings,
              loadProjectSettingsByProjectPathV2_body (projectPath context) true (store w)
                = (Normal (ok settings), s1) ∧
              projectId settings = Some t) as (settings & Hload & Hid).
    { rewrite Hloader. unfold Spec.loadOldSettings. rewrite Hstored.
      unfold t, s1. destruct (projectId old) as [id|] eqn:Hold; eauto. }
    rewrite (generateSettingsJson_writes context w settings s1 s2 Hload Hdir).
    by rewrite Hid.
  - intros id Hid. unfold t, s1. by rewrite Hid.
  - intros Hnone. unfold t, s1. rewrite Hnone. repeat split.
    + apply Hnonempty.
    + intros m Hlt Heq. apply Hinj in Heq. lia.
Qed.

End Identity.

(** The identifiers of the test generator are not empty and differ
    from draw to draw. *)
Lemma uuid_nonempty (n : nat) : IdentityDoubles.uuid n ≠ "".
Proof. discriminate. Qed.

Lemma uuid_inj (n m : nat) : IdentityDoubles.uuid n = IdentityDoubles.uuid m → n = m.
Proof.
  unfold IdentityDoubles.uuid. intros H. injection H as H.
  revert m H. induction n as [|n IH]; intros [|m] H; simpl in H; try done.
  injection H as H. by rewrite (IH m H).
Qed.

(** The run of C4 on a project whose old settings have no identifier,
    two identifiers having been drawn before: the settings file gets
    the third. *)
Lemma generateSettingsJson_preserves_identity_witness :
  let old := Doubles.azureSettings None (Some "typescript") in
  let collab := IdentityDoubles.collaborators old in
  let run :=
    generateSettingsJson (collab:=collab) IdentityDoubles.workingContext
      (IdentityDoubles.world 2) in
  run.1 = Normal tt ∧
  files (store run.2) !! "/proj/teamsfx/settings.json"
    = Some (Json.stringify (JsObject [("version", JsString "3.0.0");
                                      ("trackingId", JsString "id-ii")]) 4) ∧
  Spec.drawn (mem (store run.2)) = 3.
Proof.
  intros old collab run. unfold run.
  rewrite (proj1 (generateSettingsJson_preserves_identity (collab:=collab)
                    (IdentityDoubles.stored old) IdentityDoubles.uuid
                    IdentityDoubles.workingContext (IdentityDoubles.world 2) old
                    (fsEnsureDir_body IdentityDoubles.workingContext "teamsfx"
                       (Spec.draw (store (IdentityDoubles.world 2)))).2
                    (λ _ _, eq_refl) uuid_nonempty uuid_inj eq_refl eq_refl)).
  repeat split; reflexivity.
Defined.

(** ** The generator of [app.yml] *)

Section Generator_properties.
Context {Mem : Type} {collab : Collaborators Mem}.
Implicit Types (g : AppYmlGenerator.t) (w : World Mem).

Import AppYmlGenerator.

Lemma setPlaceholderMapping_bicep g placeholder :
  bicepContent (setPlaceholderMapping g placeholder) = bicepContent g.
Proof.
  unfold setPlaceholderMapping.
  by destruct (namingConverterV3 placeholder STATE (bicepContent g)).
Qed.

Lemma setPlaceholderMapping_settings g placeholder :
  oldProjectSettings (setPlaceholderMapping g placeholder) = oldProjectSettings g.
Proof.
  unfold setPlaceholderMapping.
  by destruct (namingConverterV3 placeholder STATE (bicepContent g)).
Qed.

Lemma foldl_setPlaceholderMapping_settings (l : list string) g :
  oldProjectSettings (foldl setPlaceholderMapping g l) = oldProjectSettings g.
Proof.
  revert g. induction l as [|x l IH]; intros g; simpl; [done|].
  by rewrite IH, setPlaceholderMapping_settings.
Qed.

Lemma generateAzureHandlebarsContext_settings g :
  oldProjectSettings (generateAzureHandlebarsContext g) = oldProjectSettings g.
Proof.
  unfold generateAzureHandlebarsContext.
  by rewrite foldl_setPlaceholderMapping_settings.
Qed.

Lemma setPlaceholderMapping_lookup g placeholder p :
  placeholderMappings (handlebarsContext (setPlaceholderMapping g placeholder)) !! p =
    match namingConverterV3 placeholder STATE (bicepContent g) with
    | ok value =>
        if decide (placeholder = p) then Some value
        else placeholderMappings (handlebarsContext g) !! p
    | err _ => placeholderMappings (handlebarsContext g) !! p
    end.
Proof.
  unfold setPlaceholderMapping.
  destruct (namingConverterV3 placeholder STATE (bicepContent g)); simpl; [|done].
  apply lookup_insert.
Qed.

(** Setting a list of placeholders one after the other: a placeholder
    of the list that resolves is mapped to its value, every other key
    keeps what it had. *)
Lemma foldl_setPlaceholderMapping (l : list string) g :
  bicepContent (foldl setPlaceholderMapping g l) = bicepContent g ∧
  ∀ p, placeholderMappings (handlebarsContext (foldl setPlaceholderMapping g l)) !! p =
       if decide (p ∈ l) then
         match namingConverterV3 p STATE (bicepContent g) with
         | ok value => Some value
         | err _ => placeholderMappings (handlebarsContext g) !! p
         end
       else placeholderMappings (handlebarsContext g) !! p.
Proof.
  induction l as [|x l IH] using rev_ind.
  - split; [done|]. intros p. by rewrite decide_False by apply not_elem_of_nil.
  - rewrite foldl_app; simpl. destruct IH as [Hb IH]. split.
    + by rewrite setPlaceholderMapping_bicep.
    + intros p. rewrite setPlaceholderMapping_lookup, Hb, IH.
      destruct (decide (x = p)) as [->|Hne].
      * rewrite (decide_True (P:=p ∈ l ++ [p])) by (apply elem_of_app; right; apply list_elem_of_singleton; done).
        destruct (namingConverterV3 p STATE (bicepContent g)); [done|].
        by destruct (decide (p ∈ l)).
      * destruct (decide (p ∈ l)) as [Hin|Hnin].
        -- rewrite (decide_True (P:=p ∈ l ++ [x])) by (apply elem_of_app; by left).
           by destruct (namingConverterV3 x STATE (bicepContent g)).
        -- rewrite (decide_False (P:=p ∈ l ++ [x])).
           ++ by destruct (namingConverterV3 x STATE (bicepContent g)).
           ++ intros [?|Hx%list_elem_of_singleton]%elem_of_app; [done|]. by subst.
Qed.

(** The mappings after [generateAzureHandlebarsContext]. *)
Lemma generateAzureHandlebarsContext_mappings g p :
  placeholderMappings (handlebarsContext (generateAzureHandlebarsContext g)) !! p =
    if decide (p ∈ azurePlaceholders) then
      match namingConverterV3 p STATE (bicepContent g) with
      | ok value => Some value
      | err _ => placeholderMappings (handlebarsContext g) !! p
      end
    else placeholderMappings (handlebarsContext g) !! p.
Proof.
  unfold generateAzureHandlebarsContext.
  by rewrite (proj2 (foldl_setPlaceholderMapping azurePlaceholders _) p).
Qed.

(** What [generateCommonHandlerbarsContext] leaves of the generator: the
    settings, the bicep text and the mappings are those it started
    with. *)
Lemma generateCommonHandlerbarsContext_frame g w g1 w1 :
  generateCommonHandlerbarsContext g w = (Normal g1, w1) →
  oldProjectSettings g1 = oldProjectSettings g ∧
  bicepContent g1 = bicepContent g ∧
  placeholderMappings (handlebarsContext g1) = placeholderMappings (handlebarsContext g).
Proof.
  unfold generateCommonHandlerbarsContext.
  destruct (solutionSettings (oldProjectSettings g)) as [ss|]; [|done].
  unfold bind.
  destruct (manifest_name _ _ _ w) as [[aad|e] wa]; [|done].
  destruct (manifest_name _ _ _ wa) as [[teams|e] wt]; [|done].
  unfold ret. by intros [= <- <-].
Qed.

(** The dispatch of the source agrees with the table of the
    specification. *)
Lemma templateFor_azure hostType language :
  Str.toLowerCase hostType = "azure" →
  Spec.templateFor hostType language = azureTemplate language.
Proof.
  intros Hhost. unfold Spec.templateFor, azureTemplate. rewrite Hhost; simpl.
  destruct language as [l|]; simpl; [|done].
  destruct (decide (Str.toLowerCase l = "javascript")) as [->|Hjs]; [done|].
  destruct (decide (Str.toLowerCase l = "typescript")) as [->|Hts]; [done|].
  rewrite decide_False by (intros [[=]|[=]]; done).
  destruct (decide (Str.toLowerCase l = "csharp")) as [->|Hcs]; [done|].
  by rewrite decide_False by (intros [=]; done).
Qed.

Lemma templateFor_None hostType language :
  Spec.templateFor hostType language = None ↔ Spec.unsupported hostType language.
Proof.
  unfold Spec.templateFor, Spec.unsupported; simpl.
  destruct (decide (Str.toLowerCase hostType = "azure")) as [Ha|Ha].
  - repeat case_decide; split; try done; intros; try (right; split; [done|]); intuition congruence.
  - destruct (decide (Str.toLowerCase hostType = "spfx")) as [Hs|Hs];
      split; try done; intuition congruence.
Qed.

(** [generateAppYml] of the generator, with its dispatch read off the
    table of the specification. *)
Lemma generateAppYml_dispatch g w ss :
  solutionSettings (oldProjectSettings g) = Some ss →
  generateAppYml g w =
    match generateCommonHandlerbarsContext g w with
    | (Abrupt e, w1) => (Abrupt e, w1)
    | (Normal g1, w1) =>
        match Spec.templateFor (hostType ss) (programmingLanguage (oldProjectSettings g)) with
        | Some templateName =>
            buildHandlebarsTemplate
              (if decide (Str.toLowerCase (hostType ss) = "azure")
               then generateAzureHandlebarsContext g1 else g1)
              templateName w1
        | None => (Abrupt (JsError unsupportedMessage), w1)
        end
    end.
Proof.
  intros Hss. unfold generateAppYml, bind.
  destruct (generateCommonHandlerbarsContext g w) as [[g1|e] w1] eqn:Hcommon; [|done].
  destruct (generateCommonHandlerbarsContext_frame _ _ _ _ Hcommon) as (Hold & _ & _).
  rewrite Hold, Hss.
  destruct (decide (Str.toLowerCase (hostType ss) = "azure")) as [Ha|Ha].
  - rewrite (templateFor_azure _ _ Ha).
    rewrite generateAzureHandlebarsContext_settings, Hold.
    by destruct (azureTemplate (programmingLanguage (oldProjectSettings g))).
  - unfold Spec.templateFor. rewrite (decide_False (P:=Str.toLowerCase (hostType ss) = "azure")) by done.
    by destruct (decide (Str.toLowerCase (hostType ss) = "spfx")).
Qed.

(** C6.  The template of [app.yml] is a function of the host type and
    the programming language of the old project: once the common
    context is assembled, [generateAppYml] renders the template the
    table of the specification gives for the two, and throws the error
    that tells the user the tooling cannot upgrade the project when the
    table has none, which is the case exactly when the host type is
    neither Azure nor SPFx, or is Azure with a language other than
    javascript, typescript and csharp.  For such a target the
    generation never returns. *)
Theorem generateAppYml_template_selection g w ss :
  solutionSettings (oldProjectSettings g) = Some ss →
  let language := programmingLanguage (oldProjectSettings g) in
  generateAppYml g w =
    match generateCommonHandlerbarsContext g w with
    | (Abrupt e, w1) => (Abrupt e, w1)
    | (Normal g1, w1) =>
        match Spec.templateFor (hostType ss) language with
        | Some templateName =>
            buildHandlebarsTemplate
              (if decide (Str.toLowerCase (hostType ss) = "azure")
               then generateAzureHandlebarsContext g1 else g1)
              templateName w1
        | None => (Abrupt (JsError unsupportedMessage), w1)
        end
    end ∧
  (Spec.templateFor (hostType ss) language = None ↔ Spec.unsupported (hostType ss) language) ∧
  (Spec.unsupported (hostType ss) language →
   ∃ e w1, generateAppYml g w = (Abrupt e, w1) ∧
     (∀ g1, (generateCommonHandlerbarsContext g w).1 = Normal g1 →
            e = JsError unsupportedMessage)).
Proof.
  intros Hss language. split; [by apply generateAppYml_dispatch|].
  split; [apply templateFor_None|].
  intros Hun%templateFor_None. rewrite (generateAppYml_dispatch g w ss Hss).
  fold language. rewrite Hun.
  destruct (generateCommonHandlerbarsContext g w) as [[g1|e] w1]; simpl.
  - by exists (JsError unsupportedMessage), w1.
  - exists e, w1. split; [done|]. by intros g1 [=].
Qed.

(** C8.  In the generation for an Azure project, the context handed to
    the template maps each of the nine placeholders that
    [namingConverterV3] resolves against the bicep text to its value
    and has no entry for one that it does not resolve, nor for any
    other key; and the generation goes on to render the template
    whichever placeholders failed to resolve. *)
Theorem unresolved_placeholders_left_out old bicep path w g1 w1 ss templateName :
  solutionSettings old = Some ss →
  Str.toLowerCase (hostType ss) = "azure" →
  azureTemplate (programmingLanguage old) = Some templateName →
  generateCommonHandlerbarsContext (new old bicep path) w = (Normal g1, w1) →
  let g2 := generateAzureHandlebarsContext g1 in
  generateAppYml (new old bicep path) w = buildHandlebarsTemplate g2 templateName w1 ∧
  ∀ p, placeholderMappings (handlebarsContext g2) !! p =
       if decide (p ∈ azurePlaceholders) then
         match namingConverterV3 p STATE bicep with
         | ok value => Some value
         | err _ => None
         end
       else None.
Proof.
  intros Hss Hazure Htemplate Hcommon g2. split.
  - rewrite (generateAppYml_dispatch (new old bicep path) w ss Hss), Hcommon; simpl.
    rewrite (templateFor_azure _ _ Hazure), Htemplate.
    by rewrite decide_True by done.
  - intros p. unfold g2. rewrite generateAzureHandlebarsContext_mappings.
    destruct (generateCommonHandlerbarsContext_frame _ _ _ _ Hcommon) as (_ & -> & ->).
    simpl. rewrite lookup_empty.
    by destruct (decide (p ∈ azurePlaceholders)), (namingConverterV3 p STATE bicep).
Qed.

End Generator_properties.

(** The run of C6 on an Azure project written in a language without a
    template. *)
Lemma generateAppYml_template_selection_witness :
  let collab := Doubles.collaborators Doubles.workingContext
                  (ok (Doubles.azureSettings None (Some "Rust"))) true true in
  (AppYmlGenerator.generateAppYml (collab:=collab)
     (AppYmlGenerator.new (Doubles.azureSettings None (Some "Rust")) "" "/proj")
     Doubles.emptyProject).1
  = Abrupt (JsError AppYmlGenerator.unsupportedMessage).
Proof.
  intros collab.
  rewrite (proj1 (generateAppYml_template_selection (collab:=collab)
                    (AppYmlGenerator.new (Doubles.azureSettings None (Some "Rust")) "" "/proj")
                    Doubles.emptyProject
                    {| hostType := "Azure";
                       activeResourcePlugins :=
                         ["fx-resource-frontend-hosting"; "fx-resource-bot"] |}
                    eq_refl)).
  reflexivity.
Defined.

(** The run of C8 on an Azure project whose bicep text resolves one
    placeholder only: that one is mapped, another one is not, and the
    template is rendered. *)
Lemma unresolved_placeholders_left_out_witness :
  let old := Doubles.azureSettings (Some "abc-123") (Some "TypeScript") in
  let collab := Doubles.collaborators Doubles.workingContext (ok old) true true in
  let bicep := "output x string = state.fx-resource-bot.resourceId" in
  let w := Doubles.world Doubles.azureTree in
  let common :=
    AppYmlGenerator.generateCommonHandlerbarsContext (collab:=collab)
      (AppYmlGenerator.new old bicep "/proj") w in
  let g1 :=
    AppYmlGenerator.with_context (AppYmlGenerator.new old bicep "/proj")
      (AppYmlGenerator.common_context (collab:=collab) (AppYmlGenerator.new old bicep "/proj")
         ["fx-resource-frontend-hosting"; "fx-resource-bot"] JsUndefined JsUndefined) in
  let g2 := AppYmlGenerator.generateAzureHandlebarsContext (collab:=collab) g1 in
  (AppYmlGenerator.generateAppYml (collab:=collab) (AppYmlGenerator.new old bicep "/proj") w).1
    = Normal "version: 1.0.0" ∧
  placeholderMappings (AppYmlGenerator.handlebarsContext g2) !! "state.fx-resource-bot.resourceId"
    = Some (Doubles.resolved "state.fx-resource-bot.resourceId") ∧
  placeholderMappings (AppYmlGenerator.handlebarsContext g2)
    !! "state.fx-resource-frontend-hosting.endpoint" = None.
Proof.
  intros old collab bicep w common g1 g2.
  pose proof (unresolved_placeholders_left_out (collab:=collab) old bicep "/proj" w g1 common.2
                {| hostType := "Azure";
                   activeResourcePlugins :=
                     ["fx-resource-frontend-hosting"; "fx-resource-bot"] |}
                "js.ts.app.yml" eq_refl eq_refl eq_refl eq_refl) as [Hrun Hmap].
  split; [|split].
  - refine (eq_trans (f_equal fst Hrun) _). reflexivity.
  - refine (eq_trans (Hmap "state.fx-resource-bot.resourceId") _). reflexivity.
  - refine (eq_trans (Hmap "state.fx-resource-frontend-hosting.endpoint") _). reflexivity.
Defined.

(** ** No step of the migration calls [next] *)

Section No_next.
Context {Mem : Type} {collab : Collaborators Mem}.
Implicit Types (context : MigrationContext Mem) (w : World Mem).

Lemma emits_fs_readFile file : emits (Mem:=Mem) not_next (fs_readFile file).
Proof. unfold fs_readFile. solve_emits. Qed.

Lemma emits_fs_pathExists file : emits (Mem:=Mem) not_next (fs_pathExists file).
Proof. unfold fs_pathExists. solve_emits. Qed.

Lemma emits_fs_readJson file : emits not_next (AppYmlGenerator.fs_readJson file).
Proof. unfold AppYmlGenerator.fs_readJson. solve_emits. apply emits_fs_readFile. Qed.

Lemma emits_manifest_name file current pick :
  emits not_next (AppYmlGenerator.manifest_name file current pick).
Proof.
  unfold AppYmlGenerator.manifest_name. solve_emits;
    auto using emits_fs_pathExists, emits_fs_readJson.
Qed.

Lemma emits_buildHandlebarsTemplate g templateName :
  emits not_next (AppYmlGenerator.buildHandlebarsTemplate g templateName).
Proof.
  unfold AppYmlGenerator.buildHandlebarsTemplate. solve_emits. apply emits_fs_readFile.
Qed.

Lemma emits_generateCommonHandlerbarsContext g :
  emits not_next (AppYmlGenerator.generateCommonHandlerbarsContext g).
Proof.
  unfold AppYmlGenerator.generateCommonHandlerbarsContext. solve_emits;
    apply emits_manifest_name.
Qed.

Lemma emits_generator_generateAppYml g : emits not_next (AppYmlGenerator.generateAppYml g).
Proof.
  unfold AppYmlGenerator.generateAppYml. solve_emits;
    auto using emits_generateCommonHandlerbarsContext, emits_buildHandlebarsTemplate.
Qed.

Lemma emits_loadProjectSettings projectPath :
  emits not_next (loadProjectSettings projectPath).
Proof. unfold loadProjectSettings. solve_emits. Qed.

Lemma emits_preMigration context : emits not_next (preMigration context).
Proof. unfold preMigration, backup. solve_emits. Qed.

Lemma emits_generateSettingsJson context : emits not_next (generateSettingsJson context).
Proof.
  unfold generateSettingsJson, fsEnsureDir, fsWriteFile. solve_emits.
  apply emits_loadProjectSettings.
Qed.

Lemma emits_generateAppYml context : emits not_next (generateAppYml context).
Proof.
  unfold generateAppYml, AppYmlGenerator.generateAppYml_without_projectPath, fsWriteFile.
  solve_emits; auto using emits_fs_readFile, emits_loadProjectSettings.
Qed.

Lemma emits_migrate context : emits not_next (migrate context).
Proof.
  unfold migrate, subMigrations; simpl. solve_emits;
    auto using emits_preMigration, emits_generateSettingsJson, emits_generateAppYml.
Qed.

Lemma emits_rollbackMigration context : emits not_next (rollbackMigration context).
Proof.
  unfold rollbackMigration, cleanModifiedPaths, restoreBackup, cleanTeamsfx. solve_emits.
Qed.

Lemma emits_wrapRunMigration context (exec : Migration) :
  emits not_next (exec context) → emits not_next (wrapRunMigration context exec).
Proof.
  intros Hexec. unfold wrapRunMigration, showSummaryReport. solve_emits;
    auto using emits_rollbackMigration.
Qed.

End No_next.

(** ** The [app.yml] step never completes *)

Section App_yml_step.
Context {Mem : Type} {collab : Collaborators Mem}.
Implicit Types (context : MigrationContext Mem) (w : World Mem).

Lemma generateAppYml_without_projectPath_throws old bicep w :
  ∃ message,
    AppYmlGenerator.generateAppYml_without_projectPath old bicep w
      = (Abrupt (TypeError message), w).
Proof.
  unfold AppYmlGenerator.generateAppYml_without_projectPath, throw.
  destruct (solutionSettings old); eauto.
Qed.

(** Whatever the project, the step throws: on the bicep file, in the
    loader, or in the generator, which has no project path. *)
Lemma generateAppYml_throws context w :
  ∃ e w1, generateAppYml context w = (Abrupt e, w1).
Proof.
  unfold generateAppYml, bind.
  destruct (fs_readFile _ w) as [[bicep|e] w1]; [|eauto].
  destruct (loadProjectSettings _ w1) as [[old|e] w2]; [|eauto].
  destruct (generateAppYml_without_projectPath_throws old bicep w2) as [message ->].
  eauto.
Qed.

Lemma migrate_throws context w :
  ∃ e w1, migrate context w = (Abrupt e, w1).
Proof.
  rewrite (proj2 (migrate_steps context w)).
  destruct (preMigration context w) as [[[]|e1] w1]; [|eauto].
  destruct (generateSettingsJson context w1) as [[[]|e2] w2]; [|eauto].
  apply generateAppYml_throws.
Qed.

Lemma wrapRunMigration_migrate_throws context w :
  ∃ e w1, wrapRunMigration context migrate w = (Abrupt e, w1).
Proof.
  destruct (migrate_throws context w) as (e & w1 & Hfail).
  rewrite (wrapRunMigration_abrupt _ _ _ _ _ Hfail).
  destruct (rollbackMigration context w1) as [[[]|e'] w2]; eauto.
Qed.

End App_yml_step.

(** ** The middleware: [ProjectMigratorMWV3] *)

Section Middleware.
Context {Mem : Type} {collab : Collaborators Mem}.
Implicit Types (ctx : CoreHookContext) (w : World Mem).

(** The version the migrator takes a project to have does not depend on
    the project: it is 2.1.0 for every hook context and every world, and
    finding it reads nothing, changes nothing and cannot fail. *)
Lemma getProjectVersion_constant ctx w :
  getProjectVersion ctx w = (Normal "2.1.0", w).
Proof. reflexivity. Qed.

Lemma checkVersionForMigration_always ctx w :
  checkVersionForMigration ctx w = (Normal true, w).
Proof. reflexivity. Qed.

Lemma ProjectMigratorMWV3_unfold ctx next w :
  ProjectMigratorMWV3 ctx next w =
    if checkMethod ctx then
      if checkUserTasks ctx then
        (migrationContext <- MigrationContext_create ctx ;;
         wrapRunMigration migrationContext migrate ;;
         ret (set_result ctx (ok JsUndefined))) w
      else (Normal (set_result ctx (ok JsUndefined)), w)
    else call CallNext (next ctx) w.
Proof.
  unfold ProjectMigratorMWV3.
  rewrite (bind_normal _ _ w true w (checkVersionForMigration_always ctx w)); simpl.
  by destruct (checkMethod ctx), (checkUserTasks ctx).
Qed.

Lemma emits_ProjectMigratorMWV3 ctx next :
  checkMethod ctx = true → emits not_next (ProjectMigratorMWV3 ctx next).
Proof.
  intros Hmethod w.
  assert (emits not_next
            (migrationContext <- MigrationContext_create ctx ;;
             wrapRunMigration migrationContext migrate ;;
             ret (set_result ctx (ok JsUndefined)))) as Hrun.
  { unfold MigrationContext_create. solve_emits.
    apply emits_wrapRunMigration, emits_migrate. }
  rewrite ProjectMigratorMWV3_unfold, Hmethod.
  destruct (checkUserTasks ctx); [apply Hrun|].
  exists []. by rewrite app_nil_r.
Qed.

(** C9, at the code.  When the method check and the user-task check
    pass (the version check passes for every project), the middleware
    enters the migration and throws: the [app.yml] step of [migrate]
    cannot complete, so the assignment of [ok(undefined)] to the hook
    result that follows the migration in the source is never reached.
    In no run that passes the method check is [next] called, so a run
    in which [next] is called is one in which the method check said
    that nothing is to be migrated. *)
Theorem ProjectMigratorMWV3_migration_sets_no_result ctx next :
  (checkMethod ctx = true → checkUserTasks ctx = true →
   ∀ w, ∃ e w', ProjectMigratorMWV3 ctx next w = (Abrupt e, w')) ∧
  (checkMethod ctx = true →
   ∀ w, ∃ evs, trace (ProjectMigratorMWV3 ctx next w).2 = trace w ++ evs ∧ CallNext ∉ evs) ∧
  (∀ w evs,
     trace (ProjectMigratorMWV3 ctx next w).2 = trace w ++ evs →
     CallNext ∈ evs →
     checkMethod ctx = false).
Proof.
  assert (∀ evs : list Event, Forall not_next evs → CallNext ∉ evs) as Hnot.
  { intros evs Hall Hin. by apply (proj1 (Forall_forall _ _) Hall) in Hin. }
  split; [|split].
  - intros Hmethod Htasks w.
    rewrite ProjectMigratorMWV3_unfold, Hmethod, Htasks. unfold bind at 1.
    destruct (MigrationContext_create ctx w) as [[migrationContext|e] w1]; [|eauto].
    unfold bind.
    destruct (wrapRunMigration_migrate_throws migrationContext w1) as (e & w2 & ->).
    eauto.
  - intros Hmethod w.
    destruct (emits_ProjectMigratorMWV3 ctx next Hmethod w) as (evs & E & F).
    exists evs. auto.
  - intros w evs E Hin. destruct (checkMethod ctx) eqn:Hmethod; [|done].
    exfalso. eapply Hnot; [|exact Hin].
    by apply (emits_elim _ _ w evs (emits_ProjectMigratorMWV3 ctx next Hmethod)).
Qed.

End Middleware.

(** The run of C9 on an Azure project in typescript whose bicep file and
    templates are in place: the two first steps complete, the [app.yml]
    step throws the TypeError of [path.join], the rollback runs, and
    the middleware throws with no hook result set and without a call of
    [next]. *)
Lemma ProjectMigratorMWV3_migration_sets_no_result_witness :
  let collab := Doubles.collaborators Doubles.workingContext
                  (ok (Doubles.azureSettings (Some "abc-123") (Some "typescript"))) true true in
  let w := Doubles.world Doubles.azureTree in
  let run := ProjectMigratorMWV3 (collab:=collab) Doubles.hookContext Doubles.operation w in
  (∃ e w', run = (Abrupt e, w')) ∧
  run.1 = Abrupt (TypeError "The path argument must be of type string. Received undefined") ∧
  trace run.2 =
    [CallCreate; CallBackup ".fx";
     CallLoadProjectSettings "/proj"; CallFsEnsureDir "teamsfx";
     CallFsWriteFile "teamsfx/settings.json" (Spec.settingsText (Some "abc-123"));
     CallReadFile "/proj/templates/azure/provision.bicep";
     CallLoadProjectSettings "/proj";
     CallCleanModifiedPaths; CallRestoreBackup; CallCleanTeamsfx].
Proof.
  intros collab w run. split; [|split; reflexivity].
  apply (proj1 (ProjectMigratorMWV3_migration_sets_no_result (collab:=collab)
                  Doubles.hookContext Doubles.operation)
               eq_refl eq_refl w).
Defined.

(** C5, at a project whose settings file declares version 3.0.0: the
    middleware does not pass it by.  It creates a migration context,
    backs up the old configuration folder and writes the new settings
    file into the project; then the [app.yml] step throws, the rollback
    is run and the error goes to the caller.  The wrapped operation is
    not called.  The version check is passed by every project, whatever
    the world holds. *)
Lemma ProjectMigratorMWV3_migrates_current_project :
  let collab := Doubles.collaborators Doubles.workingContext
                  (ok (Doubles.azureSettings (Some "abc-123") (Some "typescript"))) true true in
  let w := Doubles.world Doubles.currentTree in
  let run := ProjectMigratorMWV3 (collab:=collab) Doubles.hookContext Doubles.operation w in
  files (store w) !! "/proj/.fx/configs/projectSettings.json"
    = Some (Json.stringify (JsObject [("appName", JsString "my app");
                                      ("version", JsString "3.0.0")]) 4) ∧
  run.1 = Abrupt (TypeError "The path argument must be of type string. Received undefined") ∧
  trace run.2 =
    [CallCreate; CallBackup ".fx";
     CallLoadProjectSettings "/proj"; CallFsEnsureDir "teamsfx";
     CallFsWriteFile "teamsfx/settings.json" (Spec.settingsText (Some "abc-123"));
     CallReadFile "/proj/templates/azure/provision.bicep";
     CallLoadProjectSettings "/proj";
     CallCleanModifiedPaths; CallRestoreBackup; CallCleanTeamsfx] ∧
  (CallNext ∉ trace run.2) ∧
  ∀ ctx (w' : World unit), checkVersionForMigration ctx w' = (Normal true, w').
Proof.
  intros collab w run. repeat split; try reflexivity.
  apply (bool_decide_unpack _). vm_compute. exact I.
Qed.

(** C7, at a project directory with nothing in it: finding the version
    does not fail for want of a version marker; it answers 2.1.0 and
    leaves the world as it was, as it does for every hook context and
    every world. *)
Lemma getProjectVersion_of_empty_project :
  files (store Doubles.emptyProject) = ∅ ∧
  getProjectVersion Doubles.hookContext Doubles.emptyProject
    = (Normal "2.1.0", Doubles.emptyProject) ∧
  ∀ ctx (w : World unit), getProjectVersion ctx w = (Normal "2.1.0", w).
Proof. repeat split; reflexivity. Qed.

(** ** The bicep file and the [app.yml] step *)

Section Bicep.
Context {Mem : Type} {collab : Collaborators Mem}.
Implicit Types (context : MigrationContext Mem) (w : World Mem).

Lemma fs_readFile_absent file w :
  Spec.absent file w →
  fs_readFile file w =
    (Abrupt (SystemError "ENOENT" file),
     {| store := store w; trace := trace w ++ [CallReadFile file] |}).
Proof.
  intros [Hfile Hdir]. unfold fs_readFile. rewrite call_unfold.
  unfold readFile_body. rewrite Hfile. by rewrite decide_False by done.
Qed.

(** The first thing the rollback does is call [cleanModifiedPaths]. *)
Lemma rollbackMigration_trace context w :
  ∃ evs, trace (rollbackMigration context w).2 = trace w ++ CallCleanModifiedPaths :: evs.
Proof.
  rewrite rollbackMigration_unfold.
  destruct (cleanModifiedPaths_body context (store w)) as [[[]|e1] s1]; [|by exists []].
  destruct (restoreBackup_body context s1) as [[[]|e2] s2]; simpl; eauto.
Qed.

(** A failed run is rolled back and stays failed. *)
Lemma wrapRunMigration_fails context (exec : Migration) w e w1 :
  exec context w = (Abrupt e, w1) →
  ∃ e' w3 evs,
    wrapRunMigration context exec w = (Abrupt e', w3) ∧
    trace w3 = trace w1 ++ CallCleanModifiedPaths :: evs.
Proof.
  intros Hexec. rewrite (wrapRunMigration_abrupt _ _ _ _ _ Hexec).
  destruct (rollbackMigration_trace context w1) as [evs E].
  destruct (rollbackMigration context w1) as [[[]|e'] w3]; simpl in E; eauto.
Qed.

(** C10.  The [app.yml] step reads templates/azure/provision.bicep
    under the project path before anything else, so where that file is
    absent it throws ENOENT without having looked at the settings,
    whatever the host type of the project, SPFx included; the migration
    then fails: the rollback is started and the caller gets an error. *)
Theorem generateAppYml_needs_bicep context :
  let file := Path.join [projectPath context; provisionBicepPath] in
  (∀ w, Spec.absent file w →
     generateAppYml context w =
       (Abrupt (SystemError "ENOENT" file),
        {| store := store w; trace := trace w ++ [CallReadFile file] |})) ∧
  (∀ w0 w1 w2,
     preMigration context w0 = (Normal tt, w1) →
     generateSettingsJson context w1 = (Normal tt, w2) →
     Spec.absent file w2 →
     wrapRunMigration context migrate w0 =
       match rollbackMigration context
               {| store := store w2; trace := trace w2 ++ [CallReadFile file] |} with
       | (Normal _, w3) => (Abrupt (SystemError "ENOENT" file), w3)
       | (Abrupt e', w3) => (Abrupt e', w3)
       end) ∧
  (∀ w0,
     (∀ w1 w2,
        preMigration context w0 = (Normal tt, w1) →
        generateSettingsJson context w1 = (Normal tt, w2) →
        Spec.absent file w2) →
     ∃ e w3 evs,
       wrapRunMigration context migrate w0 = (Abrupt e, w3) ∧
       trace w3 = trace w0 ++ evs ∧
       CallCleanModifiedPaths ∈ evs).
Proof.
  intros file.
  assert (∀ w, Spec.absent file w →
            generateAppYml context w =
              (Abrupt (SystemError "ENOENT" file),
               {| store := store w; trace := trace w ++ [CallReadFile file] |})) as Hstep.
  { intros w Habsent. unfold generateAppYml. fold file.
    by rewrite (bind_abrupt _ _ _ _ _ (fs_readFile_absent file w Habsent)). }
  split; [exact Hstep|]. split.
  - intros w0 w1 w2 Hpre Hsettings Habsent.
    apply wrapRunMigration_abrupt.
    rewrite (proj2 (migrate_steps context w0)), Hpre, Hsettings.
    by apply Hstep.
  - intros w0 Habsent.
    assert (∃ e w1, migrate context w0 = (Abrupt e, w1)) as (e & w1 & Hfail).
    { rewrite (proj2 (migrate_steps context w0)).
      destruct (preMigration context w0) as [[[]|e1] w1] eqn:Hpre; [|eauto].
      destruct (generateSettingsJson context w1) as [[[]|e2] w2] eqn:Hsettings; [|eauto].
      rewrite (Hstep w2 (Habsent w1 w2 eq_refl Hsettings)). eauto. }
    destruct (wrapRunMigration_fails context migrate w0 e w1 Hfail) as (e' & w3 & evs & Hrun & E).
    destruct (emits_migrate context w0) as (evs0 & E0 & _).
    rewrite Hfail in E0; simpl in E0.
    exists e', w3, (evs0 ++ CallCleanModifiedPaths :: evs).
    split; [done|]. split.
    + by rewrite E, E0, app_assoc.
    + apply elem_of_app. right. apply list_elem_of_here.
Qed.

End Bicep.

(** The run of C10 on an SPFx project, which has no bicep file: the
    first two steps complete, the third throws ENOENT, the rollback
    runs and the caller gets ENOENT. *)
Lemma generateAppYml_needs_bicep_witness :
  let collab := Doubles.collaborators Doubles.workingContext (ok Doubles.spfxSettings) true true in
  let w0 := Doubles.emptyProject in
  (wrapRunMigration Doubles.workingContext (migrate (collab:=collab)) w0).1
    = Abrupt (SystemError "ENOENT" "/proj/templates/azure/provision.bicep") ∧
  trace (wrapRunMigration Doubles.workingContext (migrate (collab:=collab)) w0).2
    = [CallBackup ".fx";
       CallLoadProjectSettings "/proj"; CallFsEnsureDir "teamsfx";
       CallFsWriteFile "teamsfx/settings.json" (Spec.settingsText (Some "abc-123"));
       CallReadFile "/proj/templates/azure/provision.bicep";
       CallCleanModifiedPaths; CallRestoreBackup; CallCleanTeamsfx].
Proof.
  intros collab w0.
  pose (w1 := (preMigration (collab:=collab) Doubles.workingContext w0).2).
  pose (w2 := (generateSettingsJson (collab:=collab) Doubles.workingContext w1).2).
  assert (Spec.absent "/proj/templates/azure/provision.bicep" w2) as Habsent.
  { split; [reflexivity|]. apply (bool_decide_unpack _). vm_compute. exact I. }
  rewrite (proj1 (proj2 (generateAppYml_needs_bicep (collab:=collab) Doubles.workingContext))
             w0 w1 w2 eq_refl eq_refl Habsent).
  split; reflexivity.
Defined.

(** * Further properties of the migrator *)

Section Event_kinds.
Context {Mem : Type}.
Implicit Types w : World Mem.

Lemma emits_weaken {A} (P Q : Event → Prop) (c : Async Mem A) :
  (∀ ev, P ev → Q ev) → emits P c → emits Q c.
Proof.
  intros HPQ Hc w. destruct (Hc w) as (evs & E & F).
  exists evs. split; [done|]. by eapply Forall_impl.
Qed.

Lemma reads_only_emits {A} (c : Async Mem A) : reads_only c → emits fs_read_event c.
Proof. intros Hc w. apply Hc. Qed.

Lemma reads_only_ret {A} (a : A) : reads_only (Mem:=Mem) (ret a).
Proof. intros w. split; [done|]. exists []. by rewrite app_nil_r. Qed.

Lemma reads_only_throw {A} e : reads_only (Mem:=Mem) (A:=A) (throw e).
Proof. intros w. split; [done|]. exists []. by rewrite app_nil_r. Qed.

Lemma reads_only_lift {A} (r : Completion A) : reads_only (Mem:=Mem) (lift r).
Proof. intros w. split; [done|]. exists []. by rewrite app_nil_r. Qed.

Lemma reads_only_bind {A B} (c : Async Mem A) (k : A → Async Mem B) :
  reads_only c → (∀ a, reads_only (k a)) → reads_only (bind c k).
Proof.
  intros Hc Hk w. unfold bind.
  destruct (Hc w) as (S1 & evs1 & E1 & F1).
  destruct (c w) as [[a|e] w1]; simpl in *.
  - destruct (Hk a w1) as (S2 & evs2 & E2 & F2).
    split; [by rewrite S2|].
    exists (evs1 ++ evs2). rewrite E2, E1, app_assoc. split; [done|].
    by apply Forall_app.
  - split; [done|]. by exists evs1.
Qed.

Lemma reads_only_fs_readFile file : reads_only (Mem:=Mem) (fs_readFile file).
Proof.
  intros w. unfold fs_readFile. rewrite call_unfold. unfold readFile_body.
  destruct (files (store w) !! file); simpl;
    (split; [done|]; exists [CallReadFile file]; split; [done|]; by apply Forall_singleton).
Qed.

Lemma reads_only_fs_pathExists file : reads_only (Mem:=Mem) (fs_pathExists file).
Proof.
  intros w. unfold fs_pathExists. rewrite call_unfold. simpl.
  split; [done|]. exists [CallPathExists file]. split; [done|]. by apply Forall_singleton.
Qed.

End Event_kinds.

(** Splits a goal [reads_only c] along the structure of [c]. *)
Ltac reads_only_step :=
  match goal with
  | |- reads_only (bind _ _) => apply reads_only_bind; [|intros ?]
  | |- reads_only (ret _) => apply reads_only_ret
  | |- reads_only (throw _) => apply reads_only_throw
  | |- reads_only (lift _) => apply reads_only_lift
  | |- reads_only (fs_readFile _) => apply reads_only_fs_readFile
  | |- reads_only (fs_pathExists _) => apply reads_only_fs_pathExists
  | |- reads_only (match ?x with _ => _ end) => destruct x
  | |- reads_only (if ?b then _ else _) => destruct b
  end.

(** As [emits_step], for a property of events that holds by
    computation. *)
Ltac emits_kind_step :=
  match goal with
  | |- emits _ (bind _ _) => apply emits_bind; [|intros ?]
  | |- emits _ (try_catch _ _) => apply emits_try_catch; [|intros ?]
  | |- emits _ (ret _) => apply emits_ret
  | |- emits _ (throw _) => apply emits_throw
  | |- emits _ (lift _) => apply emits_lift
  | |- emits _ (call _ _) => apply emits_call; exact I
  | |- emits _ (match ?x with _ => _ end) => destruct x
  | |- emits _ (if ?b then _ else _) => destruct b
  end.

(** ** The generator only reads *)

Section Generator_reads.
Context {Mem : Type} {collab : Collaborators Mem}.
Implicit Types (g : AppYmlGenerator.t) (w : World Mem).

Lemma reads_only_fs_readJson file : reads_only (AppYmlGenerator.fs_readJson file).
Proof. unfold AppYmlGenerator.fs_readJson. repeat reads_only_step. Qed.

Lemma reads_only_manifest_name file current pick :
  reads_only (AppYmlGenerator.manifest_name file current pick).
Proof.
  unfold AppYmlGenerator.manifest_name. repeat reads_only_step.
  apply reads_only_fs_readJson.
Qed.

Lemma reads_only_buildHandlebarsTemplate g templateName :
  reads_only (AppYmlGenerator.buildHandlebarsTemplate g templateName).
Proof. unfold AppYmlGenerator.buildHandlebarsTemplate. repeat reads_only_step. Qed.

Lemma reads_only_generateCommonHandlerbarsContext g :
  reads_only (AppYmlGenerator.generateCommonHandlerbarsContext g).
Proof.
  unfold AppYmlGenerator.generateCommonHandlerbarsContext. repeat reads_only_step;
    apply reads_only_manifest_name.
Qed.

Lemma reads_only_generateAppYml g : reads_only (AppYmlGenerator.generateAppYml g).
Proof.
  unfold AppYmlGenerator.generateAppYml. repeat reads_only_step;
    auto using reads_only_generateCommonHandlerbarsContext, reads_only_buildHandlebarsTemplate.
Qed.

(** X1.  Generating the text of [app.yml] has no effect on the project:
    whatever the settings and however it completes, [generateAppYml] of
    the generator leaves the store as it found it, and the only calls
    it makes are [fs.pathExists] and [fs.readFile]; it calls no method
    of the migration context and not the settings loader. *)
Theorem generator_generateAppYml_reads_only g w :
  store (AppYmlGenerator.generateAppYml g w).2 = store w ∧
  ∃ evs, trace (AppYmlGenerator.generateAppYml g w).2 = trace w ++ evs ∧
         Forall fs_read_event evs.
Proof. apply reads_only_generateAppYml. Qed.

End Generator_reads.

(** ** The steps and the coordinator on their other paths *)

Section Steps.
Context {Mem : Type} {collab : Collaborators Mem}.
Implicit Types (context : MigrationContext Mem) (w : World Mem).

Lemma bind_assoc {A B C} (c : Async Mem A) (k : A → Async Mem B) (h : B → Async Mem C) w :
  bind (bind c k) h w = bind c (λ a, bind (k a) h) w.
Proof. unfold bind. by destruct (c w) as [[a|e] w1]. Qed.

Lemma input_event_of_read ev : fs_read_event ev → input_event ev.
Proof. by destruct ev. Qed.

Lemma emits_input_loadProjectSettings projectPath :
  emits input_event (loadProjectSettings projectPath).
Proof. unfold loadProjectSettings. repeat emits_kind_step. Qed.

Lemma generateAppYml_split context w :
  generateAppYml context w =
    bind (appYml_text context)
      (λ appYmlString,
         fsWriteFile context (Path.join [SettingsFolderName; appYmlName]) appYmlString) w.
Proof.
  unfold generateAppYml, appYml_text, bind.
  destruct (fs_readFile _ w) as [[bicep|e] w1]; [|done].
  by destruct (loadProjectSettings _ w1) as [[old|e] w2].
Qed.

Lemma emits_input_appYml_text context : emits input_event (appYml_text context).
Proof.
  unfold appYml_text. repeat emits_kind_step.
  - apply (emits_weaken fs_read_event); [apply input_event_of_read|].
    apply reads_only_emits, reads_only_fs_readFile.
  - apply emits_input_loadProjectSettings.
  - unfold AppYmlGenerator.generateAppYml_without_projectPath. repeat emits_kind_step.
Qed.

Lemma appYml_text_throws context w :
  ∃ e w1, appYml_text context w = (Abrupt e, w1).
Proof.
  unfold appYml_text, bind.
  destruct (fs_readFile _ w) as [[bicep|e] w1]; [|eauto].
  destruct (loadProjectSettings _ w1) as [[old|e] w2]; [|eauto].
  destruct (generateAppYml_without_projectPath_throws old bicep w2) as [message ->].
  eauto.
Qed.

(** X2.  The [app.yml] step writes nothing: whatever the project and
    the context, a run of the step ends with a throw, and the only
    calls it has made by then bring something in (the read of the bicep
    file, the load of the settings); no method of the migration context
    is called, [fsWriteFile] least of all.  When the bicep file can be
    read and the loader answers with settings, what is thrown is a
    TypeError, out of the generator that the step has built without a
    project path. *)
Theorem generateAppYml_never_writes context w :
  let file := Path.join [projectPath context; provisionBicepPath] in
  (∃ e w1 evs,
     generateAppYml context w = (Abrupt e, w1) ∧
     trace w1 = trace w ++ evs ∧ Forall input_event evs) ∧
  (∀ bicep old s1,
     files (store w) !! file = Some bicep →
     loadProjectSettingsByProjectPathV2_body (projectPath context) true (store w)
       = (Normal (ok old), s1) →
     ∃ message,
       generateAppYml context w =
         (Abrupt (TypeError message),
          {| store := s1;
             trace := trace w ++ [CallReadFile file;
                                  CallLoadProjectSettings (projectPath context)] |})).
Proof.
  intros file. split.
  - destruct (emits_input_appYml_text context w) as (evs & E & F).
    destruct (appYml_text_throws context w) as (e & w1 & Hthrow).
    rewrite generateAppYml_split. unfold bind. rewrite Hthrow in E |- *.
    by exists e, w1, evs.
  - intros bicep old s1 Hbicep Hload.
    unfold generateAppYml, bind, fs_readFile, loadProjectSettings. fold file.
    rewrite call_unfold. unfold readFile_body. rewrite Hbicep. simpl.
    unfold bind. rewrite call_unfold. simpl. rewrite Hload. simpl.
    destruct (generateAppYml_without_projectPath_throws old bicep
                {| store := s1;
                   trace := (trace w ++ [CallReadFile file])
                            ++ [CallLoadProjectSettings (projectPath context)] |})
      as [message ->].
    exists message. by rewrite <- app_assoc.
Qed.

(** X3.  The settings step writes only what it has loaded: a run of
    [generateSettingsJson] in which [fsWriteFile] is called is one in
    which the loader returned [ok] with some settings and [fsEnsureDir]
    completed, and the call writes the JSON text of the content built
    from these settings to the settings file.  When the loader returns
    [err] or throws, or [fsEnsureDir] throws, nothing is written. *)
Theorem generateSettingsJson_writes_only_loaded context w evs f c :
  trace (generateSettingsJson context w).2 = trace w ++ evs →
  CallFsWriteFile f c ∈ evs →
  ∃ settings s1 s2,
    loadProjectSettingsByProjectPathV2_body (projectPath context) true (store w)
      = (Normal (ok settings), s1) ∧
    fsEnsureDir_body context SettingsFolderName s1 = (Normal tt, s2) ∧
    f = Path.join [SettingsFolderName; SettingsFileName] ∧
    c = Json.stringify (settingsContent settings) 4.
Proof.
  unfold generateSettingsJson, loadProjectSettings, fsEnsureDir, fsWriteFile, bind.
  rewrite call_unfold; simpl.
  destruct (loadProjectSettingsByProjectPathV2_body (projectPath context) true (store w))
    as [[[settings|error]|e] s1]; simpl.
  - rewrite call_unfold; simpl.
    destruct (fsEnsureDir_body context SettingsFolderName s1) as [[[]|e] s2] eqn:Hdir; simpl.
    + rewrite call_unfold; simpl. rewrite <- !app_assoc; simpl.
      intros <-%app_inv_head Hin.
      apply elem_of_cons in Hin as [Hin|Hin]; [discriminate Hin|].
      apply elem_of_cons in Hin as [Hin|Hin%list_elem_of_singleton]; [discriminate Hin|].
      injection Hin as -> ->. exists settings, s1, s2. auto.
    + rewrite <- !app_assoc; simpl. intros <-%app_inv_head Hin.
      apply elem_of_cons in Hin as [Hin|Hin%list_elem_of_singleton]; discriminate Hin.
  - unfold throw; simpl. intros <-%app_inv_head Hin%list_elem_of_singleton.
    discriminate Hin.
  - intros <-%app_inv_head Hin%list_elem_of_singleton. discriminate Hin.
Qed.

(** X4.  [preMigration] does not look at what [backup] returns: when
    the call completes, with [true] or with [false] (nothing was there
    to back up), the migration goes on with the settings step and the
    [app.yml] step from the store the call left. *)
Theorem migrate_goes_on_whatever_backup_returns context w (backedUp : bool) s :
  backup_body context V2TeamsfxFolder (store w) = (Normal backedUp, s) →
  migrate context w =
    (generateSettingsJson context ;; generateAppYml context)
      {| store := s; trace := trace w ++ [CallBackup V2TeamsfxFolder] |}.
Proof.
  intros Hbackup. rewrite (proj2 (migrate_steps context w)).
  assert (preMigration context w =
            (Normal tt, {| store := s; trace := trace w ++ [CallBackup V2TeamsfxFolder] |}))
    as ->.
  { unfold preMigration, backup, bind. by rewrite call_unfold, Hbackup. }
  unfold bind.
  destruct (generateSettingsJson context _) as [[[]|e] w2]; [|reflexivity].
  destruct (generateAppYml context w2) as [[[]|e] w3]; reflexivity.
Qed.

Lemma wrapRunMigration_normal_inv context (exec : Migration) w w' :
  wrapRunMigration context exec w = (Normal tt, w') → exec context w = (Normal tt, w').
Proof.
  destruct (exec context w) as [[[]|e] w1] eqn:Hexec.
  - by rewrite (wrapRunMigration_normal _ _ _ _ Hexec).
  - rewrite (wrapRunMigration_abrupt _ _ _ _ _ Hexec).
    by destruct (rollbackMigration context w1) as [[[]|e'] w2].
Qed.

(** X5.  The coordinator swallows no failure and adds none: it returns
    exactly when the function it runs returns, and then in the world
    that function left, without a call of the rollback. *)
Theorem wrapRunMigration_returns_iff context (exec : Migration) w w' :
  wrapRunMigration context exec w = (Normal tt, w') ↔ exec context w = (Normal tt, w').
Proof. split; [apply wrapRunMigration_normal_inv|apply wrapRunMigration_normal]. Qed.

Lemma step_event_of_input ev : input_event ev → step_event ev.
Proof. by destruct ev. Qed.

Lemma emits_step_preMigration context : emits step_event (preMigration context).
Proof. unfold preMigration, backup. repeat emits_kind_step. Qed.

Lemma emits_step_generateSettingsJson context :
  emits step_event (generateSettingsJson context).
Proof.
  unfold generateSettingsJson, fsEnsureDir, fsWriteFile. repeat emits_kind_step.
  apply (emits_weaken input_event); [apply step_event_of_input|].
  apply emits_input_loadProjectSettings.
Qed.

Lemma emits_step_generateAppYml context : emits step_event (generateAppYml context).
Proof.
  intros w. rewrite generateAppYml_split. apply (emits_bind step_event).
  - apply (emits_weaken input_event); [apply step_event_of_input|].
    apply emits_input_appYml_text.
  - intros yml. unfold fsWriteFile. repeat emits_kind_step.
Qed.

Lemma emits_step_migrate context : emits step_event (migrate context).
Proof.
  unfold migrate, subMigrations; simpl. repeat emits_kind_step;
    auto using emits_step_preMigration, emits_step_generateSettingsJson,
               emits_step_generateAppYml.
Qed.

(** X6.  Every migration is rolled back: whatever the project and the
    context, a run of the coordinator on [migrate] makes calls of the
    three steps, then calls [cleanModifiedPaths], and ends with a
    throw.  It never returns, since the last of the three steps cannot
    complete. *)
Theorem migration_always_rolled_back context w :
  ∃ e w' steps rest,
    wrapRunMigration context migrate w = (Abrupt e, w') ∧
    trace w' = trace w ++ steps ++ CallCleanModifiedPaths :: rest ∧
    Forall step_event steps.
Proof.
  destruct (migrate_throws context w) as (e & w1 & Hfail).
  destruct (emits_step_migrate context w) as (steps & E & F).
  rewrite Hfail in E; simpl in E.
  destruct (wrapRunMigration_fails context migrate w e w1 Hfail)
    as (e' & w3 & rest & Hrun & E').
  exists e', w3, steps, rest. split; [done|]. split; [|done].
  by rewrite E', E, <- app_assoc.
Qed.

(** X7.  When the migration fails, the middleware fails with it: with
    the checks passed, an error of [MigrationContext.create] is thrown
    on as it is, with no rollback since there is no context, and an
    error of a step is thrown on after the rollback (or the error of
    the rollback is); in neither case is a hook result set or the
    wrapped operation run. *)
Theorem ProjectMigratorMWV3_failure ctx next w :
  checkMethod ctx = true → checkUserTasks ctx = true →
  (∀ e w1,
     MigrationContext_create ctx w = (Abrupt e, w1) →
     ProjectMigratorMWV3 ctx next w = (Abrupt e, w1)) ∧
  (∀ migrationContext w1 e w2,
     MigrationContext_create ctx w = (Normal migrationContext, w1) →
     migrate migrationContext w1 = (Abrupt e, w2) →
     ProjectMigratorMWV3 ctx next w =
       match rollbackMigration migrationContext w2 with
       | (Normal _, w3) => (Abrupt e, w3)
       | (Abrupt e', w3) => (Abrupt e', w3)
       end).
Proof.
  intros Hmethod Htasks. split.
  - intros e w1 Hcreate.
    rewrite ProjectMigratorMWV3_unfold, Hmethod, Htasks.
    by rewrite (bind_abrupt _ _ _ _ _ Hcreate).
  - intros migrationContext w1 e w2 Hcreate Hfail.
    rewrite ProjectMigratorMWV3_unfold, Hmethod, Htasks.
    rewrite (bind_normal _ _ _ _ _ Hcreate).
    unfold bind at 1. rewrite (wrapRunMigration_abrupt _ _ _ _ _ Hfail).
    destruct (rollbackMigration migrationContext w2) as [[[]|e'] w3]; reflexivity.
Qed.

End Steps.

(** The run of X2 on an Azure project in typescript whose bicep file
    is in place: a TypeError after two calls. *)
Lemma generateAppYml_never_writes_witness :
  let collab := Samples.azure Doubles.workingContext in
  ∃ message,
    generateAppYml (collab:=collab) Doubles.workingContext Samples.azureProject =
      (Abrupt (TypeError message),
       {| store := store Samples.azureProject;
          trace := [CallReadFile "/proj/templates/azure/provision.bicep";
                    CallLoadProjectSettings "/proj"] |}).
Proof.
  intros collab.
  apply (proj2 (generateAppYml_never_writes (collab:=collab) Doubles.workingContext
                  Samples.azureProject)
               "output x string = state.fx-resource-bot.resourceId"
               Samples.typescriptSettings (store Samples.azureProject));
    reflexivity.
Defined.

(** The run of X3 on an Azure project with identifier abc-123. *)
Lemma generateSettingsJson_writes_only_loaded_witness :
  let collab := Samples.azure Doubles.workingContext in
  ∃ settings s1 s2,
    loadProjectSettingsByProjectPathV2_body (Collaborators:=collab) "/proj" true
      (store Samples.azureProject) = (Normal (ok settings), s1) ∧
    Doubles.ensureDir_in_memory "/proj" "teamsfx" s1 = (Normal tt, s2) ∧
    "teamsfx/settings.json" = Path.join [SettingsFolderName; SettingsFileName] ∧
    Spec.settingsText (Some "abc-123") = Json.stringify (settingsContent settings) 4.
Proof.
  intros collab.
  apply (generateSettingsJson_writes_only_loaded (collab:=collab) Doubles.workingContext
           Samples.azureProject
           [CallLoadProjectSettings "/proj"; CallFsEnsureDir "teamsfx";
            CallFsWriteFile "teamsfx/settings.json" (Spec.settingsText (Some "abc-123"))]).
  - reflexivity.
  - apply (bool_decide_unpack _). vm_compute. exact I.
Defined.

(** The run of X4 on a project with nothing to back up: the settings
    file is generated all the same, and the [app.yml] step is
    reached. *)
Lemma migrate_goes_on_whatever_backup_returns_witness :
  let collab := Samples.azure Samples.nothingToBackUp in
  let run := migrate (collab:=collab) Samples.nothingToBackUp Samples.azureProject in
  run.1 = Abrupt (TypeError "The path argument must be of type string. Received undefined") ∧
  files (store run.2) !! "/proj/teamsfx/settings.json"
    = Some (Spec.settingsText (Some "abc-123")) ∧
  trace run.2 =
    [CallBackup ".fx";
     CallLoadProjectSettings "/proj"; CallFsEnsureDir "teamsfx";
     CallFsWriteFile "teamsfx/settings.json" (Spec.settingsText (Some "abc-123"));
     CallReadFile "/proj/templates/azure/provision.bicep";
     CallLoadProjectSettings "/proj"].
Proof.
  intros collab run. unfold run.
  rewrite (migrate_goes_on_whatever_backup_returns (collab:=collab) Samples.nothingToBackUp
             Samples.azureProject false (store Samples.azureProject) eq_refl).
  repeat split; reflexivity.
Defined.

(** The run of X7 on a context whose backup fails: the middleware
    throws the error of the backup. *)
Lemma ProjectMigratorMWV3_failure_witness :
  let collab := Samples.azure Doubles.noBackupContext in
  (ProjectMigratorMWV3 (collab:=collab) Doubles.hookContext Doubles.operation
     Samples.azureProject).1
  = Abrupt Doubles.backupError.
Proof.
  intros collab.
  rewrite (proj2 (ProjectMigratorMWV3_failure (collab:=collab) Doubles.hookContext
                    Doubles.operation Samples.azureProject eq_refl eq_refl)
             Doubles.noBackupContext
             {| store := store Samples.azureProject; trace := [CallCreate] |}
             Doubles.backupError
             {| store := store Samples.azureProject;
                trace := [CallCreate; CallBackup ".fx"] |}
             eq_refl eq_refl).
  reflexivity.
Defined.

(** * Further properties of the generator *)

Section Generator_more.
Context {Mem : Type} {collab : Collaborators Mem}.
Implicit Types (g : AppYmlGenerator.t) (w : World Mem).

Import AppYmlGenerator.

Lemma foldl_set_activePlugin (l : list string) (m : gmap string bool) p :
  foldl set_activePlugin m l !! p =
    if decide (p ∈ l ∧ p ≠ "__proto__") then Some true else m !! p.
Proof.
  revert m. induction l as [|x l IH]; intros m.
  - rewrite decide_False; [done|]. intros [Hin _]. by apply not_elem_of_nil in Hin.
  - cbn [foldl]. rewrite IH. unfold set_activePlugin.
    destruct (decide (p ∈ l ∧ p ≠ "__proto__")) as [[Hin Hp]|Hnin].
    + rewrite decide_True; [done|]. split; [|done]. apply elem_of_cons. by right.
    + destruct (decide (x = "__proto__")) as [->|Hx].
      * rewrite decide_False; [done|].
        intros [[->|Hin]%elem_of_cons Hp]; [done|]. by apply Hnin.
      * rewrite lookup_insert. destruct (decide (x = p)) as [->|Hne].
        -- rewrite decide_True; [done|]. split; [|done]. apply elem_of_cons. by left.
        -- rewrite decide_False; [done|].
           intros [[->|Hin]%elem_of_cons Hp]; [done|]. by apply Hnin.
Qed.

(** What a completed [generateCommonHandlerbarsContext] has built. *)
Lemma generateCommonHandlerbarsContext_inv g w g1 w1 :
  generateCommonHandlerbarsContext g w = (Normal g1, w1) →
  ∃ ss aad teams,
    solutionSettings (oldProjectSettings g) = Some ss ∧
    g1 = with_context g (common_context g (activeResourcePlugins ss) aad teams).
Proof.
  unfold generateCommonHandlerbarsContext.
  destruct (solutionSettings (oldProjectSettings g)) as [ss|]; [|done].
  unfold bind.
  destruct (manifest_name _ _ _ w) as [[aad|e] wa]; [|done].
  destruct (manifest_name _ _ _ wa) as [[teams|e] wt]; [|done].
  unfold ret. intros [= <- <-]. by exists ss, aad, teams.
Qed.

(** X8.  What the common context tells the template about the old
    project: a name is switched on among the active plugins exactly
    when it is among the active resource plugins and is not __proto__,
    for which the assignment adds no property (none is ever switched
    off); the app name, the project id and the default function name
    are those of the old settings, and [isTypescript] holds exactly
    when the language is typescript in whatever case. *)
Theorem common_context_of_old_settings old bicep path w g1 w1 ss :
  solutionSettings old = Some ss →
  generateCommonHandlerbarsContext (new old bicep path) w = (Normal g1, w1) →
  let h := handlebarsContext g1 in
  (∀ p, activePlugins h !! p =
        if decide (p ∈ activeResourcePlugins ss ∧ p ≠ "__proto__") then Some true else None) ∧
  hc_appName h = Some (appName old) ∧
  hc_projectId h = projectId old ∧
  hc_defaultFunctionName h = defaultFunctionName old ∧
  environmentFolder h = Some defaultEnvironmentFolder ∧
  (isTypescript h = true ↔
   ∃ language, programmingLanguage old = Some language ∧
               Str.toLowerCase language = "typescript").
Proof.
  intros Hss (ss' & aad & teams & Hss' & ->)%generateCommonHandlerbarsContext_inv.
  simpl in Hss'. rewrite Hss in Hss'. injection Hss' as <-. simpl.
  split; [|repeat split].
  - intros p. rewrite foldl_set_activePlugin. by rewrite lookup_empty.
  - intros Hts%bool_decide_eq_true.
    destruct (programmingLanguage old) as [language|]; [|done].
    injection Hts as Hts. by exists language.
  - intros (language & -> & Hts). apply bool_decide_eq_true. simpl. by rewrite Hts.
Qed.

Lemma manifest_name_absent file current pick w :
  Spec.absent file w →
  manifest_name file current pick w =
    (Normal current, {| store := store w; trace := trace w ++ [CallPathExists file] |}).
Proof.
  intros [Hfile Hdir]. unfold manifest_name, bind, fs_pathExists.
  rewrite call_unfold. unfold pathExists_body; simpl.
  rewrite Hfile. rewrite (bool_decide_eq_false_2 (file ∈ dirs (store w))) by done.
  rewrite bool_decide_eq_false_2; [done|]. by intros [? ?].
Qed.

Lemma manifest_name_present file current pick w content manifest :
  files (store w) !! file = Some content →
  JSON_parse content = Some manifest →
  manifest_name file current pick w =
    (pick manifest,
     {| store := store w; trace := trace w ++ [CallPathExists file; CallReadFile file] |}).
Proof.
  intros Hfile Hparse. unfold manifest_name, bind, fs_pathExists, fs_readJson, fs_readFile.
  rewrite call_unfold. unfold pathExists_body; simpl. rewrite Hfile.
  rewrite bool_decide_eq_true_2 by by eexists. simpl.
  unfold bind. rewrite call_unfold. unfold readFile_body; simpl. rewrite Hfile; simpl.
  rewrite Hparse. unfold ret, lift. by rewrite <- app_assoc.
Qed.

(** X9.  A Teams manifest without a name stops the generation: when the
    project has no AAD manifest and its Teams manifest parses to a value
    whose [name] member is missing, reading [name.short] throws a
    TypeError out of [generateAppYml], before any template is chosen
    and whatever the host type and the language are. *)
Theorem teams_manifest_without_name_throws g w ss content manifest :
  solutionSettings (oldProjectSettings g) = Some ss →
  Spec.absent (Path.join [projectPath g; aadManifestFileName]) w →
  files (store w) !! Path.join [projectPath g; AppPackageFolderName; teamsManifestFileName]
    = Some content →
  JSON_parse content = Some manifest →
  Json.get manifest "name" = Normal JsUndefined →
  ∃ message w1,
    generateAppYml g w = (Abrupt (TypeError message), w1) ∧
    trace w1 = trace w ++
      [CallPathExists (Path.join [projectPath g; aadManifestFileName]);
       CallPathExists (Path.join [projectPath g; AppPackageFolderName; teamsManifestFileName]);
       CallReadFile (Path.join [projectPath g; AppPackageFolderName; teamsManifestFileName])].
Proof.
  intros Hss Haad Hteams Hparse Hname.
  unfold generateAppYml, generateCommonHandlerbarsContext. rewrite Hss.
  unfold bind at 1 2. rewrite (manifest_name_absent _ _ _ w Haad).
  unfold bind at 1.
  erewrite manifest_name_present; [|exact Hteams|exact Hparse].
  rewrite Hname. simpl. eexists _, _. split; [reflexivity|].
  simpl. by rewrite <- app_assoc.
Qed.

Lemma setPlaceholderMapping_projectPath g placeholder :
  projectPath (setPlaceholderMapping g placeholder) = projectPath g.
Proof.
  unfold setPlaceholderMapping.
  by destruct (namingConverterV3 placeholder STATE (bicepContent g)).
Qed.

Lemma foldl_setPlaceholderMapping_projectPath (l : list string) g :
  projectPath (foldl setPlaceholderMapping g l) = projectPath g.
Proof.
  revert g. induction l as [|x l IH]; intros g; simpl; [done|].
  by rewrite IH, setPlaceholderMapping_projectPath.
Qed.

(** Setting placeholders changes the mappings and nothing else. *)
Lemma foldl_setPlaceholderMapping_shape (l : list string) g :
  foldl setPlaceholderMapping g l =
    with_context g
      (with_mappings (handlebarsContext g)
         (placeholderMappings (handlebarsContext (foldl setPlaceholderMapping g l)))).
Proof.
  revert g. induction l as [|x l IH]; intros g; simpl.
  - by destruct g as [old bicep path []].
  - rewrite IH at 1. unfold setPlaceholderMapping at 1 2.
    destruct (namingConverterV3 x STATE (bicepContent g)); [|done].
    by destruct g as [old bicep path []].
Qed.

(** The bot flags of [generateAzureHandlebarsContext]. *)
Lemma generateAzureHandlebarsContext_shape g :
  let projectSettings := convertProjectSettingsV2ToV3 (oldProjectSettings g) (projectPath g) in
  generateAzureHandlebarsContext g =
    with_context g
      (with_mappings
         (set_bot_flags (handlebarsContext g)
            (hasFunctionBot projectSettings) (hasWebAppBot projectSettings)
            (hasWebAppBot projectSettings
               && Str.includes (bicepContent g) "botWebAppResourceId"))
         (placeholderMappings (handlebarsContext (generateAzureHandlebarsContext g)))).
Proof.
  intros projectSettings. unfold generateAzureHandlebarsContext at 1.
  rewrite foldl_setPlaceholderMapping_shape.
  fold (generateAzureHandlebarsContext g).
  destruct g as [old bicep path []]; reflexivity.
Qed.

Lemma generateAzureHandlebarsContext_frame g :
  oldProjectSettings (generateAzureHandlebarsContext g) = oldProjectSettings g ∧
  projectPath (generateAzureHandlebarsContext g) = projectPath g ∧
  bicepContent (generateAzureHandlebarsContext g) = bicepContent g.
Proof.
  split; [apply generateAzureHandlebarsContext_settings|].
  unfold generateAzureHandlebarsContext.
  rewrite (proj1 (foldl_setPlaceholderMapping azurePlaceholders _)).
  split; [by rewrite foldl_setPlaceholderMapping_projectPath|reflexivity].
Qed.

(** X10.  Assembling the Azure part of the context twice is the same as
    assembling it once: the bot flags and the mappings it sets depend on
    the old settings, the project path and the bicep text only, which it
    does not change. *)
Theorem generateAzureHandlebarsContext_idempotent g :
  generateAzureHandlebarsContext (generateAzureHandlebarsContext g)
    = generateAzureHandlebarsContext g.
Proof.
  destruct (generateAzureHandlebarsContext_frame g) as (Hold & Hpath & Hbicep).
  assert (placeholderMappings
            (handlebarsContext (generateAzureHandlebarsContext (generateAzureHandlebarsContext g)))
          = placeholderMappings (handlebarsContext (generateAzureHandlebarsContext g))) as Hmap.
  { apply map_eq. intros p.
    rewrite generateAzureHandlebarsContext_mappings, Hbicep.
    rewrite generateAzureHandlebarsContext_mappings.
    destruct (decide (p ∈ azurePlaceholders)); [|done].
    by destruct (namingConverterV3 p STATE (bicepContent g)). }
  rewrite (generateAzureHandlebarsContext_shape (generateAzureHandlebarsContext g)).
  cbv zeta. rewrite Hmap, Hold, Hpath, Hbicep.
  pose proof (generateAzureHandlebarsContext_shape g) as HG. cbv zeta in HG.
  revert HG.
  generalize (placeholderMappings (handlebarsContext (generateAzureHandlebarsContext g))).
  intros M HG. rewrite HG.
  destruct g as [old bicep path []]; reflexivity.
Qed.

Lemma with_context_settings g h :
  oldProjectSettings (with_context g h) = oldProjectSettings g ∧
  bicepContent (with_context g h) = bicepContent g.
Proof. done. Qed.

(** X11.  [generateAppLocalYml] takes the host type literally where
    [generateAppYml] does not: for a host type other than the very
    string Azure it throws the unsupported-project error without
    reading anything, also for a host type that is Azure in another
    case, for which [generateAppYml], with the same csharp project,
    goes on to render its template. *)
Theorem generateAppLocalYml_host_type_literal g mappings w ss :
  solutionSettings (oldProjectSettings g) = Some ss →
  hostType ss ≠ "Azure" →
  generateAppLocalYml g mappings w = (Abrupt (JsError unsupportedMessage), w) ∧
  (Str.toLowerCase (hostType ss) = "azure" →
   Str.toLowerCase <$> programmingLanguage (oldProjectSettings g) = Some "csharp" →
   ∀ g1 w1,
     generateCommonHandlerbarsContext g w = (Normal g1, w1) →
     generateAppYml g w =
       buildHandlebarsTemplate (generateAzureHandlebarsContext g1) "csharp.app.yml" w1).
Proof.
  intros Hss Hhost. split.
  - unfold generateAppLocalYml.
    rewrite generateAzureHandlebarsContext_settings.
    rewrite (proj1 (with_context_settings g _)), Hss.
    by rewrite decide_False by done.
  - intros Hazure Hlang g1 w1 Hcommon.
    rewrite (generateAppYml_dispatch g w ss Hss), Hcommon.
    rewrite (templateFor_azure _ _ Hazure). unfold azureTemplate. rewrite Hlang.
    simpl. by rewrite decide_True by done.
Qed.

(** X12.  The context [generateAppLocalYml] renders starts from the
    debug mappings it is given: for an Azure project in csharp it goes
    on to render csharp.app.local.yml with a context in which each of
    the nine Azure placeholders that resolves has its resolved value,
    and every other key, the unresolved ones among the nine included,
    has what the debug mappings had for it. *)
Theorem generateAppLocalYml_mappings g mappings w ss :
  solutionSettings (oldProjectSettings g) = Some ss →
  hostType ss = "Azure" →
  Str.toLowerCase <$> programmingLanguage (oldProjectSettings g) = Some "csharp" →
  ∃ g1,
    generateAppLocalYml g mappings w = buildHandlebarsTemplate g1 "csharp.app.local.yml" w ∧
    ∀ p, placeholderMappings (handlebarsContext g1) !! p =
         if decide (p ∈ azurePlaceholders) then
           match namingConverterV3 p STATE (bicepContent g) with
           | ok value => Some value
           | err _ => mappings !! p
           end
         else mappings !! p.
Proof.
  intros Hss Hhost Hlang.
  exists (generateAzureHandlebarsContext
            (with_context g (with_mappings (handlebarsContext g) mappings))).
  split.
  - unfold generateAppLocalYml.
    rewrite generateAzureHandlebarsContext_settings.
    rewrite (proj1 (with_context_settings g _)), Hss.
    rewrite decide_True by done.
    unfold localTemplate. by rewrite Hlang.
  - intros p. by rewrite generateAzureHandlebarsContext_mappings.
Qed.

End Generator_more.

(** The run of X8 on an Azure project in TypeScript whose active
    resource plugins are the bot plugin and the name __proto__. *)
Lemma common_context_of_old_settings_witness :
  let plugins := ["fx-resource-bot"; "__proto__"] in
  let old :=
    {| appName := "my app";
       projectId := Some "abc-123";
       programmingLanguage := Some "TypeScript";
       defaultFunctionName := None;
       solutionSettings := Some {| hostType := "Azure"; activeResourcePlugins := plugins |} |} in
  let collab := Samples.azure Doubles.workingContext in
  let g := AppYmlGenerator.new old "" "/proj" in
  let run := AppYmlGenerator.generateCommonHandlerbarsContext (collab:=collab) g
               Samples.azureProject in
  let g1 :=
    AppYmlGenerator.with_context g
      (AppYmlGenerator.common_context (collab:=collab) g plugins JsUndefined JsUndefined) in
  let h := AppYmlGenerator.handlebarsContext g1 in
  activePlugins h !! "fx-resource-bot" = Some true ∧
  activePlugins h !! "__proto__" = None ∧
  activePlugins h !! "fx-resource-aad-app-for-teams" = None ∧
  hc_projectId h = Some "abc-123" ∧
  isTypescript h = true.
Proof.
  intros plugins old collab g run g1 h.
  destruct (common_context_of_old_settings (collab:=collab) old ""
              "/proj" Samples.azureProject g1 run.2
              {| hostType := "Azure"; activeResourcePlugins := plugins |}
              eq_refl eq_refl) as (Hplugins & _ & Hid & _ & _ & Hts).
  split; [|split; [|split; [|split]]].
  - refine (eq_trans (Hplugins "fx-resource-bot") _). reflexivity.
  - refine (eq_trans (Hplugins "__proto__") _). reflexivity.
  - refine (eq_trans (Hplugins "fx-resource-aad-app-for-teams") _). reflexivity.
  - exact Hid.
  - apply Hts. by exists "TypeScript".
Defined.

(** The run of X9 on a project whose Teams manifest is the empty
    object. *)
Lemma teams_manifest_without_name_throws_witness :
  let collab := Samples.parsing (Samples.azure Doubles.workingContext)
                  (λ _, Some (JsObject [])) in
  let g := AppYmlGenerator.new Samples.typescriptSettings "" "/proj" in
  ∃ message w1,
    AppYmlGenerator.generateAppYml (collab:=collab) g Samples.bareManifestProject
      = (Abrupt (TypeError message), w1) ∧
    trace w1 =
      [CallPathExists "/proj/aad.manifest.json";
       CallPathExists "/proj/appPackage/manifest.json";
       CallReadFile "/proj/appPackage/manifest.json"].
Proof.
  intros collab g.
  apply (teams_manifest_without_name_throws (collab:=collab) g Samples.bareManifestProject
           {| hostType := "Azure";
              activeResourcePlugins := ["fx-resource-frontend-hosting"; "fx-resource-bot"] |}
           "{}" (JsObject [])).
  - reflexivity.
  - split; [reflexivity|]. apply (bool_decide_unpack _). vm_compute. exact I.
  - reflexivity.
  - reflexivity.
  - reflexivity.
Defined.

(** The run of X11 on a csharp project whose host type is spelled
    azure. *)
Lemma generateAppLocalYml_host_type_literal_witness :
  let old := Samples.csharpSettings "azure" in
  let collab := Doubles.collaborators Doubles.workingContext (ok old) true true in
  let g := AppYmlGenerator.new old "" "/proj" in
  (generateAppLocalYml (collab:=collab) g ∅ Samples.csharpProject).1
    = Abrupt (JsError AppYmlGenerator.unsupportedMessage) ∧
  (AppYmlGenerator.generateAppYml (collab:=collab) g Samples.csharpProject).1
    = Normal "version: 1.0.0".
Proof.
  intros old collab g.
  pose (g1 := AppYmlGenerator.with_context g
                (AppYmlGenerator.common_context (collab:=collab) g ["fx-resource-bot"]
                   JsUndefined JsUndefined)).
  pose (w1 := (AppYmlGenerator.generateCommonHandlerbarsContext (collab:=collab) g
                 Samples.csharpProject).2).
  destruct (generateAppLocalYml_host_type_literal (collab:=collab) g ∅ Samples.csharpProject
              {| hostType := "azure"; activeResourcePlugins := ["fx-resource-bot"] |}
              eq_refl) as [Hlocal Hyml].
  - discriminate.
  - split.
    + by rewrite Hlocal.
    + rewrite (Hyml eq_refl eq_refl g1 w1 eq_refl). reflexivity.
Defined.

(** The run of X12 on a csharp project with one debug mapping and a
    bicep text that resolves one placeholder. *)
Lemma generateAppLocalYml_mappings_witness :
  let old := Samples.csharpSettings "Azure" in
  let collab := Doubles.collaborators Doubles.workingContext (ok old) true true in
  let g := AppYmlGenerator.new old "output x string = state.fx-resource-bot.resourceId"
             "/proj" in
  let debug : gmap string string := {["botEndpoint" := "https://localhost:3978"]} in
  ∃ g1,
    generateAppLocalYml (collab:=collab) g debug Samples.csharpProject
      = AppYmlGenerator.buildHandlebarsTemplate g1 "csharp.app.local.yml" Samples.csharpProject ∧
    placeholderMappings (AppYmlGenerator.handlebarsContext g1) !! "botEndpoint"
      = Some "https://localhost:3978" ∧
    placeholderMappings (AppYmlGenerator.handlebarsContext g1)
      !! "state.fx-resource-bot.resourceId"
      = Some (Doubles.resolved "state.fx-resource-bot.resourceId") ∧
    placeholderMappings (AppYmlGenerator.handlebarsContext g1)
      !! "state.fx-resource-function.functionEndpoint" = None.
Proof.
  intros old collab g debug.
  destruct (generateAppLocalYml_mappings (collab:=collab) g debug Samples.csharpProject
              {| hostType := "Azure"; activeResourcePlugins := ["fx-resource-bot"] |}
              eq_refl eq_refl eq_refl) as (g1 & Hrun & Hmap).
  exists g1. split; [exact Hrun|]. split; [|split].
  - refine (eq_trans (Hmap "botEndpoint") _). reflexivity.
  - refine (eq_trans (Hmap "state.fx-resource-bot.resourceId") _). reflexivity.
  - refine (eq_trans (Hmap "state.fx-resource-function.functionEndpoint") _). reflexivity.
Defined.

(** The run of X5 on an Azure project: [migrate] throws in its last
    step, so the coordinator does not return either. *)
Lemma wrapRunMigration_returns_iff_witness :
  let collab := Samples.azure Doubles.workingContext in
  (wrapRunMigration Doubles.workingContext (migrate (collab:=collab)) Samples.azureProject).1
    ≠ Normal tt.
Proof.
  intros collab Hrun.
  pose proof (proj1 (wrapRunMigration_returns_iff Doubles.workingContext
                       (migrate (collab:=collab)) Samples.azureProject
                       (wrapRunMigration Doubles.workingContext (migrate (collab:=collab))
                          Samples.azureProject).2)) as Hexec.
  assert ((migrate (collab:=collab) Doubles.workingContext Samples.azureProject).1
            ≠ Normal tt) as Hmigrate by discriminate.
  apply Hmigrate. rewrite Hexec; [reflexivity|].
  rewrite <- Hrun. by destruct (wrapRunMigration _ _ _).
Defined.

(** * Copying an environment file: [createEnvCopyV3] *)

Module EnvCopyFacts.
Import EnvCopy.

Lemma word_run_spec (s k : string) :
  word_run s = Some k ↔
  ∃ ws rest, all_word ws = true ∧ s = ws +:+ "=" +:+ rest ∧ k = ws +:+ "=".
Proof.
  split.
  - revert k. induction s as [|c r IH]; intros k; simpl; [done|].
    destruct (is_word c) eqn:Hc.
    + destruct (word_run r) as [k'|] eqn:Hr; [|done]. simpl. intros [= <-].
      destruct (IH k' eq_refl) as (ws & rest & Hws & -> & ->).
      exists (String c ws), rest. simpl. by rewrite Hc, Hws.
    + destruct (decide (c = "="%char)) as [->|]; [|done]. intros [= <-].
      by exists "", r.
  - intros (ws & rest & Hws & -> & ->). induction ws as [|c ws IH]; simpl; [done|].
    simpl in Hws. apply andb_true_iff in Hws as [Hc Hws].
    rewrite Hc. by rewrite (IH Hws).
Qed.

(** The lines the expression matches are those that begin with an
    identifier and an equals sign, and the group is that beginning. *)
Lemma key_match_spec (line k : string) :
  key_match line = Some k ↔
  ∃ key rest, identifier key = true ∧ line = key +:+ "=" +:+ rest ∧ k = key +:+ "=".
Proof.
  split.
  - destruct line as [|c r]; simpl; [done|].
    destruct (is_start c) eqn:Hc; [|done].
    destruct (word_run r) as [k'|] eqn:Hr; [|done]. simpl. intros [= <-].
    apply word_run_spec in Hr as (ws & rest & Hws & -> & ->).
    exists (String c ws), rest. simpl. by rewrite Hc, Hws.
  - intros (key & rest & Hkey & -> & ->). destruct key as [|c ws]; [done|].
    simpl in Hkey. apply andb_true_iff in Hkey as [Hc Hws]. simpl. rewrite Hc.
    assert (word_run (ws +:+ "=" +:+ rest) = Some (ws +:+ "=")) as ->; [|done].
    apply word_run_spec. by exists ws, rest.
Qed.

(** Among identifiers followed by an equals sign, only TEAMSFX_ENV
    itself starts with "TEAMSFX_ENV=". *)
Lemma startsWith_key (p ws : string) :
  all_word p = true → all_word ws = true →
  Str.startsWith (p +:+ "=") (ws +:+ "=") = true → ws = p.
Proof.
  revert ws. induction p as [|a p IH]; intros ws Hp Hws; simpl.
  - destruct ws as [|b ws]; [done|]. simpl in Hws.
    apply andb_true_iff in Hws as [Hb _]. simpl.
    destruct (decide ("="%char = b)) as [<-|]; [discriminate Hb|done].
  - simpl in Hp. apply andb_true_iff in Hp as [Ha Hp].
    destruct ws as [|b ws]; simpl.
    + destruct (decide (a = "="%char)) as [->|]; [discriminate Ha|done].
    + simpl in Hws. apply andb_true_iff in Hws as [Hb Hws].
      destruct (decide (a = b)) as [->|]; [|done].
      intros H. by rewrite (IH ws Hp Hws H).
Qed.

Lemma string_append_assoc (a b c : string) : (a +:+ b) +:+ c = a +:+ (b +:+ c).
Proof.
  induction a as [|x a IH]; [done|].
  change (String x ((a +:+ b) +:+ c) = String x (a +:+ (b +:+ c))). by rewrite IH.
Qed.

Lemma split_lines_nonempty (s : string) : split_lines s ≠ [].
Proof.
  destruct s as [|c r]; [done|].
  simpl. destruct (decide (c = Str.newline)); [done|].
  destruct (split_lines r) eqn:E;
  destruct (decide (c = CR)); try done; destruct r as [|c' r']; try done;
  destruct (decide (c' = Str.newline)); done.
Qed.

Lemma split_lines_length (s : string) :
  List.length (split_lines s) = S (count_lf s).
Proof.
  assert (∀ n s, (String.length s < n)%nat →
                 List.length (split_lines s) = S (count_lf s)) as H.
  { clear s. induction n as [|n IH]; intros s Hn; [lia|].
    destruct s as [|c r]; [done|].
    assert (List.length (match split_lines r with
                         | line :: lines => String c line :: lines
                         | [] => [Str.of_char c]
                         end) = S (count_lf r)) as Hkeep.
    { rewrite <- (IH r) by (simpl in Hn; lia).
      pose proof (split_lines_nonempty r). by destruct (split_lines r). }
    cbn [split_lines count_lf]. destruct (decide (c = Str.newline)) as [->|Hc].
    - cbn [List.length]. rewrite (IH r) by (simpl in Hn; lia). done.
    - destruct (decide (c = CR)) as [->|]; [|exact Hkeep].
      destruct r as [|c' r']; [exact Hkeep|].
      destruct (decide (c' = Str.newline)) as [->|Hc']; [|exact Hkeep].
      cbn [List.length count_lf]. rewrite decide_True by done.
      rewrite (IH r') by (simpl in Hn; lia). done. }
  apply (H (S (String.length s))). lia.
Qed.

Section Copy_facts.
Context (trim : string → string) (EOL : string).


(** X13.  The copy carries no value over: a line made of an identifier,
    an equals sign and a value is written as the identifier and the
    equals sign alone, and for the identifier TEAMSFX_ENV, and no
    other, with the name of the target environment as its value. *)
Theorem copy_line_drops_value (targetEnvName key value : string) :
  identifier key = true →
  copy_line trim EOL targetEnvName (key +:+ "=" +:+ value) =
    if decide (key = "TEAMSFX_ENV") then "TEAMSFX_ENV=" +:+ targetEnvName +:+ EOL
    else (key +:+ "=") +:+ EOL.
Proof.
  intros Hkey. unfold copy_line.
  assert (key_match (key +:+ "=" +:+ value) = Some (key +:+ "=")) as ->.
  { apply key_match_spec. by exists key, value. }
  destruct (decide (key = "TEAMSFX_ENV")) as [->|Hne]; [done|].
  destruct (Str.startsWith "TEAMSFX_ENV=" (key +:+ "=")) eqn:Hstart.
  - exfalso. apply Hne.
    destruct key as [|c ws]; [done|]. simpl in Hkey.
    apply andb_true_iff in Hkey as [Hc Hws].
    apply (startsWith_key "TEAMSFX_ENV" (String c ws)); [done| |exact Hstart].
    simpl. rewrite Hws, andb_true_r. unfold is_word. unfold is_start in Hc.
    apply orb_true_iff in Hc as [Hc|Hc]; [|by rewrite Hc, orb_true_r].
    apply orb_true_iff in Hc as [Hc|Hc]; by rewrite Hc, ?orb_true_r.
  - reflexivity.
Qed.

(** X14.  Every other line is copied with all it holds: a line that
    does not begin with an identifier and an equals sign — a comment,
    an empty line, but also an assignment that is indented or whose
    name has a dot or a dash — is written whole, trimmed, its value
    included. *)
Theorem copy_line_keeps_other_lines (targetEnvName line : string) :
  (∀ key rest, identifier key = true → line ≠ key +:+ "=" +:+ rest) →
  copy_line trim EOL targetEnvName line = trim line +:+ EOL.
Proof.
  intros Hother. unfold copy_line.
  destruct (key_match line) as [k|] eqn:Hmatch; [|done].
  apply key_match_spec in Hmatch as (key & rest & Hkey & -> & _).
  by destruct (Hother key rest Hkey).
Qed.

Context {Mem : Type}.
Context (getEnvFilePath_body : string → string → Effect Mem (Result (option string) FxError))
        (InvalidEnvFolderPath : string → FxError)
        (writeStream_body : string → list string → Effect Mem unit).

(** X15.  A source file that is not there makes [createEnvCopyV3] throw
    rather than return an error result: with both paths found, the
    read of the source throws ENOENT to the caller, and no stream is
    opened on the target. *)
Theorem createEnvCopyV3_missing_source_throws
    (targetEnvName sourceEnvName projectPath sourceFile targetFile : string) s s1 s2 :
  getEnvFilePath_body projectPath sourceEnvName s = (Normal (ok (Some sourceFile)), s1) →
  getEnvFilePath_body projectPath targetEnvName s1 = (Normal (ok (Some targetFile)), s2) →
  sourceFile ≠ "" → targetFile ≠ "" →
  files s2 !! sourceFile = None → sourceFile ∉ dirs s2 →
  createEnvCopyV3 trim EOL getEnvFilePath_body InvalidEnvFolderPath writeStream_body
    targetEnvName sourceEnvName projectPath s
  = (Abrupt (SystemError "ENOENT" sourceFile), s2).
Proof.
  intros Hsource Htarget Hs Ht Hfile Hdir. unfold createEnvCopyV3.
  rewrite Hsource, Htarget. unfold truthy.
  rewrite !decide_False by done. unfold readFile_body. rewrite Hfile.
  by rewrite decide_False by done.
Qed.

(** X16.  A path that is the empty string counts as no path: when
    [getEnvFilePath] answers [ok] for both environments but one of the
    two paths is [undefined] or empty, the result is the
    [InvalidEnvFolderPath] error, and nothing is read or written. *)
Theorem createEnvCopyV3_empty_path
    (targetEnvName sourceEnvName projectPath : string)
    (sourceFile targetFile : option string) s s1 s2 :
  getEnvFilePath_body projectPath sourceEnvName s = (Normal (ok sourceFile), s1) →
  getEnvFilePath_body projectPath targetEnvName s1 = (Normal (ok targetFile), s2) →
  sourceFile ∈ [None; Some ""] ∨ targetFile ∈ [None; Some ""] →
  createEnvCopyV3 trim EOL getEnvFilePath_body InvalidEnvFolderPath writeStream_body
    targetEnvName sourceEnvName projectPath s
  = (Normal (err (InvalidEnvFolderPath
       "missing 'environmentFolderPath' field or environment folder not exist")), s2).
Proof.
  intros Hsource Htarget Hempty. unfold createEnvCopyV3.
  rewrite Hsource, Htarget.
  destruct Hempty as [H|H];
    apply elem_of_cons in H as [->|H%list_elem_of_singleton]; subst; simpl;
    try done; by destruct (truthy sourceFile).
Qed.

(** X23.  The copy has one line more than the source has line feeds,
    and every line of it ends with the end-of-line of the platform: a
    chunk is written for each piece the line feeds cut the source
    into, also for the empty piece after a final line feed, so a source
    that ends with a line feed gives a copy that ends with an empty
    line. *)
Theorem copy_chunks_count (targetEnvName source : string) :
  List.length (copy_chunks trim EOL targetEnvName source) = S (count_lf source) ∧
  ∀ chunk, chunk ∈ copy_chunks trim EOL targetEnvName source →
           ∃ body, chunk = body +:+ EOL.
Proof.
  split.
  - unfold copy_chunks. rewrite length_fmap. apply split_lines_length.
  - intros chunk [line [-> _]]%list_elem_of_fmap. unfold copy_line.
    destruct (key_match line) as [key|]; [|by eexists].
    destruct (Str.startsWith "TEAMSFX_ENV=" key); [|by eexists].
    exists ("TEAMSFX_ENV=" +:+ targetEnvName). by rewrite string_append_assoc.
Qed.

End Copy_facts.
End EnvCopyFacts.

(** The run of X13 on a secret. *)
Lemma copy_line_drops_value_witness :
  EnvCopy.copy_line EnvCopy.ascii_trim EnvSamples.LF "staging" "SECRET_KEY=hunter2"
    = "SECRET_KEY=" +:+ EnvSamples.LF ∧
  EnvCopy.copy_line EnvCopy.ascii_trim EnvSamples.LF "staging" "TEAMSFX_ENV=dev"
    = "TEAMSFX_ENV=staging" +:+ EnvSamples.LF.
Proof.
  split.
  - apply (EnvCopyFacts.copy_line_drops_value EnvCopy.ascii_trim EnvSamples.LF "staging"
             "SECRET_KEY" "hunter2").
    reflexivity.
  - apply (EnvCopyFacts.copy_line_drops_value EnvCopy.ascii_trim EnvSamples.LF "staging"
             "TEAMSFX_ENV" "dev").
    reflexivity.
Defined.

(** The run of X14 on an indented assignment: the secret is copied. *)
Lemma copy_line_keeps_other_lines_witness :
  EnvCopy.copy_line EnvCopy.ascii_trim EnvSamples.LF "staging" "  SECRET_KEY=hunter2"
    = "SECRET_KEY=hunter2" +:+ EnvSamples.LF.
Proof.
  apply (EnvCopyFacts.copy_line_keeps_other_lines EnvCopy.ascii_trim EnvSamples.LF "staging"
           "  SECRET_KEY=hunter2").
  intros [|c key] rest Hkey Heq; [discriminate Hkey|].
  injection Heq as <- _. discriminate Hkey.
Defined.

(** The run of X15 on a project without environment files. *)
Lemma createEnvCopyV3_missing_source_throws_witness :
  EnvCopy.createEnvCopyV3 EnvCopy.ascii_trim EnvSamples.LF EnvSamples.envFile
    EnvSamples.invalidEnvFolderPath EnvSamples.writeStream "staging" "dev" "/proj"
    EnvSamples.emptyStore
  = (Abrupt (SystemError "ENOENT" "/proj/env/.env.dev"), EnvSamples.emptyStore).
Proof.
  apply (EnvCopyFacts.createEnvCopyV3_missing_source_throws EnvCopy.ascii_trim EnvSamples.LF
           EnvSamples.envFile EnvSamples.invalidEnvFolderPath EnvSamples.writeStream
           "staging" "dev" "/proj" "/proj/env/.env.dev" "/proj/env/.env.staging"
           EnvSamples.emptyStore EnvSamples.emptyStore EnvSamples.emptyStore).
  - reflexivity.
  - reflexivity.
  - discriminate.
  - discriminate.
  - reflexivity.
  - apply (bool_decide_unpack _). vm_compute. exact I.
Defined.

(** The run of X16 on empty paths. *)
Lemma createEnvCopyV3_empty_path_witness :
  EnvCopy.createEnvCopyV3 EnvCopy.ascii_trim EnvSamples.LF EnvSamples.noEnvFolder
    EnvSamples.invalidEnvFolderPath EnvSamples.writeStream "staging" "dev" "/proj"
    EnvSamples.emptyStore
  = (Normal (err (EnvSamples.invalidEnvFolderPath
       "missing 'environmentFolderPath' field or environment folder not exist")),
     EnvSamples.emptyStore).
Proof.
  apply (EnvCopyFacts.createEnvCopyV3_empty_path EnvCopy.ascii_trim EnvSamples.LF
           EnvSamples.noEnvFolder EnvSamples.invalidEnvFolderPath EnvSamples.writeStream
           "staging" "dev" "/proj" (Some "") (Some "")
           EnvSamples.emptyStore EnvSamples.emptyStore EnvSamples.emptyStore);
    try reflexivity.
  left. apply (bool_decide_unpack _). vm_compute. exact I.
Defined.

(** * The generator of the local [app.yml] *)

Module AppLocalYmlGeneratorFacts.
Import AppLocalYmlGenerator.
Section Local_facts.
Context {InstallToolArgs BuildArgs : Type}.
Context {Mem : Type} {collab : Collaborators Mem}.
Context (includeFunction includeTab includeBot : ProjectSettings → bool)
        (getFunctionName : ProjectSettings → option string)
        (isM365 : ProjectSettings → option bool)
        (render_local :
           string → LocalContext (InstallToolArgs:=InstallToolArgs) (BuildArgs:=BuildArgs)
           → Completion string).
Implicit Types (g : t (InstallToolArgs:=InstallToolArgs) (BuildArgs:=BuildArgs)).

(** X17.  The local [app.yml] is rendered from the js/ts template for
    every project: whatever the programming language of the old
    settings, csharp or none included, [generateAppYml] reads
    js.ts.app.local.yml, and it never refuses a project. *)
Theorem generateAppYml_always_js_ts g :
  generateAppYml includeFunction includeTab includeBot getFunctionName isM365 render_local g
  = buildHandlebarsTemplate render_local (generateHandlerbarsContext includeFunction includeTab includeBot
       getFunctionName isM365 g) "js.ts.app.local.yml".
Proof.
  unfold generateAppYml.
  destruct (Str.toLowerCase <$> programmingLanguage _) as [l|]; [|done].
  by destruct (decide (l = "javascript")), (decide (l = "typescript")).
Qed.

(** X18.  Assembling the context never changes the registerApp and
    configureApp sections, the placeholder mappings or the old
    settings, with or without single sign-on; and without single
    sign-on the deploy section stays as it is too: when the config has
    no deploy section, or one whose [sso] is not true, nothing in it is
    changed.  With single sign-on, of the deploy section only
    [ssoTab], [ssoBot] and [ssoFunction] can change. *)
Theorem generateHandlerbarsContext_without_sso g :
  let g' := generateHandlerbarsContext includeFunction includeTab includeBot
              getFunctionName isM365 g in
  registerApp (config (handlebarsContext g')) = registerApp (config (handlebarsContext g)) ∧
  configureApp (config (handlebarsContext g')) = configureApp (config (handlebarsContext g)) ∧
  lc_placeholderMappings (handlebarsContext g') = lc_placeholderMappings (handlebarsContext g) ∧
  oldProjectSettings g' = oldProjectSettings g ∧
  ((∀ d, deploy (config (handlebarsContext g)) = Some d → sso d ≠ Some true) →
   deploy (config (handlebarsContext g')) = deploy (config (handlebarsContext g))) ∧
  (∀ d, deploy (config (handlebarsContext g)) = Some d →
        ∃ tab bot function,
          deploy (config (handlebarsContext g')) = Some (with_sso d tab bot function)).
Proof.
  intros g'. repeat split.
  - intros Hsso. simpl.
    destruct (deploy (config (handlebarsContext g))) as [d|]; [|done].
    by rewrite bool_decide_eq_false_2 by by apply Hsso.
  - intros d Hdeploy. simpl. rewrite Hdeploy.
    destruct (bool_decide (sso d = Some true)).
    + unfold set_sso. eauto.
    + exists (ssoTab d), (ssoBot d), (ssoFunction d). by destruct d.
Qed.

(** X19.  With single sign-on and a tab, the template gets as function
    name the one of the project when the project includes a function
    and names it, getUserProfile when it includes a function and names
    none (or the empty string), and none when it includes no function;
    so the name is never the empty string.  [ssoFunction] is switched
    on when there is a function name and left as it was when there is
    none. *)
Theorem generateHandlerbarsContext_function_name g d :
  deploy (config (handlebarsContext g)) = Some d →
  sso d = Some true →
  includeTab (oldProjectSettings g) = true →
  ∃ d' functionName,
    deploy (config (handlebarsContext (generateHandlerbarsContext includeFunction includeTab includeBot
       getFunctionName isM365 g))) = Some d' ∧
    ssoTab d' = Some {| ssoTab_functionName := functionName |} ∧
    functionName ≠ Some "" ∧
    (functionName = None ↔ includeFunction (oldProjectSettings g) = false) ∧
    (includeFunction (oldProjectSettings g) = false → ssoFunction d' = ssoFunction d) ∧
    (includeFunction (oldProjectSettings g) = true →
     ssoFunction d' = Some true ∧
     (∀ name, getFunctionName (oldProjectSettings g) = Some name → name ≠ "" →
              functionName = Some name) ∧
     (getFunctionName (oldProjectSettings g) ∈ [None; Some ""] →
      functionName = Some "getUserProfile")).
Proof.
  intros Hdeploy Hsso Htab. simpl. rewrite Hdeploy.
  rewrite bool_decide_eq_true_2 by done.
  eexists _, _. split; [reflexivity|]. unfold set_sso; simpl. rewrite Htab.
  split; [reflexivity|].
  destruct (includeFunction (oldProjectSettings g)).
  - unfold or_default.
    destruct (getFunctionName (oldProjectSettings g)) as [name|].
    + destruct (decide (name = "")) as [->|Hname].
      * split; [done|]. split; [done|]. split; [done|]. intros _.
        split; [done|]. split; [by intros name [= <-]|done].
      * split; [congruence|]. split; [done|]. split; [done|]. intros _.
        split; [simpl; by rewrite bool_decide_eq_false_2 by done|].
        split; [by intros name' [= <-]|].
        intros [[=]|[=]%list_elem_of_singleton]%elem_of_cons. done.
    + split; [done|]. split; [done|]. split; [done|]. intros _.
      split; [done|]. split; [done|done].
  - split; [done|]. split; [done|]. split; [done|]. done.
Qed.

End Local_facts.
End AppLocalYmlGeneratorFacts.

(** The run of X18 on a config whose deploy section has no [sso]. *)
Lemma generateHandlerbarsContext_without_sso_witness :
  let g := AppLocalYmlGenerator.new Samples.typescriptSettings
             (LocalSamples.localConfig None) ∅ in
  AppLocalYmlGenerator.deploy
    (AppLocalYmlGenerator.config
       (AppLocalYmlGenerator.handlebarsContext
          (AppLocalYmlGenerator.generateHandlerbarsContext
             LocalSamples.yes LocalSamples.yes LocalSamples.yes LocalSamples.unnamed
             LocalSamples.notM365 g)))
  = Some (LocalSamples.localDeploy None).
Proof.
  intros g.
  destruct (AppLocalYmlGeneratorFacts.generateHandlerbarsContext_without_sso
              LocalSamples.yes LocalSamples.yes LocalSamples.yes LocalSamples.unnamed
              LocalSamples.notM365 g) as (_ & _ & _ & _ & Hdeploy & _).
  refine (eq_trans (Hdeploy _) _).
  - intros d [= <-]. discriminate.
  - reflexivity.
Defined.

(** The run of X19 on a project with a function that has no name. *)
Lemma generateHandlerbarsContext_function_name_witness :
  let g := AppLocalYmlGenerator.new Samples.typescriptSettings
             (LocalSamples.localConfig (Some true)) ∅ in
  ∃ d' functionName,
    AppLocalYmlGenerator.deploy
      (AppLocalYmlGenerator.config
         (AppLocalYmlGenerator.handlebarsContext
            (AppLocalYmlGenerator.generateHandlerbarsContext
               LocalSamples.yes LocalSamples.yes LocalSamples.yes LocalSamples.unnamed
               LocalSamples.notM365 g))) = Some d' ∧
    AppLocalYmlGenerator.ssoTab d'
      = Some {| AppLocalYmlGenerator.ssoTab_functionName := functionName |} ∧
    functionName = Some "getUserProfile" ∧
    AppLocalYmlGenerator.ssoFunction d' = Some true.
Proof.
  intros g.
  destruct (AppLocalYmlGeneratorFacts.generateHandlerbarsContext_function_name
              LocalSamples.yes LocalSamples.yes LocalSamples.yes LocalSamples.unnamed
              LocalSamples.notM365 g (LocalSamples.localDeploy (Some true))
              eq_refl eq_refl eq_refl)
    as (d' & functionName & Hdeploy & Htab & _ & _ & _ & Hfunction).
  destruct (Hfunction eq_refl) as (Hsso & _ & Hname).
  exists d', functionName. repeat split; try done.
  apply Hname. apply elem_of_cons. by left.
Defined.

(** * The settings file: [readSettings] and [writeSettings] *)

Module SettingsUtilsFacts.
Import SettingsUtils.
Section Settings_facts.
Context {Doc Value : Type}.
Context (parseDocument : string → Doc)
        (doc_has : Doc → string → bool)
        (doc_get : Doc → string → Value)
        (doc_add_pair : Doc → string → string → Completion Doc)
        (doc_set : Doc → string → Value → Completion Doc)
        (doc_toString : Doc → Completion string).
Context (getProjectSettingPathV3 : string → string)
        (PathNotExistError : string → FxError)
        (uuid_v4 : nat → string).
Implicit Types s : Store (Globals Value).

Lemma pathExists_absent file s :
  files s !! file = None → file ∉ dirs s → pathExists_body file s = (Normal false, s).
Proof.
  intros Hfile Hdir. unfold pathExists_body. rewrite Hfile.
  rewrite (bool_decide_eq_false_2 (file ∈ dirs s)) by done.
  rewrite bool_decide_eq_false_2; [done|]. by intros [? ?].
Qed.

Lemma pathExists_file file content s :
  files s !! file = Some content → pathExists_body file s = (Normal true, s).
Proof.
  intros Hfile. unfold pathExists_body. rewrite Hfile.
  by rewrite bool_decide_eq_true_2 by by eexists.
Qed.

Lemma readFile_file file content s :
  files s !! file = Some content → readFile_body file s = (Normal content, s).
Proof. intros Hfile. unfold readFile_body. by rewrite Hfile. Qed.

(** X20.  Neither function creates the settings file: on a project
    whose settings path does not exist, [readSettings] and
    [writeSettings] return the [PathNotExistError] of that path as an
    error result and leave everything as it was; no identifier is
    drawn and no tracking id is published. *)
Theorem settings_file_missing projectPath ensureTrackingId settings s :
  files s !! getProjectSettingPathV3 projectPath = None →
  getProjectSettingPathV3 projectPath ∉ dirs s →
  readSettings parseDocument doc_has doc_get doc_add_pair doc_toString
    getProjectSettingPathV3 PathNotExistError uuid_v4 projectPath ensureTrackingId s
  = (Normal (err (PathNotExistError (getProjectSettingPathV3 projectPath))), s) ∧
  writeSettings parseDocument doc_set doc_toString getProjectSettingPathV3 PathNotExistError
    projectPath settings s
  = (Normal (err (PathNotExistError (getProjectSettingPathV3 projectPath))), s).
Proof.
  intros Hfile Hdir. unfold readSettings, writeSettings.
  by rewrite (pathExists_absent _ _ Hfile Hdir).
Qed.

(** X21.  When [readSettings] fills in a missing project id it draws
    two identifiers: the second one is put into the document, written
    to the file and returned as the tracking id; the first one is what
    the FillProjectId telemetry event reports.  The id in the telemetry
    is therefore not the id of the project unless the two draws
    agree. *)
Theorem readSettings_fills_project_id projectPath content appYaml' text s :
  let file := getProjectSettingPathV3 projectPath in
  let n := drawn (mem s) in
  files s !! file = Some content →
  doc_has (parseDocument content) "projectId" = false →
  doc_add_pair (parseDocument content) "projectId" (uuid_v4 (S n)) = Normal appYaml' →
  doc_toString appYaml' = Normal text →
  readSettings parseDocument doc_has doc_get doc_add_pair doc_toString
    getProjectSettingPathV3 PathNotExistError uuid_v4 projectPath true s
  = (Normal (ok {| settings_trackingId := doc_get appYaml' "projectId";
                   settings_version := doc_get appYaml' "version" |}),
     {| files := <[file := text]> (files s);
        dirs := dirs s;
        mem := {| drawn := S (S n);
                  fillProjectId_sent := fillProjectId_sent (mem s) ++ [uuid_v4 n];
                  trackingId := Some (doc_get appYaml' "projectId") |} |}).
Proof.
  intros file n Hfile Hhas Hadd Htext. unfold readSettings. fold file.
  rewrite (pathExists_file _ _ _ Hfile), (readFile_file _ _ _ Hfile), Hhas. simpl.
  fold n. rewrite Hadd, Htext. reflexivity.
Qed.

(** X22.  Reading settings that have a project id, or reading with
    [ensureTrackingId] off, does not touch the file: no identifier is
    drawn, nothing is written and no telemetry is sent; the result is
    what the document holds under projectId and version, and
    [globalVars.trackingId] takes that projectId, also when the
    document has none. *)
Theorem readSettings_leaves_file projectPath ensureTrackingId content s :
  let file := getProjectSettingPathV3 projectPath in
  let appYaml := parseDocument content in
  files s !! file = Some content →
  doc_has appYaml "projectId" = true ∨ ensureTrackingId = false →
  readSettings parseDocument doc_has doc_get doc_add_pair doc_toString
    getProjectSettingPathV3 PathNotExistError uuid_v4 projectPath ensureTrackingId s
  = (Normal (ok {| settings_trackingId := doc_get appYaml "projectId";
                   settings_version := doc_get appYaml "version" |}),
     {| files := files s;
        dirs := dirs s;
        mem := {| drawn := drawn (mem s);
                  fillProjectId_sent := fillProjectId_sent (mem s);
                  trackingId := Some (doc_get appYaml "projectId") |} |}).
Proof.
  intros file appYaml Hfile Hcase. unfold readSettings. fold file.
  rewrite (pathExists_file _ _ _ Hfile), (readFile_file _ _ _ Hfile). fold appYaml.
  assert (negb (doc_has appYaml "projectId") && ensureTrackingId = false) as ->; [|done].
  destruct Hcase as [->| ->]; [done|]. apply andb_false_r.
Qed.

(** X24.  [readSettings] after [writeSettings].  When the yaml library
    reads the written text back as the document that was printed, and
    that document has a project id (or [ensureTrackingId] is off), the
    read after the write draws no identifier, sends no telemetry and
    leaves the written file alone; the tracking id and the version it
    returns are those of the written document, so the version of the
    settings passed to [writeSettings] is not stored. *)
Theorem writeSettings_then_readSettings
    projectPath settings ensureTrackingId content appYaml text s :
  let file := getProjectSettingPathV3 projectPath in
  let written :=
    writeSettings parseDocument doc_set doc_toString getProjectSettingPathV3
      PathNotExistError projectPath settings s in
  files s !! file = Some content →
  doc_set (parseDocument content) "projectId" (settings_trackingId settings) = Normal appYaml →
  doc_toString appYaml = Normal text →
  parseDocument text = appYaml →
  doc_has appYaml "projectId" = true ∨ ensureTrackingId = false →
  written.1 = Normal (ok file) ∧
  readSettings parseDocument doc_has doc_get doc_add_pair doc_toString
    getProjectSettingPathV3 PathNotExistError uuid_v4 projectPath ensureTrackingId written.2
  = (Normal (ok {| settings_trackingId := doc_get appYaml "projectId";
                   settings_version := doc_get appYaml "version" |}),
     {| files := <[file := text]> (files s);
        dirs := dirs s;
        mem := {| drawn := drawn (mem s);
                  fillProjectId_sent := fillProjectId_sent (mem s);
                  trackingId := Some (doc_get appYaml "projectId") |} |}).
Proof.
  intros file written Hfile Hset Htext Hparse Hcase.
  assert (written = (Normal (ok file), writeFile file text s)) as ->.
  { unfold written, writeSettings. fold file.
    by rewrite (pathExists_file _ _ _ Hfile), (readFile_file _ _ _ Hfile), Hset, Htext. }
  split; [done|]. cbn [snd].
  assert (files (writeFile file text s) !! file = Some text) as Hfile'.
  { apply lookup_insert_eq. }
  unfold readSettings. fold file.
  rewrite (pathExists_file _ _ _ Hfile'), (readFile_file _ _ _ Hfile'), Hparse.
  assert (negb (doc_has appYaml "projectId") && ensureTrackingId = false) as ->; [|done].
  destruct Hcase as [->| ->]; [done|]. apply andb_false_r.
Qed.

End Settings_facts.
End SettingsUtilsFacts.

(** The run of X20 on an empty project. *)
Lemma settings_file_missing_witness :
  SettingsUtils.readSettings YamlSamples.parse YamlSamples.has YamlSamples.get
    YamlSamples.add_pair YamlSamples.toString YamlSamples.settingsPath
    YamlSamples.pathNotExist YamlSamples.uuid "/proj" true (YamlSamples.state ∅)
  = (Normal (err (YamlSamples.pathNotExist "/proj/teamsapp.yml")), YamlSamples.state ∅).
Proof.
  apply (SettingsUtilsFacts.settings_file_missing YamlSamples.parse YamlSamples.has
           YamlSamples.get YamlSamples.add_pair YamlSamples.set YamlSamples.toString
           YamlSamples.settingsPath YamlSamples.pathNotExist YamlSamples.uuid "/proj" true
           {| SettingsUtils.settings_trackingId := None;
              SettingsUtils.settings_version := None |}
           (YamlSamples.state ∅)).
  - reflexivity.
  - apply (bool_decide_unpack _). vm_compute. exact I.
Defined.

(** The run of X21 on a settings file without project id: the file
    gets id-1, the telemetry id-0. *)
Lemma readSettings_fills_project_id_witness :
  let s := YamlSamples.state {["/proj/teamsapp.yml" := "version: 1.0.0"]} in
  let run :=
    SettingsUtils.readSettings YamlSamples.parse YamlSamples.has YamlSamples.get
      YamlSamples.add_pair YamlSamples.toString YamlSamples.settingsPath
      YamlSamples.pathNotExist YamlSamples.uuid "/proj" true s in
  run.1 = Normal (ok {| SettingsUtils.settings_trackingId := Some "id-1";
                        SettingsUtils.settings_version := Some "1.0.0" |}) ∧
  files run.2 !! "/proj/teamsapp.yml"
    = Some (YamlSamples.print [("version", "1.0.0"); ("projectId", "id-1")]) ∧
  SettingsUtils.fillProjectId_sent (mem run.2) = ["id-0"].
Proof.
  intros s run. unfold run.
  rewrite (SettingsUtilsFacts.readSettings_fills_project_id YamlSamples.parse YamlSamples.has
             YamlSamples.get YamlSamples.add_pair YamlSamples.toString
             YamlSamples.settingsPath YamlSamples.pathNotExist YamlSamples.uuid "/proj"
             "version: 1.0.0" [("version", "1.0.0"); ("projectId", "id-1")]
             (YamlSamples.print [("version", "1.0.0"); ("projectId", "id-1")]) s
             eq_refl eq_refl eq_refl eq_refl).
  repeat split; reflexivity.
Defined.

(** The run of X22 on a settings file with project id abc-123. *)
Lemma readSettings_leaves_file_witness :
  let text := YamlSamples.print [("version", "1.0.0"); ("projectId", "abc-123")] in
  let s := YamlSamples.state {["/proj/teamsapp.yml" := text]} in
  let run :=
    SettingsUtils.readSettings YamlSamples.parse YamlSamples.has YamlSamples.get
      YamlSamples.add_pair YamlSamples.toString YamlSamples.settingsPath
      YamlSamples.pathNotExist YamlSamples.uuid "/proj" true s in
  run.1 = Normal (ok {| SettingsUtils.settings_trackingId := Some "abc-123";
                        SettingsUtils.settings_version := Some "1.0.0" |}) ∧
  files run.2 = files s ∧
  SettingsUtils.drawn (mem run.2) = 0 ∧
  SettingsUtils.fillProjectId_sent (mem run.2) = [].
Proof.
  intros text s run. unfold run.
  rewrite (SettingsUtilsFacts.readSettings_leaves_file YamlSamples.parse YamlSamples.has
             YamlSamples.get YamlSamples.add_pair YamlSamples.toString
             YamlSamples.settingsPath YamlSamples.pathNotExist YamlSamples.uuid "/proj"
             true text s eq_refl (or_introl eq_refl)).
  repeat split; reflexivity.
Defined.

(** The run of X24: the settings passed carry version 9.9.9, the file
    keeps 1.0.0. *)
Lemma writeSettings_then_readSettings_witness :
  let s := YamlSamples.state {["/proj/teamsapp.yml" := "version: 1.0.0"]} in
  let settings := {| SettingsUtils.settings_trackingId := Some "abc-123";
                     SettingsUtils.settings_version := Some "9.9.9" |} in
  let written :=
    SettingsUtils.writeSettings YamlSamples.parse YamlSamples.set YamlSamples.toString
      YamlSamples.settingsPath YamlSamples.pathNotExist "/proj" settings s in
  let run :=
    SettingsUtils.readSettings YamlSamples.parse YamlSamples.has YamlSamples.get
      YamlSamples.add_pair YamlSamples.toString YamlSamples.settingsPath
      YamlSamples.pathNotExist YamlSamples.uuid "/proj" true written.2 in
  written.1 = Normal (ok "/proj/teamsapp.yml") ∧
  run.1 = Normal (ok {| SettingsUtils.settings_trackingId := Some "abc-123";
                        SettingsUtils.settings_version := Some "1.0.0" |}) ∧
  SettingsUtils.drawn (mem run.2) = 0.
Proof.
  intros s settings written run.
  destruct (SettingsUtilsFacts.writeSettings_then_readSettings YamlSamples.parse
              YamlSamples.has YamlSamples.get YamlSamples.add_pair YamlSamples.set
              YamlSamples.toString YamlSamples.settingsPath YamlSamples.pathNotExist
              YamlSamples.uuid "/proj" settings true "version: 1.0.0"
              [("version", "1.0.0"); ("projectId", "abc-123")]
              (YamlSamples.print [("version", "1.0.0"); ("projectId", "abc-123")]) s
              eq_refl eq_refl eq_refl eq_refl (or_introl eq_refl)) as [Hw Hr].
  split; [exact Hw|]. unfold run, written. rewrite Hr. split; reflexivity.
Defined.
